(** * certbot-dns-ngenix: the zone-record reconciliation workflow

    A shallow embedding of [src/certbot_dns_ngenix/dns_ngenix.py]
    (class [_NGENIXClient]) and the properties the specification states
    about it.

    - JSON values are an inductive type whose objects are finite maps, so
      that Leibniz equality on a record is Python's [dict] equality.
    - Python objects that are mutated in place (the record dictionaries)
      live in an object store; a record set is a list of references into it.
    - The provider, the file system, the clock and the public resolver are
      an environment [env] that answers each request.
    - Text is ASCII, as domain names and the output of dig are: a
      character of a [string] is a character of the Python text. *)

From Stdlib Require Import Ascii String.
From stdpp Require Import gmap strings list fin_maps pretty.

Local Set Warnings "-register-all".

(** ** JSON values, as [requests]' [.json()] hands them to the code *)

Inductive json :=
  | JNull
  | JBool (b : bool)
  | JNum (n : Z)
  | JStr (s : string)
  | JArr (l : list json)
  | JObj (m : gmap string json).

Fixpoint json_eq_dec (x y : json) {struct x} : Decision (x = y).
Proof.
  refine (
    match x, y with
    | JNull, JNull => left _
    | JBool a, JBool b => cast_if (decide (a = b))
    | JNum a, JNum b => cast_if (decide (a = b))
    | JStr a, JStr b => cast_if (decide (a = b))
    | JArr a, JArr b => cast_if (@list_eq_dec _ json_eq_dec a b)
    | JObj a, JObj b => cast_if (@gmap_eq_dec string _ _ json json_eq_dec a b)
    | _, _ => right _
    end); congruence.
Defined.

#[export] Instance json_eqdec : EqDecision json := json_eq_dec.

(** A record, and an element of the zone list, is a JSON object. *)
Abbreviation record := (gmap string json).
Abbreviation jobj := (gmap string json).

(** The line feed of the f-strings. *)
Definition nl : string := String "010"%char "".

(** ** The regular expressions of the suffix-matching loop

    The loop starts from a single capturing group of a greedy dot-star
    and, from the second attempt on, puts a lazy dot-star and an escaped
    dot in front of the pattern it has.  Only these three pieces ever
    occur; a pattern is their sequence, and [pattern] prints its text. *)

Inductive re_item :=
  | AnyStarLazy    (* lazy dot-star *)
  | LitDot         (* escaped dot *)
  | GroupAnyStar.  (* capturing group of a greedy dot-star *)

Abbreviation regex := (list re_item).

Definition item_pattern (i : re_item) : string :=
  match i with
  | AnyStarLazy => ".*?"
  | LitDot => "\."
  | GroupAnyStar => "(.*)"
  end.

(** The pattern text a [regex] stands for. *)
Fixpoint pattern (r : regex) : string :=
  match r with
  | [] => ""
  | i :: r' => item_pattern i +:+ pattern r'
  end.

(** [.] matches every character but the line feed. *)
Definition dot_matches (c : ascii) : bool :=
  negb (bool_decide (c = "010"%char)).

(** Backtracking match of [r] at the head of the subject, in the order
    Python's [re] explores the alternatives: a lazy star tries the rest of
    the pattern before it takes one more character, a greedy star takes
    one more character first.  [Some g] is a match, [g] the text of
    group 1 when the pattern has one. *)
Fixpoint match_here (r : regex) : string → option (option string) :=
  match r with
  | [] => λ _, Some None
  | LitDot :: r' => λ s,
      match s with
      | String c s' => if bool_decide (c = "."%char) then match_here r' s' else None
      | EmptyString => None
      end
  | AnyStarLazy :: r' =>
      fix lazy (s : string) : option (option string) :=
        match match_here r' s with
        | Some g => Some g
        | None =>
            match s with
            | String c s' => if dot_matches c then lazy s' else None
            | EmptyString => None
            end
        end
  | GroupAnyStar :: r' =>
      fix greedy (s : string) : option (option string) :=
        let stop := match match_here r' s with
                    | Some _ => Some (Some EmptyString)
                    | None => None
                    end in
        match s with
        | String c s' =>
            if dot_matches c then
              match greedy s' with
              | Some (Some g) => Some (Some (String c g))
              | _ => stop
              end
            else stop
        | EmptyString => stop
        end
  end.

(** [re.search]: the first start position, from the left, with a match. *)
Fixpoint re_search (r : regex) (s : string) : option (option string) :=
  match match_here r s with
  | Some g => Some g
  | None =>
      match s with
      | String _ s' => re_search r s'
      | EmptyString => None
      end
  end.

(** The pattern of attempt [i]: the group, behind [i] copies of the
    lazy dot-star and escaped dot. *)
Fixpoint regex_at (i : nat) : regex :=
  match i with
  | 0 => [GroupAnyStar]
  | S i' => AnyStarLazy :: LitDot :: regex_at i'
  end.

(** ** Stripping labels, in the specification's words

    The text after the first dot, and the domain with its [k] leftmost
    labels stripped ([None] when it has fewer than [k] dots). *)

Fixpoint after_first_dot (s : string) : option string :=
  match s with
  | EmptyString => None
  | String c s' => if bool_decide (c = "."%char) then Some s' else after_first_dot s'
  end.

Fixpoint strip_labels (k : nat) (d : string) : option string :=
  match k with
  | 0 => Some d
  | S k' => after_first_dot d ≫= strip_labels k'
  end.

(** A string with no line feed, as every domain name is. *)
Fixpoint single_line (s : string) : bool :=
  match s with
  | EmptyString => true
  | String c s' => dot_matches c && single_line s'
  end.

(** ** Exceptions and outcomes *)

(** [PluginError] is certbot's [errors.PluginError]; [PyError] is any
    other subclass of [Exception], with its class name.  [str] is the
    text [str(e)] gives. *)
Inductive exn :=
  | PluginError (msg : string)
  | PyError (cls msg : string).

Definition str (e : exn) : string :=
  match e with
  | PluginError msg => msg
  | PyError _ msg => msg
  end.

(** What a call does: return, raise, or (for the [while] loop, which is
    run on fuel) not finish within the fuel. *)
Inductive outcome (A : Type) :=
  | Ok (a : A)
  | Raise (e : exn)
  | NoFuel.
Arguments Ok {A} a.
Arguments Raise {A} e.
Arguments NoFuel {A}.

(** ** The object store and the observable events *)

(** A reference to a record dictionary: its index in the store. *)
Abbreviation loc := nat.

Inductive event :=
  | EvListZones                                            (* GET /dns-zone *)
  | EvGetZone (zone_id : json)                             (* GET /dns-zone/id *)
  | EvPatch (zone_id : json) (records : list record)       (* PATCH /dns-zone/id, body records *)
  | EvBackup (path : string) (zone_id : json) (records : list record)
                                                           (* file written: the id, then json.dumps records *)
  | EvDig (name : string)                                  (* dig @8.8.8.8 -t TXT name +short *)
  | EvSleep (seconds : Z).                                 (* time.sleep *)

#[export] Instance event_eqdec : EqDecision event.
Proof. solve_decision. Defined.

Record world := World {
  heap : list record;      (* the record dictionaries alive *)
  trace : list event;      (* what was done so far, oldest first *)
  zone_calls : nat;        (* zone-list requests issued so far *)
  dig_calls : nat;         (* resolver queries issued so far *)
}.

Definition M (A : Type) : Type := world → world * outcome A.

Definition ret {A} (a : A) : M A := λ w, (w, Ok a).
Definition raise {A} (e : exn) : M A := λ w, (w, Raise e).
Definition bind {A B} (m : M A) (k : A → M B) : M B :=
  λ w, match m w with
       | (w', Ok a) => k a w'
       | (w', Raise e) => (w', Raise e)
       | (w', NoFuel) => (w', NoFuel)
       end.

(** [try: m except Exception as e: h e]. *)
Definition try_except {A} (m : M A) (h : exn → M A) : M A :=
  λ w, match m w with
       | (w', Raise e) => h e w'
       | r => r
       end.

Notation "'let!' x ':=' m 'in' k" := (bind m (λ x, k))
  (at level 10, x name, m at level 100, k at level 200, only parsing).
Notation "'let!' ' p ':=' m 'in' k" := (bind m (λ x, match x with p => k end))
  (at level 10, p pattern, m at level 100, k at level 200, only parsing).

Definition log (ev : event) : M unit :=
  λ w, (World (heap w) (trace w ++ [ev]) (zone_calls w) (dig_calls w), Ok tt).

(** The record dictionaries a list of references stands for. *)
Definition deref (h : list record) (ls : list loc) : list record :=
  omap (λ l, h !! l) ls.

(** New dictionaries: they go to the end of the store. *)
Definition alloc (rs : list record) : M (list loc) :=
  λ w, (World (heap w ++ rs) (trace w) (zone_calls w) (dig_calls w),
        Ok (seq (length (heap w)) (length rs))).

(** [copy.deepcopy] of a list of records: new dictionaries, equal ones,
    one for each element.  (The lists the client copies come from one
    parse of a response and hold no dictionary twice; [copy.deepcopy]
    would copy such a dictionary once.) *)
Definition deepcopy (ls : list loc) : M (list loc) :=
  λ w, alloc (deref (heap w) ls) w.

(** [json.dumps] of a list of records reads them as they are now. *)
Definition dumps (ls : list loc) : M (list record) :=
  λ w, (w, Ok (deref (heap w) ls)).

(** ** The environment *)

(** A request to the provider: [requests] raised and bound no response;
    or a response came whose body is not the JSON looked for; or the
    value looked up in the body. *)
Inductive http_result (A : Type) :=
  | NoResponse
  | BadBody (status_code : Z) (text : string)
  | Body (a : A).
Arguments NoResponse {A}.
Arguments BadBody {A} status_code text.
Arguments Body {A} a.

Record datetime := Datetime {
  year : nat; month : nat; day : nat;
  hour : nat; minute : nat; second : nat; microsecond : nat;
}.

Record env := Env {
  customer_id : string;
  (* the 'elements' of the [k]-th zone-list request of the run *)
  zones_resp : nat → http_result (list jobj);
  (* the 'records' of GET /dns-zone/id *)
  records_resp : json → http_result (list record);
  (* the 'records' of the answer to PATCH /dns-zone/id *)
  patch_resp : json → list record → http_result (list record);
  (* datetime.datetime.now() *)
  now : datetime;
  (* making the directory and writing the file at this path: the
     exception raised, if any *)
  write_err : string → option exn;
  (* the [k]-th dig of the run: its output lines, or what check_output
     or decode raised *)
  dig_resp : nat → exn + list string;
  (* re.sub, in the record name and by the empty string, of the pattern
     made of an escaped dot, the zone name read as a pattern, and the end
     anchor; or the error of a zone name that is no pattern *)
  re_sub_zone_suffix : string → string → exn + string;
  (* the text of the interpreter's UnboundLocalError for a local variable
     of this name: it is not the same in every version of Python *)
  unbound_local_message : string → string;
}.

(** An [except] block that reads the response variable when the request
    itself raised: the variable was never bound. *)
Definition unbound_local (E : env) (v : string) : exn :=
  PyError "UnboundLocalError" (unbound_local_message E v).

(** ** strftime of '%Y-%m-%d_%H-%M-%S'

    For the years of four digits, which are the years of the clock. *)

Definition digit (n : nat) : ascii := ascii_of_nat (48 + n mod 10).

Definition dec2 (n : nat) : string :=
  String (digit (n / 10)) (String (digit n) "").

Definition dec4 (n : nat) : string :=
  String (digit (n / 1000)) (String (digit (n / 100)) (dec2 n)).

Definition strftime (t : datetime) : string :=
  dec4 (year t) +:+ "-" +:+ dec2 (month t) +:+ "-" +:+ dec2 (day t) +:+ "_"
  +:+ dec2 (hour t) +:+ "-" +:+ dec2 (minute t) +:+ "-" +:+ dec2 (second t).

(** [os.path.join(os.sep, 'tmp', 'ngenix-dns-zone', file_name)]: a last
    component that is itself absolute replaces what is before it. *)
Definition backup_path (file_name : string) : string :=
  match file_name with
  | String "/" _ => file_name
  | _ => "/tmp/ngenix-dns-zone/" +:+ file_name
  end.

(** [s[1:-1]]. *)
Fixpoint drop_last (s : string) : string :=
  match s with
  | EmptyString => ""
  | String c s' => match s' with EmptyString => "" | _ => String c (drop_last s') end
  end.

Definition slice_1_m1 (s : string) : string :=
  drop_last (match s with EmptyString => "" | String _ s' => s' end).

(** ** The client: [_NGENIXClient] *)

(** What an f-string prints for a JSON scalar.  Zone ids are scalars;
    for a list or a dictionary only the brackets are kept. *)
Definition py_str (v : json) : string :=
  match v with
  | JNull => "None"
  | JBool true => "True"
  | JBool false => "False"
  | JNum n => pretty n
  | JStr s => s
  | JArr _ => "[...]"
  | JObj _ => "{...}"
  end.

Definition py_type_name (v : json) : string :=
  match v with
  | JNull => "NoneType"
  | JBool _ => "bool"
  | JNum _ => "int"
  | JStr _ => "str"
  | JArr _ => "list"
  | JObj _ => "dict"
  end.


Definition http_error (what : string) (status_code : Z) (text : string) : exn :=
  PluginError (what +:+ nl
    +:+ "Error status code: " +:+ pretty status_code +:+ "." +:+ nl
    +:+ "Error text: " +:+ text +:+ "." +:+ nl).

Definition lift {A} (r : exn + A) : M A :=
  match r with
  | inl e => raise e
  | inr a => ret a
  end.

(** [{'data': record_data, 'name': record_name, 'type': 'TXT'}] *)
Definition txt_record (record_name record_data : string) : record :=
  {[ "data" := JStr record_data; "name" := JStr record_name; "type" := JStr "TXT" ]}.

(** [record[ref].pop('link', None)]: only a dictionary has that [pop]. *)
Definition pop_link (ref : string) (v : json) (r : record) : exn + record :=
  match v with
  | JObj m => inr (<[ref := JObj (delete "link" m)]> r)
  | JArr _ => inl (PyError "TypeError" "pop expected at most 1 argument, got 2")
  | _ => inl (PyError "AttributeError"
                ("'" +:+ py_type_name v +:+ "' object has no attribute 'pop'"))
  end.

(** The body of the [for] loop of [_update_dns_zone_records], on one
    record: [configRef] if the record has it, else [targetGroupRef] if it
    has that, else nothing. *)
Definition strip_link (r : record) : exn + record :=
  match r !! "configRef" with
  | Some v => pop_link "configRef" v r
  | None =>
      match r !! "targetGroupRef" with
      | Some v => pop_link "targetGroupRef" v r
      | None => inr r
      end
  end.

(** [[z for z in dns_zones if z['name'] == domain]]; [None] is the
    [KeyError] of an element with no name. *)
Fixpoint zones_named (domain : string) (dns_zones : list jobj) : option (list jobj) :=
  match dns_zones with
  | [] => Some []
  | dns_zone :: rest =>
      match dns_zone !! "name" with
      | None => None
      | Some name =>
          match zones_named domain rest with
          | None => None
          | Some found =>
              Some (if decide (name = JStr domain) then dns_zone :: found else found)
          end
      end
  end.

(** [tag] is truthy: neither [None] nor the empty string. *)
Definition truthy (tag : option string) : option string :=
  match tag with
  | Some EmptyString => None
  | _ => tag
  end.

Section client.
Context (E : env).

(** *** Requests *)

Definition http_list_zones : M (http_result (list jobj)) :=
  λ w, (World (heap w) (trace w ++ [EvListZones]) (S (zone_calls w)) (dig_calls w),
        Ok (zones_resp E (zone_calls w))).

Definition http_get_zone (dns_zone_id : json) : M (http_result (list record)) :=
  let! _ := log (EvGetZone dns_zone_id) in
  ret (records_resp E dns_zone_id).

Definition http_patch (dns_zone_id : json) (records : list record)
  : M (http_result (list record)) :=
  let! _ := log (EvPatch dns_zone_id records) in
  ret (patch_resp E dns_zone_id records).

Definition check_output_dig (record_name : string) : M (list string) :=
  λ w, (World (heap w) (trace w ++ [EvDig record_name]) (zone_calls w) (S (dig_calls w)),
        match dig_resp E (dig_calls w) with
        | inl e => Raise e
        | inr lines => Ok lines
        end).

Definition sleep (seconds : Z) : M unit := log (EvSleep seconds).

(** *** [_get_dns_zone_id] *)

Definition zone_id_error (domain : string) : exn :=
  PluginError ("Error occurred while trying to get dns zone id for domain "
               +:+ domain +:+ "." +:+ nl).

Definition _get_dns_zone_id (domain : string) : M json :=
  let! dns_zones_res := http_list_zones in
  match dns_zones_res with
  | NoResponse => raise (unbound_local E "dns_zones_res")
  | BadBody status_code text =>
      raise (http_error
               ("Error occurred while trying to get a list of dns zones for customer "
                +:+ customer_id E +:+ ".") status_code text)
  | Body dns_zones =>
      match zones_named domain dns_zones with
      | Some (dns_zone_info :: _) =>
          match dns_zone_info !! "id" with
          | Some dns_zone_id => ret dns_zone_id
          | None => raise (zone_id_error domain)
          end
      | _ => raise (zone_id_error domain)
      end
  end.

(** *** [_get_dns_zone_records] *)

Definition _get_dns_zone_records (dns_zone_id : json) : M (list loc) :=
  let! dns_zone_res := http_get_zone dns_zone_id in
  match dns_zone_res with
  | NoResponse => raise (unbound_local E "dns_zone_res")
  | BadBody status_code text =>
      raise (http_error
               ("Error occurred while trying to get dns zone "
                +:+ py_str dns_zone_id +:+ ".") status_code text)
  | Body dns_zone_records => alloc dns_zone_records
  end.

(** *** [_create_backup_file] *)

Definition backup_file_name (domain : string) (t : datetime) (tag : option string)
  : string :=
  match truthy tag with
  | Some tag => domain +:+ "." +:+ strftime t +:+ "." +:+ tag +:+ ".json"
  | None => domain +:+ "." +:+ strftime t +:+ ".json"
  end.

Definition _create_backup_file (dns_zone_id : json) (domain : string)
    (dns_zone_records : list loc) (tag : option string) : M string :=
  let current_time := now E in
  let file_name := backup_file_name domain current_time tag in
  let file_path := backup_path file_name in
  match write_err E file_path with
  | Some e => raise e
  | None =>
      let! content := dumps dns_zone_records in
      let! _ := log (EvBackup file_path dns_zone_id content) in
      ret file_path
  end.

(** *** [_add_txt_record] and [_delete_txt_record] *)

Definition _add_txt_record (record_name record_data : string)
    (dns_zone_records : list loc) : M (list loc) :=
  let! new_dns_zone_records := deepcopy dns_zone_records in
  let new_record := txt_record record_name record_data in
  let! l := alloc [new_record] in
  ret (new_dns_zone_records ++ l).

(** The deep copy is made and then dropped: the comprehension runs over
    [dns_zone_records] itself and keeps its dictionaries. *)
Definition _delete_txt_record (record_name record_data : string)
    (dns_zone_records : list loc) : M (list loc) :=
  let! _ := deepcopy dns_zone_records in
  let deleted_record := txt_record record_name record_data in
  λ w, (w, Ok (filter (λ l, heap w !! l ≠ Some deleted_record) dns_zone_records)).

(** *** [_update_dns_zone_records] *)

(** One turn of the [for] loop: the dictionary behind [l] is changed in
    place.  (A reference with no dictionary behind it does not occur.) *)
Definition strip_at (l : loc) : M unit :=
  λ w, match heap w !! l with
       | None => (w, Ok tt)
       | Some r =>
           match strip_link r with
           | inl e => (w, Raise e)
           | inr r' =>
               (World (<[l := r']> (heap w)) (trace w) (zone_calls w) (dig_calls w),
                Ok tt)
           end
       end.

Fixpoint strip_links (ls : list loc) : M unit :=
  match ls with
  | [] => ret tt
  | l :: ls' => let! _ := strip_at l in strip_links ls'
  end.

Definition _update_dns_zone_records (dns_zone_id : json)
    (new_dns_zone_records : list loc) : M (list record) :=
  let! _ := strip_links new_dns_zone_records in
  let! new_records := dumps new_dns_zone_records in
  let! update_dns_zone_records_res := http_patch dns_zone_id new_records in
  match update_dns_zone_records_res with
  | NoResponse => raise (unbound_local E "update_dns_zone_records_res")
  | BadBody status_code text =>
      raise (http_error
               ("Error occurred while trying to update records in dns zone "
                +:+ py_str dns_zone_id +:+ ".") status_code text)
  | Body updated_dns_zone_records => ret updated_dns_zone_records
  end.

(** *** [_wait_for_record_propagation] *)

Definition dig_txt_records (record_name : string) : M (list string) :=
  let! lines := check_output_dig record_name in
  ret (slice_1_m1 <$> lines).

Definition retries_error (record_name : string) : exn :=
  PluginError ("Maximum amount of retries reached while trying to get new TXT record "
               +:+ record_name +:+ "." +:+ nl).

(** The [while] loop, on fuel: one unit for each turn. *)
Fixpoint wait_loop (fuel : nat) (record_name record_data : string)
    (counter : Z) (txt_records : list string) : M unit :=
  if decide (record_data ∈ txt_records) then ret tt
  else
    match fuel with
    | 0 => λ w, (w, NoFuel)
    | S fuel' =>
        let! txt_records := dig_txt_records record_name in
        let counter := (counter - 1)%Z in
        if decide (counter = 0%Z) then raise (retries_error record_name)
        else
          let! _ := sleep 60 in
          wait_loop fuel' record_name record_data counter txt_records
    end.

Definition _wait_for_record_propagation (fuel : nat)
    (record_name record_data : string) : M unit :=
  let! txt_records := dig_txt_records record_name in
  let counter := 15%Z in
  wait_loop fuel record_name record_data counter txt_records.

(** *** The suffix-matching loop of the two entry points *)

(** [re.search(regex, domain).group(1)] *)
Definition search_group1 (r : regex) (domain : string) : M string :=
  match re_search r domain with
  | Some (Some g) => ret g
  | Some None => raise (PyError "IndexError" "no such group")
  | None => raise (PyError "AttributeError"
                     "'NoneType' object has no attribute 'group'")
  end.

(** [for i in range(4)], from turn [i] with [n] turns left.  The two
    entry points differ in the error of the fourth failure only,
    [zone_error]. *)
Fixpoint resolve_from (zone_error : exn → exn) (n i : nat) (r : regex)
    (domain : string) : M (string * json) :=
  match n with
  | 0 => raise (unbound_local E "dns_zone_id")
  | S n' =>
      let r := if decide (i ≠ 0) then AnyStarLazy :: LitDot :: r else r in
      try_except
        (let! domain_zone := search_group1 r domain in
         let! dns_zone_id := _get_dns_zone_id domain_zone in
         ret (domain_zone, dns_zone_id))
        (λ e, if decide (i = 3) then raise (zone_error e)
              else resolve_from zone_error n' (S i) r domain)
  end.

Definition resolve_zone (zone_error : exn → exn) (domain : string)
  : M (string * json) :=
  resolve_from zone_error 4 0 [GroupAnyStar] domain.

Definition add_zone_error (e : exn) : exn :=
  PluginError ("Error occurred while trying to get domain zone name." +:+ nl).

Definition delete_zone_error (e : exn) : exn :=
  PluginError ("Error occurred while trying to get domain zone name and id." +:+ nl
               +:+ "Error text: " +:+ str e +:+ "." +:+ nl).

(** *** [add_txt_record] and [delete_txt_record] *)

Definition add_error (e : exn) : exn :=
  PluginError ("Error occurred while trying to add TXT record." +:+ nl
               +:+ "Error text: " +:+ str e +:+ "." +:+ nl).

Definition delete_error (e : exn) : exn :=
  PluginError ("Error occurred while trying to delete TXT record." +:+ nl
               +:+ "Error text: " +:+ str e +:+ "." +:+ nl).

Definition add_txt_record_body (fuel : nat)
    (domain record_name record_content : string) : M unit :=
  let! '(domain_zone, dns_zone_id) := resolve_zone add_zone_error domain in
  let! dns_zone_records := _get_dns_zone_records dns_zone_id in
  let! _ := _create_backup_file dns_zone_id domain_zone dns_zone_records
              (Some "before") in
  let! new_record_name := lift (re_sub_zone_suffix E domain_zone record_name) in
  let! new_dns_zone_records :=
    _add_txt_record new_record_name record_content dns_zone_records in
  let! _ := _update_dns_zone_records dns_zone_id new_dns_zone_records in
  _wait_for_record_propagation fuel record_name record_content.

Definition add_txt_record (fuel : nat)
    (domain record_name record_content : string) : M unit :=
  try_except (add_txt_record_body fuel domain record_name record_content)
             (λ e, raise (add_error e)).

Definition delete_txt_record_body
    (domain record_name record_content : string) : M unit :=
  let! '(domain_zone, dns_zone_id) := resolve_zone delete_zone_error domain in
  let! dns_zone_records := _get_dns_zone_records dns_zone_id in
  let! new_record_name := lift (re_sub_zone_suffix E domain_zone record_name) in
  let! new_dns_zone_records :=
    _delete_txt_record new_record_name record_content dns_zone_records in
  let! _ := _update_dns_zone_records dns_zone_id new_dns_zone_records in
  let! _ := _create_backup_file dns_zone_id domain_zone dns_zone_records
              (Some "after") in
  ret tt.

Definition delete_txt_record
    (domain record_name record_content : string) : M unit :=
  try_except (delete_txt_record_body domain record_name record_content)
             (λ e, raise (delete_error e)).

End client.

(** ** Zone resolution, in the specification's words

    A zone of the list is looked up by exact name; the suffixes of the
    domain are tried from the full name on, the first that names a zone
    wins. *)

Definition named (zone : string) (z : jobj) : Prop :=
  z !! "name" = Some (JStr zone).

#[export] Instance named_dec zone z : Decision (named zone z).
Proof. unfold named. apply _. Defined.

(** Every element of the zone list has a name and an id. *)
Definition zones_wf (zs : list jobj) : Prop :=
  Forall (λ z, is_Some (z !! "name") ∧ is_Some (z !! "id")) zs.

(** The id of the first zone of that name. *)
Definition zone_id_of (zs : list jobj) (zone : string) : option json :=
  head (filter (named zone) zs) ≫= (λ z, z !! "id").

(** The zone the [k]-th suffix names, with its id. *)
Definition suffix_match (zs : list jobj) (domain : string) (k : nat)
  : option (string * json) :=
  strip_labels k domain ≫= λ zone,
  zone_id_of zs zone ≫= λ id, Some (zone, id).

(** The first of the suffixes [i], [i+1], ..., [i+n-1] that names a zone. *)
Fixpoint first_match (zs : list jobj) (domain : string) (n i : nat)
  : option (string * json) :=
  match n with
  | 0 => None
  | S n' =>
      match suffix_match zs domain i with
      | Some r => Some r
      | None => first_match zs domain n' (S i)
      end
  end.

(** ** The record set, by value *)

Definition set_heap (w : world) (h : list record) : world :=
  World h (trace w) (zone_calls w) (dig_calls w).

(** The zone-list requests are all that a resolution does: at most [n]
    of them, and the store is as it was. *)
Definition zone_listing (n : nat) (w w' : world) : Prop :=
  heap w' = heap w ∧ dig_calls w' = dig_calls w ∧
  ∃ j, j ≤ n ∧ trace w' = trace w ++ replicate j EvListZones
       ∧ zone_calls w' = zone_calls w + j.

(** A record as the [for] loop of [_update_dns_zone_records] leaves it
    when its [pop] does not raise. *)
Definition stripped (r : record) : record :=
  match strip_link r with
  | inr r' => r'
  | inl _ => r
  end.

(** The loop over a whole record set: the first [pop] that raises ends it. *)
Fixpoint strip_all (rs : list record) : exn + list record :=
  match rs with
  | [] => inr []
  | r :: rs' =>
      match strip_link r with
      | inl e => inl e
      | inr r' =>
          match strip_all rs' with
          | inl e => inl e
          | inr rs'' => inr (r' :: rs'')
          end
      end
  end.

(** The references, from [a] on, to those records of a block that
    satisfy [P]. *)
Fixpoint locs_where (P : record → Prop) `{∀ r, Decision (P r)}
    (a : loc) (rs : list record) : list loc :=
  match rs with
  | [] => []
  | r :: rs' =>
      if decide (P r) then a :: locs_where P (S a) rs'
      else locs_where P (S a) rs'
  end.

(** The value under [link] in the reference [ref] of a record. *)
Definition link_of (ref : string) (r : record) : option json :=
  match r !! ref with
  | Some (JObj m) => m !! "link"
  | _ => None
  end.

(** ** The links, in the specification's words

    Before a record set is submitted, the [link] sub-field is stripped
    from the [configRef] entry and from the [targetGroupRef] entry of
    every record. *)

Definition without_link (v : json) : json :=
  match v with
  | JObj m => JObj (delete "link" m)
  | _ => v
  end.


(** [s] is [r] but, at most, for the [link] of its references. *)
Definition same_but_links (r s : record) : Prop :=
  ∀ k, s !! k = r !! k
       ∨ ((k = "configRef" ∨ k = "targetGroupRef") ∧ s !! k = without_link <$> r !! k).

(** ** The propagation poll, in the specification's words *)

(** [k] retries followed by their wait of 60 seconds. *)
Definition polls (record_name : string) (k : nat) : list event :=
  concat (replicate k [EvDig record_name; EvSleep 60]).

(** The seconds slept in a run. *)
Fixpoint slept (evs : list event) : Z :=
  match evs with
  | [] => 0
  | EvSleep s :: evs' => s + slept evs'
  | _ :: evs' => slept evs'
  end.

(** The resolver queries of a run. *)
Fixpoint queries (evs : list event) : nat :=
  match evs with
  | [] => 0
  | EvDig _ :: evs' => S (queries evs')
  | _ :: evs' => queries evs'
  end.

(** The [q]-th query of the environment answers, and the expected value
    is, or is not, among the TXT values it returns. *)
Definition seen_at (E : env) (record_data : string) (q : nat) : Prop :=
  ∃ lines, dig_resp E q = inr lines ∧ record_data ∈ slice_1_m1 <$> lines.

Definition unseen_at (E : env) (record_data : string) (q : nat) : Prop :=
  ∃ lines, dig_resp E q = inr lines ∧ record_data ∉ slice_1_m1 <$> lines.

Section wait_spec.
Context (E : env) (record_name record_data : string) (w0 : world).

(** What is claimed of a run of the waiter that started in [w0]: it
    ends; after the first query it makes at most 14 retries followed
    by their wait, and at most one more query; it succeeds exactly when
    one of its first 15 answers is the first to hold the value; and
    when none of them does, and the last query answers, it raises the
    error of the spent budget. *)
Definition wait_post (run : world * outcome unit) : Prop :=
  run.2 ≠ NoFuel
  ∧ (∃ k tail,
       k ≤ 14 ∧ (tail = [] ∨ tail = [EvDig record_name])
       ∧ trace run.1 = trace w0 ++ EvDig record_name :: polls record_name k ++ tail
       ∧ heap run.1 = heap w0)
  ∧ (run.2 = Ok tt →
     ∃ k, k ≤ 14 ∧ seen_at E record_data (dig_calls w0 + k)
          ∧ (∀ j, j < k → unseen_at E record_data (dig_calls w0 + j))
          ∧ trace run.1 = trace w0 ++ EvDig record_name :: polls record_name k)
  ∧ ((∀ j, j ≤ 14 → unseen_at E record_data (dig_calls w0 + j)) →
     (∃ lines, dig_resp E (dig_calls w0 + 15) = inr lines) →
     run.2 = Raise (retries_error record_name)
     ∧ trace run.1 = trace w0 ++ EvDig record_name :: polls record_name 14
                              ++ [EvDig record_name])
  ∧ (∀ k, k ≤ 14 → seen_at E record_data (dig_calls w0 + k) →
          (∀ j, j < k → unseen_at E record_data (dig_calls w0 + j)) →
          run.2 = Ok tt).

(** The state at the [i]-th test of the loop condition. *)
Definition wait_inv (i : nat) (txt_records : list string) (w : world) : Prop :=
  trace w = trace w0 ++ EvDig record_name :: polls record_name i
  ∧ heap w = heap w0
  ∧ dig_calls w = dig_calls w0 + i + 1
  ∧ (∃ lines, dig_resp E (dig_calls w0 + i) = inr lines
              ∧ txt_records = slice_1_m1 <$> lines)
  ∧ (∀ j, j < i → unseen_at E record_data (dig_calls w0 + j)).
End wait_spec.

(** The world after one more zone-list request. *)
Definition listed (w : world) : world :=
  World (heap w) (trace w ++ [EvListZones]) (S (zone_calls w)) (dig_calls w).

(** ** The two workflows, in the specification's words

    A run is a line of steps; the first step that fails ends it, and
    the failure is reported as one [PluginError] that names the
    operation and carries the text of the cause.  Each case below gives
    the events of the run, oldest first, and its outcome, from the
    answers of the environment alone. *)

Definition add_events (w : world) (evs : list event) : world :=
  World (heap w) (trace w ++ evs) (zone_calls w) (dig_calls w).

(** The record-set request fails with [e]. *)
Definition fetch_fails (E : env) (dns_zone_id : json) (e : exn) : Prop :=
  (records_resp E dns_zone_id = NoResponse ∧ e = unbound_local E "dns_zone_res")
  ∨ ∃ status_code text,
      records_resp E dns_zone_id = BadBody status_code text
      ∧ e = http_error ("Error occurred while trying to get dns zone "
                        +:+ py_str dns_zone_id +:+ ".") status_code text.

(** The replacement request fails with [e]. *)
Definition patch_fails (E : env) (dns_zone_id : json) (sent : list record) (e : exn)
  : Prop :=
  (patch_resp E dns_zone_id sent = NoResponse
   ∧ e = unbound_local E "update_dns_zone_records_res")
  ∨ ∃ status_code text,
      patch_resp E dns_zone_id sent = BadBody status_code text
      ∧ e = http_error ("Error occurred while trying to update records in dns zone "
                        +:+ py_str dns_zone_id +:+ ".") status_code text.

Section runs.
Context (E : env) (domain record_name record_content : string) (w : world).

(** Zone resolution made [j] zone-list requests and ended with [r]. *)
Definition resolved (zone_error : exn → exn) (j : nat)
    (r : outcome (string * json)) : Prop :=
  ∃ w1, resolve_zone E zone_error domain w = (w1, r)
        ∧ j ≤ 4 ∧ heap w1 = heap w ∧ dig_calls w1 = dig_calls w
        ∧ trace w1 = trace w ++ replicate j EvListZones.

(** The propagation wait did [evs] and ended with [r]. *)
Definition waited (fuel : nat) (evs : list event) (r : outcome unit) : Prop :=
  ∃ w5 w6, dig_calls w5 = dig_calls w
           ∧ _wait_for_record_propagation E fuel record_name record_content w5 = (w6, r)
           ∧ trace w6 = trace w5 ++ evs.

(** The file of the snapshot of a zone, for a tag. *)
Definition snapshot_path (zone tag : string) : string :=
  backup_path (backup_file_name zone (now E) (Some tag)).

(** *** Publish *)

Definition pub_fetched (j : nat) (zone : string) (id : json)
    (fetched : list record) : Prop :=
  resolved add_zone_error j (Ok (zone, id)) ∧ records_resp E id = Body fetched.

Definition pub_saved j zone id fetched : Prop :=
  pub_fetched j zone id fetched ∧ write_err E (snapshot_path zone "before") = None.

Definition pub_named j zone id fetched (name' : string) : Prop :=
  pub_saved j zone id fetched ∧ re_sub_zone_suffix E zone record_name = inr name'.

Definition pub_sent j zone id fetched name' (sent : list record) : Prop :=
  pub_named j zone id fetched name'
  ∧ strip_all (fetched ++ [txt_record name' record_content]) = inr sent.

Definition pub_saved_events (j : nat) (zone : string) (id : json)
    (fetched : list record) : list event :=
  replicate j EvListZones
  ++ [EvGetZone id; EvBackup (snapshot_path zone "before") id fetched].

Inductive publish_run (fuel : nat) : list event → outcome unit → Prop :=
  | pub_zone_fails j e :
      resolved add_zone_error j (Raise e) →
      publish_run fuel (replicate j EvListZones) (Raise (add_error e))
  | pub_fetch_fails j zone id e :
      resolved add_zone_error j (Ok (zone, id)) →
      fetch_fails E id e →
      publish_run fuel (replicate j EvListZones ++ [EvGetZone id])
                  (Raise (add_error e))
  | pub_backup_fails j zone id fetched e :
      pub_fetched j zone id fetched →
      write_err E (snapshot_path zone "before") = Some e →
      publish_run fuel (replicate j EvListZones ++ [EvGetZone id])
                  (Raise (add_error e))
  | pub_rename_fails j zone id fetched e :
      pub_saved j zone id fetched →
      re_sub_zone_suffix E zone record_name = inl e →
      publish_run fuel (pub_saved_events j zone id fetched) (Raise (add_error e))
  | pub_strip_fails j zone id fetched name' e :
      pub_named j zone id fetched name' →
      strip_all (fetched ++ [txt_record name' record_content]) = inl e →
      publish_run fuel (pub_saved_events j zone id fetched) (Raise (add_error e))
  | pub_patch_fails j zone id fetched name' sent e :
      pub_sent j zone id fetched name' sent →
      patch_fails E id sent e →
      publish_run fuel (pub_saved_events j zone id fetched ++ [EvPatch id sent])
                  (Raise (add_error e))
  | pub_wait_fails j zone id fetched name' sent updated evs e :
      pub_sent j zone id fetched name' sent →
      patch_resp E id sent = Body updated →
      waited fuel evs (Raise e) →
      publish_run fuel
        (pub_saved_events j zone id fetched ++ [EvPatch id sent] ++ evs)
        (Raise (add_error e))
  | pub_done j zone id fetched name' sent updated evs :
      pub_sent j zone id fetched name' sent →
      patch_resp E id sent = Body updated →
      waited fuel evs (Ok tt) →
      publish_run fuel
        (pub_saved_events j zone id fetched ++ [EvPatch id sent] ++ evs)
        (Ok tt).

(** *** Remove *)

Definition rem_fetched (j : nat) (zone : string) (id : json)
    (fetched : list record) : Prop :=
  resolved delete_zone_error j (Ok (zone, id)) ∧ records_resp E id = Body fetched.

Definition rem_named j zone id fetched (name' : string) : Prop :=
  rem_fetched j zone id fetched ∧ re_sub_zone_suffix E zone record_name = inr name'.

Definition rem_sent j zone id fetched name' (sent : list record) : Prop :=
  rem_named j zone id fetched name'
  ∧ strip_all (filter (λ r, r ≠ txt_record name' record_content) fetched) = inr sent.

Definition rem_sent_events (j : nat) (id : json) (sent : list record)
  : list event :=
  replicate j EvListZones ++ [EvGetZone id; EvPatch id sent].

Inductive remove_run : list event → outcome unit → Prop :=
  | rem_zone_fails j e :
      resolved delete_zone_error j (Raise e) →
      remove_run (replicate j EvListZones) (Raise (delete_error e))
  | rem_fetch_fails j zone id e :
      resolved delete_zone_error j (Ok (zone, id)) →
      fetch_fails E id e →
      remove_run (replicate j EvListZones ++ [EvGetZone id]) (Raise (delete_error e))
  | rem_rename_fails j zone id fetched e :
      rem_fetched j zone id fetched →
      re_sub_zone_suffix E zone record_name = inl e →
      remove_run (replicate j EvListZones ++ [EvGetZone id]) (Raise (delete_error e))
  | rem_strip_fails j zone id fetched name' e :
      rem_named j zone id fetched name' →
      strip_all (filter (λ r, r ≠ txt_record name' record_content) fetched) = inl e →
      remove_run (replicate j EvListZones ++ [EvGetZone id]) (Raise (delete_error e))
  | rem_patch_fails j zone id fetched name' sent e :
      rem_sent j zone id fetched name' sent →
      patch_fails E id sent e →
      remove_run (rem_sent_events j id sent) (Raise (delete_error e))
  | rem_backup_fails j zone id fetched name' sent updated e :
      rem_sent j zone id fetched name' sent →
      patch_resp E id sent = Body updated →
      write_err E (snapshot_path zone "after") = Some e →
      remove_run (rem_sent_events j id sent) (Raise (delete_error e))
  | rem_done j zone id fetched name' sent updated :
      rem_sent j zone id fetched name' sent →
      patch_resp E id sent = Body updated →
      write_err E (snapshot_path zone "after") = None →
      remove_run
        (rem_sent_events j id sent
         ++ [EvBackup (snapshot_path zone "after") id (stripped <$> fetched)])
        (Ok tt).
End runs.

(** An event that changes something that lasts: the replacement of the
    record set, or a snapshot file. *)
Definition is_write (ev : event) : Prop :=
  match ev with
  | EvPatch _ _ | EvBackup _ _ _ => True
  | _ => False
  end.

(** A time of day as the calendar has it. *)
Definition in_calendar (t : datetime) : Prop :=
  1000 ≤ year t ∧ year t < 100 * 100 ∧ month t < 100 ∧ day t < 100
  ∧ hour t < 100 ∧ minute t < 100 ∧ second t < 100.

(** The trace of a run, from the trace of its resolution. *)
Ltac trace_eq H :=
  unfold pub_saved_events, rem_sent_events, add_events; simpl;
  rewrite H, <-?app_assoc; done.

(** ** A sample run: zone [example.com], two records *)

Module Sample.

Definition zone (name : string) (id : Z) : jobj :=
  {[ "name" := JStr name; "id" := JNum id ]}.

(** A record served through a service configuration, as the provider
    returns it: the reference carries its read-only [link]. *)
Definition www : record :=
  {[ "name" := JStr "www"; "type" := JStr "A";
     "configRef" := JObj {[ "id" := JNum 7; "link" := JStr "/api/v3/config/7" ]} ]}.

Definition mx : record :=
  {[ "name" := JStr "@"; "type" := JStr "MX"; "data" := JStr "10 mail.example.com." ]}.

(** A record that carries both references. *)
Definition both : record :=
  {[ "name" := JStr "cdn"; "type" := JStr "A";
     "configRef" := JObj {[ "id" := JNum 7; "link" := JStr "/api/v3/config/7" ]};
     "targetGroupRef" := JObj {[ "id" := JNum 9; "link" := JStr "/api/v3/target-group/9" ]} ]}.

(** What [re.sub] answers when the zone name, read as a pattern,
    matches only itself: the suffix is cut. *)
Fixpoint cut_suffix (suffix s : string) : string :=
  if decide (s = suffix) then ""
  else match s with
       | EmptyString => ""
       | String c s' => String c (cut_suffix suffix s')
       end.

Definition t0 : datetime := Datetime 2024 3 9 7 5 42 4711.

(** The text of the UnboundLocalError of Python 3.11 and later. *)
Definition not_bound (v : string) : string :=
  "cannot access local variable '" +:+ v
  +:+ "' where it is not associated with a value".

(** A provider with the one zone and the records [rs], where every
    request succeeds and the resolver answers [digs]. *)
Definition provider (rs : list record) (digs : nat → exn + list string) : env :=
  {| customer_id := "4711";
     zones_resp := λ _, Body [zone "example.org" 1; zone "example.com" 2];
     records_resp := λ _, Body rs;
     patch_resp := λ _ sent, Body sent;
     now := t0;
     write_err := λ _, None;
     dig_resp := digs;
     re_sub_zone_suffix := λ z n, inr (cut_suffix ("." +:+ z) n);
     unbound_local_message := not_bound |}.

Definition w0 : world := World [] [] 0 0.

(** A TXT value as dig prints it: between double quotes. *)
Definition quoted (s : string) : string :=
  String "034"%char s +:+ String "034"%char EmptyString.

(** The record of one challenge, and the same with one more field. *)
Definition challenge : record := txt_record "_acme-challenge" "abc123".
Definition tagged : record := <["ttl" := JNum 60]> challenge.

(** [www] and [both] as the replacement request carries them. *)
Definition www_sent : record :=
  {[ "name" := JStr "www"; "type" := JStr "A";
     "configRef" := JObj {[ "id" := JNum 7 ]} ]}.

Definition both_sent : record :=
  {[ "name" := JStr "cdn"; "type" := JStr "A";
     "configRef" := JObj {[ "id" := JNum 7 ]};
     "targetGroupRef" := JObj {[ "id" := JNum 9; "link" := JStr "/api/v3/target-group/9" ]} ]}.

(** A resolver that sees the value from its third answer on. *)
Definition slow_dig (k : nat) : exn + list string :=
  if decide (k < 2) then inr [] else inr [quoted "abc123"].

(** A resolver that sees the value from its 16th answer on. *)
Definition late_dig (k : nat) : exn + list string :=
  if decide (k < 15) then inr [] else inr [quoted "abc123"].

(** A provider with the zones [foo.example.com] and [example.com] whose
    first zone-list request gets no response. *)
Definition flaky : env :=
  {| customer_id := "4711";
     zones_resp := λ k,
       if decide (k = 0) then NoResponse
       else Body [zone "foo.example.com" 3; zone "example.com" 2];
     records_resp := λ _, Body [mx];
     patch_resp := λ _ sent, Body sent;
     now := t0;
     write_err := λ _, None;
     dig_resp := λ _, inr [quoted "abc123"];
     re_sub_zone_suffix := λ z n, inr (cut_suffix ("." +:+ z) n);
     unbound_local_message := not_bound |}.

End Sample.

(** ** The authenticator: [Authenticator]

    [_get_ngenix_client] makes a client from the configuration, which
    the environment stands for; the two hooks of certbot hand their
    arguments to the entry points of that client. *)

Definition _perform (E : env) (fuel : nat)
    (domain validation_name validation : string) : M unit :=
  add_txt_record E fuel domain validation_name validation.

Definition _cleanup (E : env) (domain validation_name validation : string) : M unit :=
  delete_txt_record E domain validation_name validation.

(** The dots of a name. *)
Fixpoint dots (s : string) : nat :=
  match s with
  | EmptyString => 0
  | String c s' => (if bool_decide (c = "."%char) then 1 else 0) + dots s'
  end.

(** ** More sample providers *)

Module Cases.
Import Sample.

(** The zone list holds an element that has no name. *)
Definition nameless : env :=
  {| customer_id := "4711";
     zones_resp := λ _, Body [zone "example.com" 2; {[ "id" := JNum 5 ]}];
     records_resp := λ _, Body [mx];
     patch_resp := λ _ sent, Body sent;
     now := t0;
     write_err := λ _, None;
     dig_resp := λ _, inr [quoted "abc123"];
     re_sub_zone_suffix := λ z n, inr (cut_suffix ("." +:+ z) n);
     unbound_local_message := not_bound |}.

(** A resolver that answers once, without the value, and then fails. *)
Definition broken_dig (k : nat) : exn + list string :=
  if decide (k = 0) then inr []
  else inl (PyError "CalledProcessError" "Command returned non-zero exit status 9.").

(** The backup directory cannot be written. *)
Definition read_only (rs : list record) : env :=
  {| customer_id := "4711";
     zones_resp := λ _, Body [zone "example.org" 1; zone "example.com" 2];
     records_resp := λ _, Body rs;
     patch_resp := λ _ sent, Body sent;
     now := t0;
     write_err := λ _, Some (PyError "PermissionError" "[Errno 13] Permission denied");
     dig_resp := slow_dig;
     re_sub_zone_suffix := λ z n, inr (cut_suffix ("." +:+ z) n);
     unbound_local_message := not_bound |}.

(** A record whose reference is null. *)
Definition null_ref : record :=
  {[ "name" := JStr "api"; "type" := JStr "A"; "configRef" := JNull ]}.

(** The record-set request gets no response. *)
Definition silent : env :=
  {| customer_id := "4711";
     zones_resp := λ _, Body [zone "example.org" 1; zone "example.com" 2];
     records_resp := λ _, NoResponse;
     patch_resp := λ _ sent, Body sent;
     now := t0;
     write_err := λ _, None;
     dig_resp := slow_dig;
     re_sub_zone_suffix := λ z n, inr (cut_suffix ("." +:+ z) n);
     unbound_local_message := not_bound |}.

End Cases.

(** * The regular expressions strip labels *)

Example pattern_attempt_2 : pattern (regex_at 2) = ".*?\..*?\.(.*)".
Proof. reflexivity. Qed.

Example search_attempt_1 :
  re_search (regex_at 1) "_acme-challenge.foo.example.com" = Some (Some "foo.example.com").
Proof. reflexivity. Qed.

Example search_too_few_dots : re_search (regex_at 3) "foo.example.com" = None.
Proof. reflexivity. Qed.

Lemma strip_labels_S_comm k d :
  strip_labels (S k) d = strip_labels k d ≫= after_first_dot.
Proof.
  revert d. induction k as [|k IH]; intros d.
  - simpl. by destruct (after_first_dot d).
  - change (strip_labels (S (S k)) d) with (after_first_dot d ≫= strip_labels (S k)).
    simpl. destruct (after_first_dot d) as [d'|]; simpl; [|done].
    apply IH.
Qed.

Lemma strip_labels_None_S k d :
  strip_labels k d = None → strip_labels (S k) d = None.
Proof. intros H. by rewrite strip_labels_S_comm, H. Qed.

Lemma strip_labels_None_tail k c d :
  strip_labels k (String c d) = None → strip_labels k d = None.
Proof.
  destruct k as [|k]; [done|]. simpl.
  case_bool_decide; simpl; [|done].
  apply strip_labels_None_S.
Qed.

Lemma single_line_cons c s :
  single_line (String c s) = true → dot_matches c = true ∧ single_line s = true.
Proof. simpl. by intros ?%andb_true_iff. Qed.

Lemma match_here_group s :
  single_line s = true → match_here [GroupAnyStar] s = Some (Some s).
Proof.
  induction s as [|c s IH]; [done|].
  intros [Hc Hs]%single_line_cons.
  simpl in *. rewrite Hc. by rewrite (IH Hs).
Qed.

Lemma match_here_regex_at i s :
  single_line s = true → match_here (regex_at i) s = Some <$> strip_labels i s.
Proof.
  revert s. induction i as [|i IH].
  - intros s Hs. by rewrite match_here_group.
  - induction s as [|c s IHs]; [done|].
    intros [Hc Hs]%single_line_cons.
    change (strip_labels (S i) (String c s)) with (after_first_dot (String c s) ≫= strip_labels i).
    specialize (IHs Hs).
    simpl in *. rewrite Hc.
    case_bool_decide as Hdot; simpl.
    + rewrite (IH s Hs).
      destruct (strip_labels i s) as [z|] eqn:Hz; simpl; [done|].
      rewrite IHs.
      change (after_first_dot s ≫= strip_labels i) with (strip_labels (S i) s).
      by rewrite (strip_labels_None_S _ _ Hz).
    + apply IHs.
Qed.

Lemma re_search_regex_at i s :
  single_line s = true → re_search (regex_at i) s = Some <$> strip_labels i s.
Proof.
  induction s as [|c s IH]; intros Hs.
  - simpl re_search. rewrite (match_here_regex_at i "" Hs).
    by destruct (strip_labels i "").
  - pose proof Hs as [_ Hs']%single_line_cons.
    simpl re_search. rewrite (match_here_regex_at i _ Hs).
    destruct (strip_labels i (String c s)) as [z|] eqn:Hz; simpl; [done|].
    rewrite (IH Hs'). by rewrite (strip_labels_None_tail _ _ _ Hz).
Qed.

(** * The suffix-matching loop *)

Lemma zones_named_wf zone zs :
  zones_wf zs → zones_named zone zs = Some (filter (named zone) zs).
Proof.
  induction 1 as [|z zs [[name Hn] _] _ IH]; [done|].
  simpl. rewrite Hn, IH, filter_cons. unfold named.
  destruct (decide (name = JStr zone)) as [->|Hne].
  - by rewrite decide_True by done.
  - by rewrite decide_False by congruence.
Qed.

Lemma zone_id_of_wf zs zone :
  zones_wf zs →
  is_Some (zone_id_of zs zone) ↔ ∃ z, z ∈ zs ∧ named zone z.
Proof.
  intros Hwf. unfold zone_id_of. split.
  - intros [id Hid]. destruct (filter (named zone) zs) as [|z l] eqn:Hf; [done|].
    exists z. apply and_comm, (list_elem_of_filter (named zone)). rewrite Hf. left.
  - intros (z & Hz & Hn).
    assert (z ∈ filter (named zone) zs) as Hin by (by apply list_elem_of_filter).
    destruct (filter (named zone) zs) as [|z' l] eqn:Hf; [by apply elem_of_nil in Hin|].
    assert (z' ∈ zs) as Hz'.
    { eapply (list_elem_of_filter (named zone)). rewrite Hf. left. }
    unfold zones_wf in Hwf. rewrite Forall_forall in Hwf.
    destruct (Hwf z' Hz') as [_ [id Hid]]. simpl. rewrite Hid. eauto.
Qed.

Section resolve.
Context (E : env) (ze : exn → exn) (domain : string).

#[local] Arguments _get_dns_zone_id : simpl never.
#[local] Arguments resolve_from : simpl nomatch.

Lemma get_dns_zone_id_world zone w :
  (_get_dns_zone_id E zone w).1 = listed w.
Proof.
  unfold _get_dns_zone_id, bind, http_list_zones. simpl.
  destruct (zones_resp E (zone_calls w)) as [| |zs]; try done.
  destruct (zones_named zone zs) as [[|z ?]|]; try done.
  by destruct (z !! "id").
Qed.

Lemma get_dns_zone_id_result zs zone w :
  zones_wf zs → zones_resp E (zone_calls w) = Body zs →
  (_get_dns_zone_id E zone w).2 =
    match zone_id_of zs zone with
    | Some id => Ok id
    | None => Raise (zone_id_error zone)
    end.
Proof.
  intros Hwf Hresp.
  unfold _get_dns_zone_id, bind, http_list_zones. simpl. rewrite Hresp.
  rewrite (zones_named_wf _ _ Hwf). unfold zone_id_of.
  destruct (filter (named zone) zs) as [|z ?]; [done|]. simpl.
  by destruct (z !! "id").
Qed.

Lemma get_dns_zone_id_eq zs zone w :
  zones_wf zs → zones_resp E (zone_calls w) = Body zs →
  _get_dns_zone_id E zone w =
    (listed w, match zone_id_of zs zone with
               | Some id => Ok id
               | None => Raise (zone_id_error zone)
               end).
Proof.
  intros Hwf Hresp.
  rewrite <-(get_dns_zone_id_result zs zone w Hwf Hresp), <-(get_dns_zone_id_world zone w).
  by destruct (_get_dns_zone_id E zone w).
Qed.

Lemma zone_listing_refl n w : zone_listing n w w.
Proof.
  repeat split; try done. exists 0. simpl. rewrite app_nil_r. split_and!; lia || done.
Qed.

Lemma zone_listing_step n w w' :
  zone_listing n (listed w) w' → zone_listing (S n) w w'.
Proof.
  intros (Hh & Hd & j & Hj & Ht & Hz). simpl in *.
  split; [done|]. split; [done|]. exists (S j). split; [lia|].
  rewrite Ht, Hz. split; [|lia]. by rewrite <-app_assoc.
Qed.

Lemma zone_listing_mono n m w w' :
  n ≤ m → zone_listing n w w' → zone_listing m w w'.
Proof.
  intros Hnm (Hh & Hd & j & Hj & Ht & Hz).
  split; [done|]. split; [done|]. exists j. split_and!; [lia|done..].
Qed.

Lemma resolve_from_world n i r w :
  zone_listing n w (resolve_from E ze n i r domain w).1.
Proof.
  revert i r w. induction n as [|n IH]; intros i r w; [apply zone_listing_refl|].
  simpl. unfold try_except, bind at 1.
  set (r' := if decide (i ≠ 0) then _ else _).
  unfold search_group1.
  destruct (re_search r' domain) as [[g|]|]; simpl.
  - unfold bind. 
    pose proof (get_dns_zone_id_world g w) as Hw.
    destruct (_get_dns_zone_id E g w) as [w1 [id| e |]]; simpl in Hw; subst w1; simpl.
    + apply zone_listing_step, zone_listing_refl.
    + destruct (decide (i = 3)); simpl.
      * apply zone_listing_step, zone_listing_refl.
      * apply zone_listing_step, IH.
    + apply zone_listing_step, zone_listing_refl.
  - destruct (decide (i = 3)); simpl.
    + apply zone_listing_refl.
    + eapply zone_listing_mono; [|apply IH]. lia.
  - destruct (decide (i = 3)); simpl.
    + apply zone_listing_refl.
    + eapply zone_listing_mono; [|apply IH]. lia.
Qed.

Context (zs : list jobj).
Hypothesis (Hline : single_line domain = true).
Hypothesis (Hwf : zones_wf zs).
Hypothesis (Hresp : ∀ k, zones_resp E k = Body zs).

Lemma resolve_from_result n i w :
  i + n = 4 → 0 < n →
  ∃ e, (resolve_from E ze n i (regex_at (pred i)) domain w).2 =
       match first_match zs domain n i with
       | Some r => Ok r
       | None => Raise (ze e)
       end.
Proof.
  revert i w. induction n as [|n IH]; intros i w Hi Hn; [lia|].
  simpl first_match. simpl resolve_from.
  assert ((if decide (i ≠ 0) then AnyStarLazy :: LitDot :: regex_at (pred i)
           else regex_at (pred i)) = regex_at i) as ->.
  { destruct i; [done|]. by rewrite decide_True by done. }
  unfold try_except, bind at 1, search_group1.
  rewrite (re_search_regex_at i domain Hline).
  unfold suffix_match.
  assert (∀ w1 e0,
    ∃ e, ((if decide (i = 3) then raise (ze e0)
           else resolve_from E ze n (S i) (regex_at i) domain) w1).2 =
         match first_match zs domain n (S i) with
         | Some r => Ok r
         | None => Raise (ze e)
         end) as Hrest.
  { intros w1 e0. destruct (decide (i = 3)) as [->|Hne].
    - assert (n = 0) as -> by lia. simpl. eauto.
    - apply (IH (S i) w1); lia. }
  destruct (strip_labels i domain) as [zone|] eqn:Hzone; simpl.
  - unfold bind.
    rewrite (get_dns_zone_id_eq zs zone w Hwf (Hresp _)).
    destruct (zone_id_of zs zone) as [id|]; simpl; [by exists (PluginError "")|].
    apply Hrest.
  - apply Hrest.
Qed.
End resolve.

Lemma first_match_Some zs domain n i r :
  first_match zs domain n i = Some r ↔
  ∃ k, i ≤ k < i + n ∧ suffix_match zs domain k = Some r
       ∧ ∀ j, i ≤ j < k → suffix_match zs domain j = None.
Proof.
  revert i. induction n as [|n IH]; intros i; simpl.
  - split; [done|]. intros (k & ? & _). lia.
  - destruct (suffix_match zs domain i) as [r'|] eqn:Hi.
    + split.
      * intros [= ->]. exists i. split_and!; [lia..|done|]. intros; lia.
      * intros (k & Hk & Hm & Hlt).
        destruct (decide (k = i)) as [->|]; [congruence|].
        rewrite Hlt in Hi by lia. done.
    + rewrite IH. split.
      * intros (k & Hk & Hm & Hlt). exists k. split_and!; [lia..|done|].
        intros j Hj. destruct (decide (j = i)) as [->|]; [done|]. apply Hlt. lia.
      * intros (k & Hk & Hm & Hlt).
        destruct (decide (k = i)) as [->|]; [congruence|].
        exists k. split_and!; [lia..|done|]. intros j Hj. apply Hlt. lia.
Qed.

Lemma first_match_None zs domain n i :
  first_match zs domain n i = None ↔
  ∀ k, i ≤ k < i + n → suffix_match zs domain k = None.
Proof.
  revert i. induction n as [|n IH]; intros i; simpl.
  - split; [|done]. intros; lia.
  - destruct (suffix_match zs domain i) as [r'|] eqn:Hi.
    + split; [done|]. intros H. rewrite H in Hi by lia. done.
    + rewrite IH. split.
      * intros H k Hk. destruct (decide (k = i)) as [->|]; [done|]. apply H. lia.
      * intros H k Hk. apply H. lia.
Qed.

Lemma suffix_match_Some zs domain k zone id :
  suffix_match zs domain k = Some (zone, id) ↔
  strip_labels k domain = Some zone ∧ zone_id_of zs zone = Some id.
Proof.
  unfold suffix_match. split.
  - destruct (strip_labels k domain) as [z|]; simpl; [|done].
    destruct (zone_id_of zs z) as [i|] eqn:Hi; simpl; [|done].
    by intros [= <- <-].
  - intros [-> Hid]. simpl. by rewrite Hid.
Qed.

Lemma suffix_match_None zs domain k :
  zones_wf zs →
  suffix_match zs domain k = None ↔
  ∀ zone, strip_labels k domain = Some zone → ¬ ∃ z, z ∈ zs ∧ named zone z.
Proof.
  intros Hwf. unfold suffix_match.
  destruct (strip_labels k domain) as [z|]; simpl; [|done].
  split.
  - intros Hn zone [= <-] Hex. apply (zone_id_of_wf _ _ Hwf) in Hex as [id Hid].
    by rewrite Hid in Hn.
  - intros Hn. destruct (zone_id_of zs z) as [id|] eqn:Hid; [|done].
    destruct (Hn z eq_refl). apply (zone_id_of_wf _ _ Hwf). eauto.
Qed.

(** * The object store *)

Lemma set_heap_id w : set_heap w (heap w) = w.
Proof. by destruct w. Qed.

Lemma deref_cons h l ls :
  deref h (l :: ls) = match h !! l with Some r => r :: deref h ls | None => deref h ls end.
Proof. done. Qed.

(** Valid references read the same in a store that has grown. *)
Lemma deref_grow h h' ls :
  Forall (λ l, is_Some (h !! l)) ls → deref (h ++ h') ls = deref h ls.
Proof.
  induction 1 as [|l ls [r Hr] _ IH]; [done|].
  rewrite !deref_cons, IH, Hr. by rewrite (lookup_app_l_Some _ _ _ _ Hr).
Qed.

Section block.
Context (P : record → Prop) `{∀ r, Decision (P r)}.

(** Reading, through the references to the records of a block that
    satisfy [P], what the block holds after [g] was applied to it. *)
Lemma deref_locs_where (g : record → record) rs h0 h1 :
  deref (h0 ++ (g <$> rs) ++ h1) (locs_where P (length h0) rs) = g <$> filter P rs.
Proof.
  revert h0. induction rs as [|r rs IH]; intros h0; [done|].
  assert (h0 ++ (g <$> r :: rs) ++ h1 = (h0 ++ [g r]) ++ (g <$> rs) ++ h1) as Heq.
  { by rewrite <-app_assoc. }
  assert (S (length h0) = length (h0 ++ [g r])) as Hlen.
  { rewrite length_app. simpl. lia. }
  simpl locs_where. rewrite filter_cons.
  destruct (decide (P r)).
  - rewrite deref_cons, !fmap_cons.
    rewrite (lookup_app_r h0) by lia. rewrite Nat.sub_diag. simpl.
    f_equal. rewrite Hlen. rewrite <-(IH (h0 ++ [g r])).
    by rewrite <-app_assoc.
  - rewrite Hlen, <-(IH (h0 ++ [g r])). by rewrite <-app_assoc.
Qed.

End block.

Lemma locs_where_True a rs : locs_where (λ _, True) a rs = seq a (length rs).
Proof.
  revert a. induction rs as [|r rs IH]; intros a; [done|].
  simpl. by rewrite IH.
Qed.

Lemma filter_True {A} (l : list A) : filter (λ _, True) l = l.
Proof. induction l as [|x l IH]; [done|]. by rewrite filter_cons, IH. Qed.

(** The comprehension of [_delete_txt_record] over a block of the store. *)
Lemma filter_block t rs h0 h1 :
  filter (λ l, (h0 ++ rs ++ h1) !! l ≠ Some t) (seq (length h0) (length rs))
  = locs_where (λ r, r ≠ t) (length h0) rs.
Proof.
  revert h0. induction rs as [|r rs IH]; intros h0; [done|].
  simpl length. simpl seq. rewrite filter_cons. simpl locs_where.
  rewrite (lookup_app_r h0) by lia. rewrite Nat.sub_diag. simpl.
  specialize (IH (h0 ++ [r])). rewrite <-app_assoc in IH.
  rewrite length_app in IH. simpl in IH.
  replace (length h0 + 1) with (S (length h0)) in IH by lia. simpl in IH.
  destruct (decide (r ≠ t)) as [Hne|Heq].
  - rewrite decide_True by congruence. by rewrite IH.
  - rewrite decide_False by (intros Hx; apply Heq; congruence). by rewrite IH.
Qed.

Lemma deref_block rs h0 h1 :
  deref (h0 ++ rs ++ h1) (seq (length h0) (length rs)) = rs.
Proof.
  rewrite <-locs_where_True.
  pose proof (deref_locs_where (λ _, True) id rs h0 h1) as Hd.
  rewrite list_fmap_id, filter_True in Hd. by rewrite list_fmap_id in Hd.
Qed.

(** * Stripping the links *)

Lemma strip_all_stripped rs rs' : strip_all rs = inr rs' → rs' = stripped <$> rs.
Proof.
  revert rs'. induction rs as [|r rs IH]; intros rs'; simpl; [by intros [= <-]|].
  unfold stripped at 1. destruct (strip_link r) as [e|r']; [done|].
  destruct (strip_all rs) as [e|rs'']; [done|].
  intros [= <-]. by rewrite (IH _ eq_refl).
Qed.

Section strip_block.
Context (P : record → Prop) `{∀ r, Decision (P r)}.

Lemma strip_links_block rs h0 h1 w :
  heap w = h0 ++ rs ++ h1 →
  ∃ h', strip_links (locs_where P (length h0) rs) w =
    match strip_all (filter P rs) with
    | inr _ =>
        (set_heap w (h0 ++ ((λ r, if decide (P r) then stripped r else r) <$> rs) ++ h1),
         Ok tt)
    | inl e => (set_heap w h', Raise e)
    end.
Proof.
  revert h0 w. induction rs as [|r rs IH]; intros h0 w Hw.
  { exists []. simpl in *. rewrite <-Hw. by rewrite set_heap_id. }
  simpl locs_where. rewrite filter_cons, fmap_cons.
  destruct (decide (P r)) as [HP|HP].
  - simpl strip_links. unfold bind, strip_at. rewrite Hw.
    rewrite (lookup_app_r h0) by lia. rewrite Nat.sub_diag. simpl.
    unfold stripped at 1.
    destruct (strip_link r) as [e|r'] eqn:Hr.
    { exists (heap w). by rewrite set_heap_id. }
    set (w1 := World _ _ _ _).
    destruct (IH (h0 ++ [r']) w1) as [h' IH'].
    { subst w1. simpl. rewrite <-app_assoc. simpl.
      replace (length h0) with (length h0 + 0) by lia.
      by rewrite insert_app_r. }
    rewrite length_app in IH'. simpl in IH'.
    replace (length h0 + 1) with (S (length h0)) in IH' by lia.
    exists h'. rewrite IH'.
    destruct (strip_all (filter P rs)); [done|].
    by rewrite <-app_assoc.
  - destruct (IH (h0 ++ [r]) w) as [h' IH'].
    { by rewrite <-app_assoc. }
    rewrite length_app in IH'. simpl in IH'.
    replace (length h0 + 1) with (S (length h0)) in IH' by lia.
    exists h'. rewrite IH'.
    destruct (strip_all (filter P rs)); [done|].
    by rewrite <-app_assoc.
Qed.
End strip_block.

(** * What [strip_link] does to one record *)

Lemma strip_link_no_ref r :
  r !! "configRef" = None → r !! "targetGroupRef" = None → strip_link r = inr r.
Proof. intros H1 H2. unfold strip_link. by rewrite H1, H2. Qed.

Lemma strip_link_txt_record name data :
  strip_link (txt_record name data) = inr (txt_record name data).
Proof. by apply strip_link_no_ref. Qed.

Lemma stripped_txt_record name data :
  stripped (txt_record name data) = txt_record name data.
Proof. unfold stripped. by rewrite strip_link_txt_record. Qed.

(** A record with no link in either reference goes through unchanged. *)
Lemma strip_link_no_link r r' :
  link_of "configRef" r = None → link_of "targetGroupRef" r = None →
  strip_link r = inr r' → r' = r.
Proof.
  unfold link_of, strip_link, pop_link. intros H1 H2.
  destruct (r !! "configRef") as [v|] eqn:Hc.
  - destruct v; try done. intros [= <-].
    rewrite delete_id by done. by apply insert_id.
  - destruct (r !! "targetGroupRef") as [v|] eqn:Ht; [|by intros [= <-]].
    destruct v; try done. intros [= <-].
    rewrite delete_id by done. by apply insert_id.
Qed.

(** The frame: every field but the reference that was popped is as it
    was, and that reference has lost its link and nothing else. *)
Lemma strip_link_frame r r' :
  strip_link r = inr r' →
  (∀ k, k ≠ "configRef" → k ≠ "targetGroupRef" → r' !! k = r !! k)
  ∧ link_of "configRef" r' = None
  ∧ (r !! "configRef" = None → link_of "targetGroupRef" r' = None)
  ∧ (is_Some (r !! "configRef") → r' !! "targetGroupRef" = r !! "targetGroupRef")
  ∧ (∀ ref m, r !! ref = Some (JObj m) →
       ∃ m', r' !! ref = Some (JObj m') ∧ ∀ k, k ≠ "link" → m' !! k = m !! k).
Proof.
  unfold strip_link, pop_link, link_of.
  destruct (r !! "configRef") as [v|] eqn:Hc.
  - destruct v as [| | | | |m]; try done. intros [= <-]. split_and!.
    + intros k Hk _. by rewrite lookup_insert_ne.
    + rewrite lookup_insert_eq. apply lookup_delete_eq.
    + done.
    + intros _. by rewrite lookup_insert_ne.
    + intros ref m0 Hm0. destruct (decide (ref = "configRef")) as [->|Hne].
      * rewrite lookup_insert_eq. assert (m0 = m) as -> by congruence.
        eexists. split; [done|]. intros k Hk. by rewrite lookup_delete_ne.
      * rewrite lookup_insert_ne by done. eauto.
  - destruct (r !! "targetGroupRef") as [v|] eqn:Ht.
    + destruct v as [| | | | |m]; try done. intros [= <-]. split_and!.
      * intros k _ Hk. by rewrite lookup_insert_ne.
      * rewrite lookup_insert_ne by done. by rewrite Hc.
      * intros _. rewrite lookup_insert_eq. apply lookup_delete_eq.
      * by intros [? ?].
      * intros ref m0 Hm0. destruct (decide (ref = "targetGroupRef")) as [->|Hne].
        -- rewrite lookup_insert_eq. assert (m0 = m) as -> by congruence.
           eexists. split; [done|]. intros k Hk. by rewrite lookup_delete_ne.
        -- rewrite lookup_insert_ne by done. eauto.
    + intros [= <-]. split_and!; try done.
      * by rewrite Hc.
      * intros _. by rewrite Ht.
      * eauto.
Qed.

(** * The two mutation helpers *)

Lemma add_txt_record_eq name data ls w :
  _add_txt_record name data ls w =
    (set_heap w (heap w ++ deref (heap w) ls ++ [txt_record name data]),
     Ok (seq (length (heap w)) (length (deref (heap w) ls ++ [txt_record name data])))).
Proof.
  unfold _add_txt_record, bind, deepcopy, alloc, ret, set_heap. simpl.
  rewrite <-app_assoc. do 2 f_equal.
  rewrite !length_app. simpl. by rewrite seq_app.
Qed.

Lemma delete_txt_record_eq name data ls w :
  _delete_txt_record name data ls w =
    (set_heap w (heap w ++ deref (heap w) ls),
     Ok (filter (λ l, (heap w ++ deref (heap w) ls) !! l ≠ Some (txt_record name data)) ls)).
Proof. done. Qed.

Lemma filter_valid_grow (t : record) h h' ls :
  Forall (λ l, is_Some (h !! l)) ls →
  filter (λ l, (h ++ h') !! l ≠ Some t) ls = filter (λ l, h !! l ≠ Some t) ls.
Proof.
  induction 1 as [|l ls [r Hr] _ IH]; [done|].
  rewrite !filter_cons, IH, (lookup_app_l_Some _ _ _ _ Hr). 
  destruct (decide (Some r ≠ Some t)).
  - by rewrite decide_True by (by rewrite Hr).
  - by rewrite decide_False by (by rewrite Hr).
Qed.

Lemma filter_all {A} (P : A → Prop) `{∀ x, Decision (P x)} (l : list A) :
  Forall P l → filter P l = l.
Proof.
  induction 1 as [|x l Hx _ IH]; [done|].
  by rewrite filter_cons, decide_True, IH.
Qed.

Lemma filter_locs_all (t : record) h ls :
  Forall (λ l, is_Some (h !! l)) ls →
  t ∉ deref h ls → filter (λ l, h !! l ≠ Some t) ls = ls.
Proof.
  induction 1 as [|l ls [r Hr] _ IH]; [done|].
  rewrite deref_cons, Hr. intros Hn.
  rewrite filter_cons, decide_True.
  - rewrite IH; [done|]. intros Hin. apply Hn. by right.
  - rewrite Hr. intros [= ->]. apply Hn. left.
Qed.

(** Adding and then deleting drops the new entry, and with it every
    entry that was equal to it. *)
Lemma add_then_delete name data ls w :
  ∃ w1 ls1 w2 ls2,
    _add_txt_record name data ls w = (w1, Ok ls1)
    ∧ _delete_txt_record name data ls1 w1 = (w2, Ok ls2)
    ∧ deref (heap w2) ls2 = filter (λ r, r ≠ txt_record name data) (deref (heap w) ls).
Proof.
  set (t := txt_record name data).
  set (block := deref (heap w) ls ++ [t]).
  eexists _, _, _, _. split; [apply add_txt_record_eq|].
  split; [apply delete_txt_record_eq|].
  simpl. fold t. fold block.
  pose proof (deref_block block (heap w) []) as Hd. rewrite app_nil_r in Hd.
  rewrite Hd. rewrite <-(app_assoc (heap w) block block).
  rewrite filter_block.
  pose proof (deref_locs_where (λ r, r ≠ t) id block (heap w) block) as Hl.
  rewrite !list_fmap_id in Hl. rewrite Hl.
  subst block. rewrite filter_app, filter_cons, decide_False by (by intros Hx; apply Hx).
  by rewrite filter_nil, app_nil_r.
Qed.

(** * The TXT entry is the three-field mapping *)

Lemma txt_record_spec name data (r : record) :
  r = txt_record name data ↔
  r !! "name" = Some (JStr name) ∧ r !! "type" = Some (JStr "TXT")
  ∧ r !! "data" = Some (JStr data)
  ∧ ∀ k, k ≠ "name" → k ≠ "type" → k ≠ "data" → r !! k = None.
Proof.
  split.
  - intros ->. unfold txt_record. split_and!; try done.
    intros k H1 H2 H3.
    rewrite lookup_insert_ne, lookup_insert_ne, lookup_singleton_ne by done. done.
  - intros (Hn & Ht & Hd & Hk). apply map_eq. intros k. unfold txt_record.
    destruct (decide (k = "data")) as [->|H3]; [by rewrite lookup_insert_eq|].
    rewrite lookup_insert_ne by done.
    destruct (decide (k = "name")) as [->|H1]; [by rewrite lookup_insert_eq|].
    rewrite lookup_insert_ne by done.
    destruct (decide (k = "type")) as [->|H2]; [by rewrite lookup_singleton_eq|].
    rewrite lookup_singleton_ne by done. by apply Hk.
Qed.

(** * The propagation waiter *)

Lemma polls_S name k : polls name (S k) = polls name k ++ [EvDig name; EvSleep 60].
Proof. unfold polls. by rewrite replicate_S_end, concat_app; simpl. Qed.

Lemma slept_app evs1 evs2 : slept (evs1 ++ evs2) = (slept evs1 + slept evs2)%Z.
Proof.
  induction evs1 as [|[] evs1 IH]; simpl; rewrite ?IH; lia.
Qed.

Lemma queries_app evs1 evs2 : queries (evs1 ++ evs2) = queries evs1 + queries evs2.
Proof.
  induction evs1 as [|[] evs1 IH]; simpl; rewrite ?IH; lia.
Qed.

Lemma slept_polls name k : slept (polls name k) = (60 * Z.of_nat k)%Z.
Proof.
  induction k as [|k IH]; [done|].
  rewrite polls_S, slept_app, IH. simpl. lia.
Qed.

Lemma queries_polls name k : queries (polls name k) = k.
Proof.
  induction k as [|k IH]; [done|].
  rewrite polls_S, queries_app, IH. simpl. lia.
Qed.

Section wait.
Context (E : env) (record_name record_data : string) (w0 : world).

Lemma seen_unseen q : seen_at E record_data q → unseen_at E record_data q → False.
Proof. intros (l1 & H1 & Hin) (l2 & H2 & Hnot). congruence. Qed.

Lemma wait_loop_post n : ∀ fuel i txt_records w,
  i + n = 15 → 0 < n → n ≤ fuel →
  wait_inv E record_name record_data w0 i txt_records w →
  wait_post E record_name record_data w0 (wait_loop E fuel record_name record_data (15 - Z.of_nat i) txt_records w).
Proof.
  induction n as [|n IH]; intros fuel i txt w Hin Hn Hfuel
    (Htr & Hheap & Hq & (lines & Hlines & Htxt) & Hunseen); [lia|].
  destruct fuel as [|fuel]; [lia|].
  assert (∀ k, k ≤ 14 → seen_at E record_data (dig_calls w0 + k) →
               (∀ j, j < k → unseen_at E record_data (dig_calls w0 + j)) →
               ¬ k < i) as Hnotbefore.
  { intros k _ Hseen _ Hlt. eapply seen_unseen; [done|]. by apply Hunseen. }
  simpl wait_loop. destruct (decide (record_data ∈ txt)) as [Hseen|Hnot].
  - (* the value is there: the loop ends *)
    assert (seen_at E record_data (dig_calls w0 + i)) as Hs.
    { exists lines. by rewrite <-Htxt. }
    unfold ret. simpl. split_and!.
    + done.
    + exists i, []. rewrite app_nil_r. split_and!; [lia|by left|done..].
    + intros _. exists i. split_and!; [lia|done..].
    + intros Hall _. destruct (seen_unseen _ Hs). apply Hall. lia.
    + done.
  - (* one more turn *)
    assert (unseen_at E record_data (dig_calls w0 + i)) as Hu.
    { exists lines. by rewrite <-Htxt. }
    assert (∀ k, k ≤ 14 → seen_at E record_data (dig_calls w0 + k) →
                 (∀ j, j < k → unseen_at E record_data (dig_calls w0 + j)) →
                 i < k) as Hafter.
    { intros k Hk Hseen Hbefore.
      destruct (decide (k = i)) as [->|]; [by destruct (seen_unseen _ Hseen)|].
      pose proof (Hnotbefore k Hk Hseen Hbefore). lia. }
    unfold bind at 1, dig_txt_records, bind at 1, check_output_dig. simpl.
    rewrite Hq. replace (dig_calls w0 + i + 1) with (dig_calls w0 + S i) by lia.
    destruct (dig_resp E (dig_calls w0 + S i)) as [e|lines'] eqn:Hnext; simpl.
    + (* the query itself failed *)
      split_and!.
      * done.
      * exists i, [EvDig record_name]. split_and!; [lia|by right| |done].
        rewrite Htr. by rewrite <-app_assoc.
      * done.
      * intros Hall [l Hl]. destruct (decide (i = 14)) as [->|].
        -- congruence.
        -- destruct (Hall (S i)) as (l' & Hl' & _); [lia|congruence].
      * intros k Hk Hseen Hbefore. pose proof (Hafter k Hk Hseen Hbefore) as Hik.
        destruct (decide (k = S i)) as [->|].
        -- destruct Hseen as (l & Hl & _). congruence.
        -- destruct (Hbefore (S i)) as (l & Hl & _); [lia|congruence].
    + destruct (decide (15 - Z.of_nat i - 1 = 0)%Z) as [Hz|Hz].
      * (* the budget is spent *)
        assert (i = 14) as -> by lia.
        unfold raise. simpl. split_and!.
        -- done.
        -- exists 14, [EvDig record_name]. split_and!; [lia|by right| |done].
           rewrite Htr. by rewrite <-app_assoc.
        -- done.
        -- intros _ _. split; [done|]. rewrite Htr. by rewrite <-app_assoc.
        -- intros k Hk Hseen Hbefore. pose proof (Hafter k Hk Hseen Hbefore). lia.
      * unfold bind, sleep, log. simpl.
        replace (15 - Z.of_nat i - 1)%Z with (15 - Z.of_nat (S i))%Z by lia.
        apply (IH fuel (S i)); [lia..|].
        split_and!; simpl.
        -- rewrite Htr, polls_S. by rewrite <-!app_assoc.
        -- done.
        -- lia.
        -- by exists lines'.
        -- intros j Hj. destruct (decide (j = i)) as [->|]; [done|].
           apply Hunseen. lia.
Qed.

Lemma wait_for_record_propagation_post fuel :
  15 ≤ fuel →
  wait_post E record_name record_data w0 (_wait_for_record_propagation E fuel record_name record_data w0).
Proof.
  intros Hfuel.
  unfold _wait_for_record_propagation, bind at 1, dig_txt_records, bind at 1,
    check_output_dig. simpl.
  destruct (dig_resp E (dig_calls w0)) as [e|lines] eqn:Hfirst; simpl.
  - assert (∀ P : Prop, unseen_at E record_data (dig_calls w0 + 0) → P) as Hu.
    { intros P (l & Hl & _). rewrite Nat.add_0_r in Hl. congruence. }
    assert (∀ P : Prop, seen_at E record_data (dig_calls w0 + 0) → P) as Hs.
    { intros P (l & Hl & _). rewrite Nat.add_0_r in Hl. congruence. }
    split_and!.
    + done.
    + exists 0, []. split_and!; [lia|by left|done..].
    + done.
    + intros Hall _. apply Hu, Hall. lia.
    + intros k Hk Hseen Hbefore. destruct k as [|k]; [by apply Hs|].
      apply Hu, Hbefore. lia.
  - apply (wait_loop_post 15 fuel 0); [lia..|].
    split_and!; simpl.
    + unfold polls. simpl. done.
    + done.
    + lia.
    + exists lines. by rewrite Nat.add_0_r.
    + intros; lia.
Qed.
End wait.

(** * The steps of the workflows *)

Lemma get_dns_zone_id_no_fuel E zone w : (_get_dns_zone_id E zone w).2 ≠ NoFuel.
Proof.
  unfold _get_dns_zone_id, bind, http_list_zones. simpl.
  destruct (zones_resp E (zone_calls w)) as [| |zs]; try done.
  destruct (zones_named zone zs) as [[|z ?]|]; try done.
  by destruct (z !! "id").
Qed.

Lemma resolve_from_no_fuel E ze n i r domain w :
  (resolve_from E ze n i r domain w).2 ≠ NoFuel.
Proof.
  revert i r w. induction n as [|n IH]; intros i r w; [done|].
  simpl. unfold try_except, bind at 1.
  set (r' := if decide (i ≠ 0) then _ else _).
  assert (∀ e w', ((if decide (i = 3) then raise (ze e)
                    else resolve_from E ze n (S i) r' domain) w').2 ≠ NoFuel) as Hh.
  { intros e w'. destruct (decide (i = 3)); [done|apply IH]. }
  unfold search_group1.
  destruct (re_search r' domain) as [[g|]|]; simpl; [|apply Hh..].
  unfold bind. pose proof (get_dns_zone_id_no_fuel E g w) as Hnf.
  destruct (_get_dns_zone_id E g w) as [w1 [id|e|]]; simpl in *; [done|apply Hh|done].
Qed.

Lemma resolve_zone_resolved E ze domain w :
  ∃ j, resolved E domain w ze j (resolve_zone E ze domain w).2
       ∧ trace (resolve_zone E ze domain w).1 = trace w ++ replicate j EvListZones
       ∧ heap (resolve_zone E ze domain w).1 = heap w
       ∧ dig_calls (resolve_zone E ze domain w).1 = dig_calls w.
Proof.
  destruct (resolve_from_world E ze domain 4 0 [GroupAnyStar] w)
    as (Hh & Hd & j & Hj & Ht & Hz).
  exists j. split_and!; try done.
  exists (resolve_zone E ze domain w).1. split_and!; try done.
  by destruct (resolve_zone E ze domain w).
Qed.

Lemma get_dns_zone_records_eq E id w :
  _get_dns_zone_records E id w =
    match records_resp E id with
    | Body rs =>
        (World (heap w ++ rs) (trace w ++ [EvGetZone id]) (zone_calls w) (dig_calls w),
         Ok (seq (length (heap w)) (length rs)))
    | NoResponse => (add_events w [EvGetZone id], Raise (unbound_local E "dns_zone_res"))
    | BadBody status_code text =>
        (add_events w [EvGetZone id],
         Raise (http_error ("Error occurred while trying to get dns zone "
                            +:+ py_str id +:+ ".") status_code text))
    end.
Proof.
  unfold _get_dns_zone_records, bind, http_get_zone, bind, log, ret. simpl.
  by destruct (records_resp E id).
Qed.

Lemma create_backup_file_eq E id zone ls tag w :
  _create_backup_file E id zone ls (Some tag) w =
    match write_err E (snapshot_path E zone tag) with
    | Some e => (w, Raise e)
    | None =>
        (add_events w [EvBackup (snapshot_path E zone tag) id (deref (heap w) ls)],
         Ok (snapshot_path E zone tag))
    end.
Proof.
  unfold _create_backup_file, snapshot_path.
  by destruct (write_err E _).
Qed.

Section update.
Context (P : record → Prop) `{∀ r, Decision (P r)}.

Lemma update_block E id rs h0 h1 w :
  heap w = h0 ++ rs ++ h1 →
  ∃ h', _update_dns_zone_records E id (locs_where P (length h0) rs) w =
    match strip_all (filter P rs) with
    | inl e => (set_heap w h', Raise e)
    | inr sent =>
        (World (h0 ++ ((λ r, if decide (P r) then stripped r else r) <$> rs) ++ h1)
               (trace w ++ [EvPatch id sent]) (zone_calls w) (dig_calls w),
         match patch_resp E id sent with
         | Body updated => Ok updated
         | NoResponse => Raise (unbound_local E "update_dns_zone_records_res")
         | BadBody status_code text =>
             Raise (http_error
                      ("Error occurred while trying to update records in dns zone "
                       +:+ py_str id +:+ ".") status_code text)
         end)
    end.
Proof.
  intros Hw. destruct (strip_links_block P rs h0 h1 w Hw) as [h' Hs].
  exists h'. unfold _update_dns_zone_records, bind at 1. rewrite Hs.
  destruct (strip_all (filter P rs)) as [e|sent] eqn:Hall; [done|].
  unfold bind, dumps, http_patch, bind, log, ret. simpl.
  rewrite (deref_locs_where P).
  assert (((λ r, if decide (P r) then stripped r else r) <$> filter P rs) = sent) as ->.
  { rewrite (strip_all_stripped _ _ Hall). apply list_fmap_ext.
    intros i r Hr. apply list_elem_of_lookup_2, list_elem_of_filter in Hr as [HP _].
    by rewrite decide_True. }
  by destruct (patch_resp E id sent).
Qed.
End update.

Lemma patch_outcome E id sent :
  match patch_resp E id sent with
  | Body updated => True
  | NoResponse => patch_fails E id sent (unbound_local E "update_dns_zone_records_res")
  | BadBody status_code text =>
      patch_fails E id sent
        (http_error ("Error occurred while trying to update records in dns zone "
                     +:+ py_str id +:+ ".") status_code text)
  end.
Proof.
  unfold patch_fails. destruct (patch_resp E id sent); [by left| |done].
  right. eauto.
Qed.

Lemma fetch_outcome E id :
  match records_resp E id with
  | Body rs => True
  | NoResponse => fetch_fails E id (unbound_local E "dns_zone_res")
  | BadBody status_code text =>
      fetch_fails E id
        (http_error ("Error occurred while trying to get dns zone "
                     +:+ py_str id +:+ ".") status_code text)
  end.
Proof.
  unfold fetch_fails. destruct (records_resp E id); [by left| |done].
  right. eauto.
Qed.

Lemma deref_block_end rs h0 : deref (h0 ++ rs) (seq (length h0) (length rs)) = rs.
Proof. pose proof (deref_block rs h0 []) as Hd. by rewrite app_nil_r in Hd. Qed.

(** * Every run of an entry point is a run of the workflow *)

Section complete.
#[local] Arguments resolve_zone : simpl never.
#[local] Arguments _wait_for_record_propagation : simpl never.
#[local] Arguments _get_dns_zone_records : simpl never.
#[local] Arguments _create_backup_file : simpl never.
#[local] Arguments _update_dns_zone_records : simpl never.
#[local] Arguments _add_txt_record : simpl never.
#[local] Arguments _delete_txt_record : simpl never.

Lemma publish_complete E fuel domain record_name record_content w :
  15 ≤ fuel →
  ∃ evs,
    trace (add_txt_record E fuel domain record_name record_content w).1 = trace w ++ evs
    ∧ publish_run E domain record_name record_content w fuel evs
        (add_txt_record E fuel domain record_name record_content w).2.
Proof.
  intros Hfuel.
  destruct (resolve_zone_resolved E add_zone_error domain w)
    as (j & Hres & Htr1 & Hh1 & Hd1).
  cut (∀ run, add_txt_record E fuel domain record_name record_content w = run →
             ∃ evs, trace run.1 = trace w ++ evs
                    ∧ publish_run E domain record_name record_content w fuel evs run.2);
    [by eauto|].
  intros run.
  unfold add_txt_record, try_except, add_txt_record_body, bind at 1.
  destruct (resolve_zone E add_zone_error domain w) as [w1 [[zone id]|e|]] eqn:Hrun;
    simpl in Hres, Htr1, Hh1, Hd1.
  2:{ intros <-. exists (replicate j EvListZones). split; [done|]. by constructor. }
  2:{ pose proof (resolve_from_no_fuel E add_zone_error 4 0 [GroupAnyStar] domain w) as Hnf.
      unfold resolve_zone in Hrun. by rewrite Hrun in Hnf. }
  (* the record set *)
  unfold bind at 1. rewrite get_dns_zone_records_eq.
  pose proof (fetch_outcome E id) as Hfetch.
  destruct (records_resp E id) as [| |fetched] eqn:Hrec.
  1,2: intros <-; eexists (replicate j EvListZones ++ [EvGetZone id]); simpl;
       (split; [trace_eq Htr1|]); by eapply pub_fetch_fails.
  assert (pub_fetched E domain w j zone id fetched) as Hf by done.
  (* the snapshot *)
  unfold bind at 1. rewrite create_backup_file_eq. simpl heap.
  destruct (write_err E (snapshot_path E zone "before")) as [e|] eqn:Hwrite.
  { intros <-. eexists (replicate j EvListZones ++ [EvGetZone id]); simpl.
    split; [trace_eq Htr1|]. by eapply pub_backup_fails. }
  assert (pub_saved E domain w j zone id fetched) as Hs by done.
  rewrite (deref_block_end fetched (heap w1)).
  (* the relative name *)
  unfold bind at 1, lift.
  destruct (re_sub_zone_suffix E zone record_name) as [e|name'] eqn:Hsub.
  { intros <-. exists (pub_saved_events E j zone id fetched). simpl.
    split; [trace_eq Htr1|]. by eapply pub_rename_fails. }
  assert (pub_named E domain record_name w j zone id fetched name') as Hn by done.
  (* the new record set *)
  unfold ret at 1, bind at 1. rewrite add_txt_record_eq. simpl heap.
  rewrite (deref_block_end fetched (heap w1)).
  set (block := fetched ++ [txt_record name' record_content]).
  set (h0 := heap w1 ++ fetched).
  (* the replacement *)
  unfold bind at 1.
  set (w4 := set_heap _ _).
  destruct (update_block (λ _, True) E id block h0 [] w4) as [h' Hup].
  { subst w4. simpl. by rewrite app_nil_r. }
  rewrite locs_where_True in Hup. subst h0 w4.
  rewrite Hup. clear Hup. rewrite filter_True.
  destruct (strip_all block) as [e|sent] eqn:Hstrip.
  { intros <-. exists (pub_saved_events E j zone id fetched). simpl.
    split; [trace_eq Htr1|]. by eapply pub_strip_fails. }
  assert (pub_sent E domain record_name record_content w j zone id fetched name' sent)
    as Hsent by done.
  pose proof (patch_outcome E id sent) as Hpatch.
  destruct (patch_resp E id sent) as [| |updated] eqn:Hresp.
  1,2: intros <-; exists (pub_saved_events E j zone id fetched ++ [EvPatch id sent]); simpl;
       (split; [trace_eq Htr1|]); by eapply pub_patch_fails.
  (* the wait *)
  set (w5 := World _ _ _ _).
  destruct (wait_for_record_propagation_post E record_name record_content w5 fuel Hfuel)
    as (Hnf & (k & tail & _ & _ & Htr6 & _) & _).
  destruct (_wait_for_record_propagation E fuel record_name record_content w5)
    as [w6 r6] eqn:Hwait. simpl in Hnf, Htr6.
  set (evs := EvDig record_name :: polls record_name k ++ tail) in *.
  assert (waited E record_name record_content w fuel evs r6) as Hw.
  { exists w5, w6. split_and!; try done. }
  assert (trace w6 = trace w ++ pub_saved_events E j zone id fetched
                       ++ [EvPatch id sent] ++ evs) as Htrace.
  { rewrite Htr6. subst w5. simpl. rewrite Htr1. unfold pub_saved_events.
    by rewrite <-!app_assoc. }
  destruct r6 as [[]|e|]; intros <-; [| |done];
    exists (pub_saved_events E j zone id fetched ++ [EvPatch id sent] ++ evs); simpl.
  - split; [done|]. by eapply pub_done.
  - split; [done|]. by eapply pub_wait_fails.
Qed.

Lemma stripped_keep (t : record) (rs : list record) :
  stripped t = t →
  ((λ r, if decide (r ≠ t) then stripped r else r) <$> rs) = stripped <$> rs.
Proof.
  intros Ht. apply list_fmap_ext. intros i r _.
  destruct (decide (r ≠ t)) as [|Heq]; [done|].
  apply dec_stable in Heq as ->. by rewrite Ht.
Qed.

Lemma remove_complete E domain record_name record_content w :
  ∃ evs,
    trace (delete_txt_record E domain record_name record_content w).1 = trace w ++ evs
    ∧ remove_run E domain record_name record_content w evs
        (delete_txt_record E domain record_name record_content w).2.
Proof.
  destruct (resolve_zone_resolved E delete_zone_error domain w)
    as (j & Hres & Htr1 & Hh1 & Hd1).
  cut (∀ run, delete_txt_record E domain record_name record_content w = run →
             ∃ evs, trace run.1 = trace w ++ evs
                    ∧ remove_run E domain record_name record_content w evs run.2);
    [by eauto|].
  intros run.
  unfold delete_txt_record, try_except, delete_txt_record_body, bind at 1.
  destruct (resolve_zone E delete_zone_error domain w) as [w1 [[zone id]|e|]] eqn:Hrun;
    simpl in Hres, Htr1, Hh1, Hd1.
  2:{ intros <-. exists (replicate j EvListZones). split; [done|]. by constructor. }
  2:{ pose proof (resolve_from_no_fuel E delete_zone_error 4 0 [GroupAnyStar] domain w)
        as Hnf.
      unfold resolve_zone in Hrun. by rewrite Hrun in Hnf. }
  (* the record set *)
  unfold bind at 1. rewrite get_dns_zone_records_eq.
  pose proof (fetch_outcome E id) as Hfetch.
  destruct (records_resp E id) as [| |fetched] eqn:Hrec.
  1,2: intros <-; eexists (replicate j EvListZones ++ [EvGetZone id]); simpl;
       (split; [trace_eq Htr1|]); by eapply rem_fetch_fails.
  assert (rem_fetched E domain w j zone id fetched) as Hf by done.
  (* the relative name *)
  unfold bind at 1, lift.
  destruct (re_sub_zone_suffix E zone record_name) as [e|name'] eqn:Hsub.
  { intros <-. exists (replicate j EvListZones ++ [EvGetZone id]). simpl.
    split; [trace_eq Htr1|]. by eapply rem_rename_fails. }
  assert (rem_named E domain record_name w j zone id fetched name') as Hn by done.
  (* the new record set: the references that are kept *)
  unfold ret at 1, bind at 1. rewrite delete_txt_record_eq. simpl heap.
  rewrite (deref_block_end fetched (heap w1)).
  set (t := txt_record name' record_content).
  rewrite <-(app_assoc (heap w1) fetched fetched), filter_block.
  (* the replacement *)
  unfold bind at 1.
  set (w3 := set_heap _ _).
  destruct (update_block (λ r, r ≠ t) E id fetched (heap w1) fetched w3) as [h' Hup].
  { done. }
  rewrite Hup.
  destruct (strip_all (filter (λ r, r ≠ t) fetched)) as [e|sent] eqn:Hstrip.
  { intros <-. exists (replicate j EvListZones ++ [EvGetZone id]). simpl.
    split; [trace_eq Htr1|]. by eapply rem_strip_fails. }
  assert (rem_sent E domain record_name record_content w j zone id fetched name' sent)
    as Hsent by done.
  pose proof (patch_outcome E id sent) as Hpatch.
  destruct (patch_resp E id sent) as [| |updated] eqn:Hresp.
  1,2: intros <-; exists (rem_sent_events j id sent); simpl;
       (split; [trace_eq Htr1|]); by eapply rem_patch_fails.
  (* the snapshot, of the list that was fetched *)
  unfold bind at 1. rewrite create_backup_file_eq. simpl heap.
  destruct (write_err E (snapshot_path E zone "after")) as [e|] eqn:Hwrite.
  { intros <-. exists (rem_sent_events j id sent). simpl.
    split; [trace_eq Htr1|]. by eapply rem_backup_fails. }
  rewrite (stripped_keep t fetched) by apply stripped_txt_record.
  pose proof (deref_block (stripped <$> fetched) (heap w1) fetched) as Hd.
  rewrite length_fmap in Hd. rewrite Hd.
  intros <-.
  exists (rem_sent_events j id sent
          ++ [EvBackup (snapshot_path E zone "after") id (stripped <$> fetched)]).
  simpl. split; [trace_eq Htr1|]. by eapply rem_done.
Qed.
End complete.

(** * Where the writes are in a run *)

Lemma polls_no_write name k : Forall (λ ev, ¬ is_write ev) (polls name k).
Proof.
  induction k as [|k IH]; [constructor|].
  rewrite polls_S. apply Forall_app. split; [done|].
  repeat constructor; by intros [].
Qed.

Lemma listing_no_write j : Forall (λ ev, ¬ is_write ev) (replicate j EvListZones).
Proof. apply Forall_replicate. by intros []. Qed.

Lemma waited_events E record_name record_content w fuel evs r :
  15 ≤ fuel →
  waited E record_name record_content w fuel evs r →
  r ≠ NoFuel ∧ Forall (λ ev, ¬ is_write ev) evs.
Proof.
  intros Hfuel (w5 & w6 & Hd & Hrun & Htr).
  destruct (wait_for_record_propagation_post E record_name record_content w5 fuel Hfuel)
    as (Hnf & (k & tail & _ & Htail & Htr6 & _) & _).
  rewrite Hrun in Hnf, Htr6. simpl in *. split; [done|].
  rewrite Htr in Htr6. apply app_inv_head in Htr6 as ->.
  constructor; [by intros []|]. apply Forall_app. split; [apply polls_no_write|].
  destruct Htail as [->| ->]; repeat constructor. by intros [].
Qed.

Lemma no_write_elem evs ev : Forall (λ ev, ¬ is_write ev) evs → ev ∈ evs → ¬ is_write ev.
Proof. rewrite Forall_forall. auto. Qed.

Section publish.
Context (E : env) (domain record_name record_content : string) (w : world).
Context (fuel : nat) (Hfuel : 15 ≤ fuel).

Lemma publish_patch evs r id sent :
  publish_run E domain record_name record_content w fuel evs r →
  EvPatch id sent ∈ evs →
  ∃ j zone fetched name' post,
    pub_sent E domain record_name record_content w j zone id fetched name' sent
    ∧ evs = replicate j EvListZones
            ++ EvGetZone id :: EvBackup (snapshot_path E zone "before") id fetched
            :: EvPatch id sent :: post
    ∧ Forall (λ ev, ¬ is_write ev) post.
Proof.
  assert (∀ j, EvPatch id sent ∈ replicate j EvListZones → False) as Hl.
  { intros j Hin. by apply (no_write_elem _ _ (listing_no_write j)) in Hin. }
  assert (∀ j id' zone fetched,
    EvPatch id sent ∈ pub_saved_events E j zone id' fetched → False) as Hs.
  { intros j id' zone fetched [Hin|Hin]%elem_of_app; [by eapply Hl|].
    repeat (apply elem_of_cons in Hin as [?|Hin]; [done|]). by apply elem_of_nil in Hin. }
  assert (∀ j id', EvPatch id sent ∈ replicate j EvListZones ++ [EvGetZone id'] → False)
    as Hg.
  { intros j id' [Hin|Hin]%elem_of_app; [by eapply Hl|].
    repeat (apply elem_of_cons in Hin as [?|Hin]; [done|]). by apply elem_of_nil in Hin. }
  assert (∀ j zone id' fetched name' sent' post,
    pub_sent E domain record_name record_content w j zone id' fetched name' sent' →
    Forall (λ ev, ¬ is_write ev) post →
    EvPatch id sent ∈ pub_saved_events E j zone id' fetched ++ [EvPatch id' sent'] ++ post →
    ∃ j0 zone0 fetched0 name0 post0,
      pub_sent E domain record_name record_content w j0 zone0 id fetched0 name0 sent
      ∧ pub_saved_events E j zone id' fetched ++ [EvPatch id' sent'] ++ post
        = replicate j0 EvListZones
          ++ EvGetZone id :: EvBackup (snapshot_path E zone0 "before") id fetched0
          :: EvPatch id sent :: post0
      ∧ Forall (λ ev, ¬ is_write ev) post0) as Hp.
  { intros j zone id' fetched name' sent' post Hsent Hpost [Hin|Hin]%elem_of_app;
      [by edestruct Hs|].
    apply elem_of_app in Hin as [Hin|Hin].
    - apply list_elem_of_singleton in Hin. injection Hin as <- <-.
      exists j, zone, fetched, name', post. split_and!; [done| |done].
      unfold pub_saved_events. by rewrite <-app_assoc.
    - by apply (no_write_elem _ _ Hpost) in Hin. }
  intros Hrun Hin. inversion Hrun; subst.
  - by edestruct Hl.
  - by edestruct Hg.
  - by edestruct Hg.
  - by edestruct Hs.
  - by edestruct Hs.
  - match goal with
    | H : pub_sent _ _ _ _ _ ?j ?zone ?id' ?fetched ?name' ?sent' |- _ =>
        apply (Hp j zone id' fetched name' sent' []); [exact H|constructor|exact Hin]
    end.
  - eapply Hp; [done| |done]. by eapply waited_events.
  - eapply Hp; [done| |done]. by eapply waited_events.
Qed.

Lemma publish_done evs :
  publish_run E domain record_name record_content w fuel evs (Ok tt) →
  ∃ id sent, EvPatch id sent ∈ evs.
Proof.
  inversion 1; subst. exists id, sent.
  apply elem_of_app. right. apply elem_of_app. left. left.
Qed.

Lemma publish_outcome evs r :
  publish_run E domain record_name record_content w fuel evs r →
  r = Ok tt ∨ ∃ e, r = Raise (add_error e).
Proof. inversion 1; subst; eauto. Qed.
End publish.

Section remove.
Context (E : env) (domain record_name record_content : string) (w : world).

Lemma remove_backup evs r path id content :
  remove_run E domain record_name record_content w evs r →
  EvBackup path id content ∈ evs →
  ∃ j zone fetched name' sent,
    rem_sent E domain record_name record_content w j zone id fetched name' sent
    ∧ evs = replicate j EvListZones
            ++ [EvGetZone id; EvPatch id sent; EvBackup path id content]
    ∧ path = snapshot_path E zone "after"
    ∧ content = stripped <$> fetched
    ∧ r = Ok tt.
Proof.
  assert (∀ j, EvBackup path id content ∈ replicate j EvListZones → False) as Hl.
  { intros j Hin. by apply (no_write_elem _ _ (listing_no_write j)) in Hin. }
  assert (∀ j id', EvBackup path id content ∈ replicate j EvListZones ++ [EvGetZone id']
                   → False) as Hg.
  { intros j id' [Hin|Hin]%elem_of_app; [by eapply Hl|].
    repeat (apply elem_of_cons in Hin as [?|Hin]; [done|]). by apply elem_of_nil in Hin. }
  assert (∀ j id' sent, EvBackup path id content ∈ rem_sent_events j id' sent → False)
    as Hs.
  { intros j id' sent [Hin|Hin]%elem_of_app; [by eapply Hl|].
    repeat (apply elem_of_cons in Hin as [?|Hin]; [done|]). by apply elem_of_nil in Hin. }
  intros Hrun Hin. inversion Hrun; subst.
  - by edestruct Hl.
  - by edestruct Hg.
  - by edestruct Hg.
  - by edestruct Hg.
  - by edestruct Hs.
  - by edestruct Hs.
  - apply elem_of_app in Hin as [Hin|Hin]; [by edestruct Hs|].
    apply list_elem_of_singleton in Hin. injection Hin as -> -> ->.
    eexists _, _, _, _, _. split_and!; [done| |done..].
    unfold rem_sent_events. by rewrite <-app_assoc.
Qed.

Lemma remove_done evs :
  remove_run E domain record_name record_content w evs (Ok tt) →
  ∃ path id content, EvBackup path id content ∈ evs.
Proof.
  inversion 1; subst. eexists _, _, _. apply elem_of_app. right. left.
Qed.

Lemma remove_outcome evs r :
  remove_run E domain record_name record_content w evs r →
  r = Ok tt ∨ ∃ e, r = Raise (delete_error e).
Proof. inversion 1; subst; eauto. Qed.
End remove.

(** * The name of a snapshot file *)

Lemma digit_inj a b : digit a = digit b → a mod 10 = b mod 10.
Proof.
  unfold digit. intros Heq%(f_equal nat_of_ascii).
  pose proof (Nat.mod_upper_bound a 10). pose proof (Nat.mod_upper_bound b 10).
  rewrite !nat_ascii_embedding in Heq by lia. lia.
Qed.

Lemma String_inj a b s t : String a s = String b t → a = b ∧ s = t.
Proof. by intros [= -> ->]. Qed.

(** A number below [10 * n] from its last digit and the rest. *)
Lemma last_digit_inj a b :
  a mod 10 = b mod 10 → a / 10 = b / 10 → a = b.
Proof.
  intros H0 H1. rewrite (Nat.div_mod_eq a 10), (Nat.div_mod_eq b 10). congruence.
Qed.

Lemma small_mod_inj a b : a < 10 → b < 10 → a mod 10 = b mod 10 → a = b.
Proof. intros Ha Hb. by rewrite !Nat.mod_small. Qed.

Lemma dec2_inj a b : a < 100 → b < 100 → dec2 a = dec2 b → a = b.
Proof.
  unfold dec2. intros Ha Hb [H1%digit_inj [H0%digit_inj _]%String_inj]%String_inj.
  apply last_digit_inj; [done|].
  apply small_mod_inj; [apply Nat.Div0.div_lt_upper_bound; lia..|done].
Qed.

Lemma dec4_inj a b : a < 100 * 100 → b < 100 * 100 → dec4 a = dec4 b → a = b.
Proof.
  unfold dec4, dec2.
  intros Ha Hb [H3%digit_inj [H2%digit_inj [H1%digit_inj [H0%digit_inj _]%String_inj
                 ]%String_inj]%String_inj]%String_inj.
  replace (a / 100) with (a / 10 / 10) in H2 by (by rewrite Nat.Div0.div_div).
  replace (b / 100) with (b / 10 / 10) in H2 by (by rewrite Nat.Div0.div_div).
  replace (a / 1000) with (a / 10 / 10 / 10) in H3 by (by rewrite !Nat.Div0.div_div).
  replace (b / 1000) with (b / 10 / 10 / 10) in H3 by (by rewrite !Nat.Div0.div_div).
  do 3 (apply last_digit_inj; [done|]).
  apply small_mod_inj; [| |done];
    repeat (apply Nat.Div0.div_lt_upper_bound); lia.
Qed.

(** The timestamp tells the time to the second, and nothing finer. *)
Lemma strftime_second t1 t2 :
  in_calendar t1 → in_calendar t2 →
  strftime t1 = strftime t2 ↔
  year t1 = year t2 ∧ month t1 = month t2 ∧ day t1 = day t2
  ∧ hour t1 = hour t2 ∧ minute t1 = minute t2 ∧ second t1 = second t2.
Proof.
  intros (_ & Hy1 & Hm1 & Hd1 & Hh1 & Hi1 & Hs1) (_ & Hy2 & Hm2 & Hd2 & Hh2 & Hi2 & Hs2).
  split.
  - unfold strftime. intros Heq.
    assert (dec4 (year t1) = dec4 (year t2) ∧ dec2 (month t1) = dec2 (month t2)
            ∧ dec2 (day t1) = dec2 (day t2) ∧ dec2 (hour t1) = dec2 (hour t2)
            ∧ dec2 (minute t1) = dec2 (minute t2) ∧ dec2 (second t1) = dec2 (second t2))
      as (Hy & Hm & Hd & Hh & Hi & Hs).
    { unfold dec4, dec2 in *. cbn [String.append] in Heq.
      repeat (apply String_inj in Heq as [? Heq]). split_and!; congruence. }
    split_and!; [apply dec4_inj; assumption | apply dec2_inj; assumption ..].
  - unfold strftime. by intros (-> & -> & -> & -> & -> & ->).
Qed.

Lemma backup_path_relative c s :
  c ≠ "/"%char → backup_path (String c s) = "/tmp/ngenix-dns-zone/" +:+ String c s.
Proof.
  intros Hc. unfold backup_path.
  destruct c as [[] [] [] [] [] [] [] []]; done.
Qed.

Lemma snapshot_path_name E zone tag :
  tag ≠ "" → (∀ s, zone ≠ String "/" s) →
  snapshot_path E zone tag
  = "/tmp/ngenix-dns-zone/" +:+ zone +:+ "." +:+ strftime (now E) +:+ "." +:+ tag +:+ ".json".
Proof.
  intros Htag Hzone. unfold snapshot_path, backup_file_name, truthy.
  destruct tag as [|c tag]; [done|].
  destruct zone as [|z zone]; [done|].
  assert (z ≠ "/"%char) as Hz by (intros ->; by eapply Hzone).
  change (String z zone +:+ ?s) with (String z (zone +:+ s)).
  by rewrite backup_path_relative.
Qed.

Lemma stripped_no_link (rs : list record) :
  Forall (λ r, link_of "configRef" r = None ∧ link_of "targetGroupRef" r = None) rs →
  stripped <$> rs = rs.
Proof.
  induction 1 as [|r rs [H1 H2] _ IH]; [done|].
  rewrite fmap_cons, IH. f_equal. unfold stripped.
  destruct (strip_link r) as [e|r'] eqn:Hr; [done|].
  by eapply strip_link_no_link.
Qed.

Lemma strip_all_Forall2 rs sent :
  strip_all rs = inr sent → Forall2 (λ r s, strip_link r = inr s) rs sent.
Proof.
  revert sent. induction rs as [|r rs IH]; intros sent; simpl.
  - intros [= <-]. constructor.
  - destruct (strip_link r) as [e|r'] eqn:Hr; [done|].
    destruct (strip_all rs) as [e|rs'] eqn:Hrs; [done|].
    intros [= <-]. constructor; [done|]. by apply IH.
Qed.

(** * One record through the loop of [_update_dns_zone_records] *)

Lemma strip_link_idem r r' : strip_link r = inr r' → strip_link r' = inr r'.
Proof.
  unfold strip_link, pop_link.
  destruct (r !! "configRef") as [v|] eqn:Hc.
  - destruct v as [| | | | |m]; try done. intros [= <-].
    rewrite lookup_insert_eq. f_equal.
    rewrite insert_insert_eq. f_equal. f_equal. apply delete_id, lookup_delete_eq.
  - destruct (r !! "targetGroupRef") as [v|] eqn:Ht.
    + destruct v as [| | | | |m]; try done. intros [= <-].
      rewrite lookup_insert_ne, Hc by done. rewrite lookup_insert_eq. f_equal.
      rewrite insert_insert_eq. f_equal. f_equal. apply delete_id, lookup_delete_eq.
    + intros [= <-]. by rewrite Hc, Ht.
Qed.

Lemma strip_link_keys r r' k :
  strip_link r = inr r' → is_Some (r' !! k) ↔ is_Some (r !! k).
Proof.
  unfold strip_link, pop_link.
  destruct (r !! "configRef") as [v|] eqn:Hc.
  - destruct v as [| | | | |m]; try done. intros [= <-].
    destruct (decide (k = "configRef")) as [->|Hne].
    + rewrite lookup_insert_eq, Hc. split; eauto.
    + by rewrite lookup_insert_ne.
  - destruct (r !! "targetGroupRef") as [v|] eqn:Ht; [|by intros [= <-]].
    destruct v as [| | | | |m]; try done. intros [= <-].
    destruct (decide (k = "targetGroupRef")) as [->|Hne].
    + rewrite lookup_insert_eq, Ht. split; eauto.
    + by rewrite lookup_insert_ne.
Qed.

Lemma stripped_eq_txt r name data :
  stripped r = txt_record name data ↔ r = txt_record name data.
Proof.
  split; [|intros ->; apply stripped_txt_record].
  unfold stripped. destruct (strip_link r) as [e|r'] eqn:Hr; [done|].
  intros ->.
  assert (r !! "configRef" = None) as Hc.
  { apply eq_None_not_Some. rewrite <-(strip_link_keys r _ _ Hr). by intros [? ?]. }
  assert (r !! "targetGroupRef" = None) as Ht.
  { apply eq_None_not_Some. rewrite <-(strip_link_keys r _ _ Hr). by intros [? ?]. }
  rewrite (strip_link_no_ref r Hc Ht) in Hr. by injection Hr.
Qed.

Lemma stripped_filter (rs : list record) name data :
  stripped <$> filter (λ r, r ≠ txt_record name data) rs
  = filter (λ r, r ≠ txt_record name data) (stripped <$> rs).
Proof.
  induction rs as [|r rs IH]; [done|].
  rewrite fmap_cons, !filter_cons.
  destruct (decide (r ≠ txt_record name data)) as [Hne|Heq].
  - rewrite decide_True by (by rewrite stripped_eq_txt). by rewrite fmap_cons, IH.
  - rewrite decide_False by (by rewrite stripped_eq_txt). done.
Qed.

Lemma stripped_fixed (rs : list record) :
  stripped <$> rs = rs ↔ Forall (λ r, stripped r = r) rs.
Proof.
  induction rs as [|r rs IH]; [by split|].
  rewrite fmap_cons, Forall_cons, <-IH. split.
  - by intros [= -> ->].
  - by intros [-> ->].
Qed.

Lemma strip_all_elem rs sent r :
  strip_all rs = inr sent → r ∈ rs → ∃ r', strip_link r = inr r'.
Proof.
  intros Hs%strip_all_Forall2 [i Hi]%list_elem_of_lookup_1.
  destruct (Forall2_lookup_l _ _ _ _ _ Hs Hi) as (r' & _ & Hr). eauto.
Qed.

(** * The outcome of a run, from the answers of the environment *)

Lemma resolved_result E domain w ze j r :
  resolved E domain w ze j r →
  (resolve_zone E ze domain w).2 = r
  ∧ j ≤ 4
  ∧ trace (resolve_zone E ze domain w).1 = trace w ++ replicate j EvListZones.
Proof. intros (w1 & -> & Hj & _ & _ & Ht). done. Qed.

(** What the outcome of the wait tells of the answers of the resolver. *)
Lemma waited_same_start E record_name record_content w fuel evs r :
  15 ≤ fuel →
  waited E record_name record_content w fuel evs r →
  (r = Ok tt →
     ∃ k, k ≤ 14 ∧ seen_at E record_content (dig_calls w + k)
          ∧ (∀ j, j < k → unseen_at E record_content (dig_calls w + j))
          ∧ evs = EvDig record_name :: polls record_name k)
  ∧ (∀ k, k ≤ 14 → seen_at E record_content (dig_calls w + k) →
          (∀ j, j < k → unseen_at E record_content (dig_calls w + j)) →
          r = Ok tt).
Proof.
  intros Hfuel (w5 & w6 & Hd & Hrun & Htr).
  destruct (wait_for_record_propagation_post E record_name record_content w5 fuel Hfuel)
    as (_ & _ & Hok & _ & Hseen).
  rewrite Hrun, Hd in Hok, Hseen. simpl in *. split.
  - intros Hr. destruct (Hok Hr) as (k & Hk & Hs & Hu & Ht).
    exists k. split_and!; try done. rewrite Htr in Ht. by apply app_inv_head in Ht.
  - done.
Qed.

Section tables.
Context (E : env) (domain record_name record_content : string) (w : world).

Lemma publish_table fuel :
  15 ≤ fuel →
  ∃ j evs,
    j ≤ 4
    ∧ trace (add_txt_record E fuel domain record_name record_content w).1
      = trace w ++ replicate j EvListZones ++ evs
    ∧ match (resolve_zone E add_zone_error domain w).2 with
      | NoFuel => False
      | Raise e =>
          evs = []
          ∧ (add_txt_record E fuel domain record_name record_content w).2
            = Raise (add_error e)
      | Ok (zone, id) =>
        match records_resp E id with
        | Body fetched =>
          match write_err E (snapshot_path E zone "before") with
          | Some e =>
              evs = [EvGetZone id]
              ∧ (add_txt_record E fuel domain record_name record_content w).2
                = Raise (add_error e)
          | None =>
            let saved :=
              [EvGetZone id; EvBackup (snapshot_path E zone "before") id fetched] in
            match re_sub_zone_suffix E zone record_name with
            | inl e =>
                evs = saved
                ∧ (add_txt_record E fuel domain record_name record_content w).2
                  = Raise (add_error e)
            | inr name' =>
              match strip_all (fetched ++ [txt_record name' record_content]) with
              | inl e =>
                  evs = saved
                  ∧ (add_txt_record E fuel domain record_name record_content w).2
                    = Raise (add_error e)
              | inr sent =>
                match patch_resp E id sent with
                | Body updated =>
                    ∃ wevs r,
                      waited E record_name record_content w fuel wevs r
                      ∧ evs = saved ++ [EvPatch id sent] ++ wevs
                      ∧ (add_txt_record E fuel domain record_name record_content w).2
                        = match r with
                          | Ok _ => Ok tt
                          | Raise e => Raise (add_error e)
                          | NoFuel => NoFuel
                          end
                | _ =>
                    evs = saved ++ [EvPatch id sent]
                    ∧ ∃ e, patch_fails E id sent e
                      ∧ (add_txt_record E fuel domain record_name record_content w).2
                        = Raise (add_error e)
                end
              end
            end
          end
        | _ =>
            evs = [EvGetZone id]
            ∧ ∃ e, fetch_fails E id e
              ∧ (add_txt_record E fuel domain record_name record_content w).2
                = Raise (add_error e)
        end
      end.
Proof.
  intros Hfuel.
  destruct (publish_complete E fuel domain record_name record_content w Hfuel)
    as (evs0 & Htr & Hrun).
  set (run := add_txt_record E fuel domain record_name record_content w) in *.
  clearbody run. destruct run as [w' r]. simpl in *.
  inversion Hrun as
    [ j e Hres
    | j zone id e Hres Hf
    | j zone id fetched e [Hres Hrec] Hw
    | j zone id fetched e [[Hres Hrec] Hw] Hsub
    | j zone id fetched name' e [[[Hres Hrec] Hw] Hsub] Hstrip
    | j zone id fetched name' sent e [[[[Hres Hrec] Hw] Hsub] Hstrip] Hp
    | j zone id fetched name' sent updated wevs e [[[[Hres Hrec] Hw] Hsub] Hstrip] Hp Hwait
    | j zone id fetched name' sent updated wevs [[[[Hres Hrec] Hw] Hsub] Hstrip] Hp Hwait ];
    subst; apply resolved_result in Hres as (Hres & Hj & _); rewrite Hres;
    unfold pub_saved_events in *.
  - exists j, []. rewrite app_nil_r. done.
  - exists j, [EvGetZone id]. split_and!; [done..|].
    pose proof Hf as Hf'.
    destruct Hf as [[Hr ->]|(c & t & Hr & ->)]; rewrite Hr; (split; [done|]);
      eexists; (split; [exact Hf'|done]).
  - exists j, [EvGetZone id]. rewrite Hrec, Hw. done.
  - eexists j, _. rewrite Hrec, Hw, Hsub. done.
  - eexists j, _. rewrite Hrec, Hw, Hsub. simpl. rewrite Hstrip. done.
  - eexists j, _. rewrite Hrec, Hw, Hsub. simpl. rewrite Hstrip.
    split_and!; [done|by rewrite Htr, <-app_assoc|].
    pose proof Hp as Hp'.
    destruct Hp as [[Hr ->]|(c & t & Hr & ->)]; rewrite Hr; (split; [done|]);
      eexists; (split; [exact Hp'|done]).
  - eexists j, _. rewrite Hrec, Hw, Hsub. simpl. rewrite Hstrip, Hp.
    split_and!; [done|by rewrite Htr, <-app_assoc|]. eauto.
  - eexists j, _. rewrite Hrec, Hw, Hsub. simpl. rewrite Hstrip, Hp.
    split_and!; [done|by rewrite Htr, <-app_assoc|]. exists wevs, (Ok tt). done.
Qed.

Lemma remove_table :
  ∃ j evs,
    j ≤ 4
    ∧ trace (delete_txt_record E domain record_name record_content w).1
      = trace w ++ replicate j EvListZones ++ evs
    ∧ match (resolve_zone E delete_zone_error domain w).2 with
      | NoFuel => False
      | Raise e =>
          evs = []
          ∧ (delete_txt_record E domain record_name record_content w).2
            = Raise (delete_error e)
      | Ok (zone, id) =>
        match records_resp E id with
        | Body fetched =>
          match re_sub_zone_suffix E zone record_name with
          | inl e =>
              evs = [EvGetZone id]
              ∧ (delete_txt_record E domain record_name record_content w).2
                = Raise (delete_error e)
          | inr name' =>
            match strip_all (filter (λ r, r ≠ txt_record name' record_content) fetched)
            with
            | inl e =>
                evs = [EvGetZone id]
                ∧ (delete_txt_record E domain record_name record_content w).2
                  = Raise (delete_error e)
            | inr sent =>
              match patch_resp E id sent with
              | Body updated =>
                match write_err E (snapshot_path E zone "after") with
                | Some e =>
                    evs = [EvGetZone id; EvPatch id sent]
                    ∧ (delete_txt_record E domain record_name record_content w).2
                      = Raise (delete_error e)
                | None =>
                    evs = [EvGetZone id; EvPatch id sent;
                           EvBackup (snapshot_path E zone "after") id
                                    (stripped <$> fetched)]
                    ∧ (delete_txt_record E domain record_name record_content w).2
                      = Ok tt
                end
              | _ =>
                  evs = [EvGetZone id; EvPatch id sent]
                  ∧ ∃ e, patch_fails E id sent e
                    ∧ (delete_txt_record E domain record_name record_content w).2
                      = Raise (delete_error e)
              end
            end
          end
        | _ =>
            evs = [EvGetZone id]
            ∧ ∃ e, fetch_fails E id e
              ∧ (delete_txt_record E domain record_name record_content w).2
                = Raise (delete_error e)
        end
      end.
Proof.
  destruct (remove_complete E domain record_name record_content w)
    as (evs0 & Htr & Hrun).
  set (run := delete_txt_record E domain record_name record_content w) in *.
  clearbody run. destruct run as [w' r]. simpl in *.
  inversion Hrun as
    [ j e Hres
    | j zone id e Hres Hf
    | j zone id fetched e [Hres Hrec] Hsub
    | j zone id fetched name' e [[Hres Hrec] Hsub] Hstrip
    | j zone id fetched name' sent e [[[Hres Hrec] Hsub] Hstrip] Hp
    | j zone id fetched name' sent updated e [[[Hres Hrec] Hsub] Hstrip] Hp Hw
    | j zone id fetched name' sent updated [[[Hres Hrec] Hsub] Hstrip] Hp Hw ];
    subst; apply resolved_result in Hres as (Hres & Hj & _); rewrite Hres;
    unfold rem_sent_events in *.
  - exists j, []. rewrite app_nil_r. done.
  - exists j, [EvGetZone id]. split_and!; [done..|].
    pose proof Hf as Hf'.
    destruct Hf as [[Hr ->]|(c & t & Hr & ->)]; rewrite Hr; (split; [done|]);
      eexists; (split; [exact Hf'|done]).
  - eexists j, _. rewrite Hrec, Hsub. done.
  - eexists j, _. rewrite Hrec, Hsub. simpl. rewrite Hstrip. done.
  - eexists j, _. rewrite Hrec, Hsub. simpl. rewrite Hstrip.
    split_and!; [done..|].
    pose proof Hp as Hp'.
    destruct Hp as [[Hr ->]|(c & t & Hr & ->)]; rewrite Hr; (split; [done|]);
      eexists; (split; [exact Hp'|done]).
  - eexists j, _. rewrite Hrec, Hsub. simpl. rewrite Hstrip, Hp, Hw. done.
  - eexists j, _. rewrite Hrec, Hsub. simpl. rewrite Hstrip, Hp, Hw.
    split; [done|]. split; [|done]. by rewrite Htr, <-app_assoc.
Qed.
End tables.

(** * The failure of a resolution that finds no zone *)

Section resolve_fails.
Context (E : env) (ze : exn → exn) (domain : string) (zs : list jobj).
Hypothesis (Hline : single_line domain = true).
Hypothesis (Hwf : zones_wf zs).
Hypothesis (Hresp : ∀ k, zones_resp E k = Body zs).

#[local] Arguments _get_dns_zone_id : simpl never.
#[local] Arguments resolve_from : simpl nomatch.

(** The exception of the fourth attempt: the lookup of the last suffix
    finds no zone, or the pattern does not match the domain. *)
Lemma resolve_from_fails n i w :
  i + n = 4 → 0 < n →
  first_match zs domain n i = None →
  (resolve_from E ze n i (regex_at (pred i)) domain w).2 =
    Raise (ze match strip_labels 3 domain with
              | Some zone => zone_id_error zone
              | None => PyError "AttributeError"
                          "'NoneType' object has no attribute 'group'"
              end).
Proof.
  remember (match strip_labels 3 domain with
            | Some zone => zone_id_error zone
            | None => PyError "AttributeError"
                        "'NoneType' object has no attribute 'group'"
            end) as last eqn:Hlast.
  revert i w. induction n as [|n IH]; intros i w Hi Hn; [lia|].
  simpl first_match. simpl resolve_from.
  assert ((if decide (i ≠ 0) then AnyStarLazy :: LitDot :: regex_at (pred i)
           else regex_at (pred i)) = regex_at i) as ->.
  { destruct i; [done|]. by rewrite decide_True by done. }
  unfold try_except, bind at 1, search_group1.
  rewrite (re_search_regex_at i domain Hline).
  unfold suffix_match.
  destruct (strip_labels i domain) as [zone|] eqn:Hzone; simpl.
  - unfold bind. rewrite (get_dns_zone_id_eq E zs zone w Hwf (Hresp _)).
    destruct (zone_id_of zs zone) as [id|]; simpl; [done|].
    intros Hrest. destruct (decide (i = 3)) as [->|Hne].
    + by rewrite Hlast, Hzone.
    + apply (IH (S i)); [lia..|done].
  - intros Hrest. destruct (decide (i = 3)) as [->|Hne].
    + by rewrite Hlast, Hzone.
    + apply (IH (S i)); [lia..|done].
Qed.
End resolve_fails.

(** * The links, as the specification strips them *)

Lemma strip_link_same_but_links r s : strip_link r = inr s → same_but_links r s.
Proof.
  unfold strip_link, pop_link.
  destruct (r !! "configRef") as [v|] eqn:Hc.
  - destruct v as [| | | | |m]; try done. intros [= <-] k.
    destruct (decide (k = "configRef")) as [->|Hne].
    + right. split; [by left|]. by rewrite lookup_insert_eq, Hc.
    + left. by rewrite lookup_insert_ne.
  - destruct (r !! "targetGroupRef") as [v|] eqn:Ht; [|intros [= <-] k; by left].
    destruct v as [| | | | |m]; try done. intros [= <-] k.
    destruct (decide (k = "targetGroupRef")) as [->|Hne].
    + right. split; [by right|]. by rewrite lookup_insert_eq, Ht.
    + left. by rewrite lookup_insert_ne.
Qed.

Lemma stripped_same_but_links r : same_but_links r (stripped r).
Proof.
  unfold stripped. destruct (strip_link r) as [e|s] eqn:Hr.
  - intros k. by left.
  - by apply strip_link_same_but_links.
Qed.


(** * The snapshot of a publish run *)

Lemma publish_backup E fuel domain record_name record_content w evs path id saved :
  15 ≤ fuel →
  trace (add_txt_record E fuel domain record_name record_content w).1 = trace w ++ evs →
  EvBackup path id saved ∈ evs →
  ∃ zone,
    path = snapshot_path E zone "before"
    ∧ (resolve_zone E add_zone_error domain w).2 = Ok (zone, id)
    ∧ records_resp E id = Body saved.
Proof.
  intros Hfuel Htr' Hin.
  destruct (publish_table E domain record_name record_content w fuel Hfuel)
    as (j & evs' & Hj & Htr & Htab).
  rewrite Htr in Htr'. apply app_inv_head in Htr' as <-.
  apply elem_of_app in Hin as [Hin|Hin].
  { by apply (no_write_elem _ _ (listing_no_write j)) in Hin. }
  assert (∀ id', EvBackup path id saved ∈ [EvGetZone id'] → False) as Hg.
  { intros id' Hx. apply list_elem_of_singleton in Hx. done. }
  assert (∀ id' path' (saved' : list record) tl,
    Forall (λ ev, ∀ p i s, ev ≠ EvBackup p i s) tl →
    EvBackup path id saved ∈ EvGetZone id' :: EvBackup path' id' saved' :: tl →
    path = path' ∧ id = id' ∧ saved = saved') as Hb.
  { intros id' path' saved' tl Htl Hx.
    apply elem_of_cons in Hx as [?|Hx]; [done|].
    apply elem_of_cons in Hx as [Hx|Hx]; [by injection Hx as -> -> ->|].
    rewrite Forall_forall in Htl. by destruct (Htl _ Hx path id saved). }
  destruct ((resolve_zone E add_zone_error domain w).2) as [[zone id0]|e|];
    [|destruct Htab as [-> _]; by apply elem_of_nil in Hin|done].
  destruct (records_resp E id0) as [| |fetched] eqn:Hrec;
    [destruct Htab as (-> & _); by destruct (Hg _ Hin)..|].
  destruct (write_err E (snapshot_path E zone "before"));
    [destruct Htab as [-> _]; by destruct (Hg _ Hin)|].
  simpl in Htab.
  assert (path = snapshot_path E zone "before" ∧ id = id0 ∧ saved = fetched)
    as (-> & -> & ->); [|by exists zone].
  destruct (re_sub_zone_suffix E zone record_name) as [e|name'];
    [destruct Htab as [-> _]; apply (Hb _ _ _ [] ltac:(constructor) Hin)|].
  destruct (strip_all (fetched ++ [txt_record name' record_content])) as [e|sent];
    [destruct Htab as [-> _]; apply (Hb _ _ _ [] ltac:(constructor) Hin)|].
  destruct (patch_resp E id0 sent) as [| |updated].
  1,2: destruct Htab as (-> & _); eapply Hb; [|exact Hin];
       constructor; [by intros ???|constructor].
  destruct Htab as (wevs & r & Hwait & -> & _).
  destruct (waited_events E record_name record_content w fuel wevs r Hfuel Hwait)
    as [_ Hnw].
  eapply Hb; [|exact Hin]. constructor; [by intros ???|].
  eapply Forall_impl; [exact Hnw|]. intros ev Hev p i s ->. by apply Hev.
Qed.

(** * The claims of the specification *)

Import Sample.

(** The first match wins: what a resolution returns, whatever the
    entry point. *)
Lemma resolve_zone_first_match (E : env) (ze : exn → exn) (domain : string)
    (zs : list jobj) (w : world) :
  single_line domain = true →
  zones_wf zs →
  (∀ k, zones_resp E k = Body zs) →
  (∀ zone id,
     (resolve_zone E ze domain w).2 = Ok (zone, id) ↔
     ∃ k, k ≤ 3 ∧ strip_labels k domain = Some zone ∧ zone_id_of zs zone = Some id
          ∧ ∀ j zone', j < k → strip_labels j domain = Some zone' →
                       ¬ ∃ z, z ∈ zs ∧ named zone' z)
  ∧ ((∃ k zone z, k ≤ 3 ∧ strip_labels k domain = Some zone ∧ z ∈ zs ∧ named zone z)
     ↔ is_Some (first_match zs domain 4 0))
  ∧ ((∃ zone id, (resolve_zone E ze domain w).2 = Ok (zone, id))
     ↔ is_Some (first_match zs domain 4 0)).
Proof.
  intros Hline Hwf Hresp.
  destruct (resolve_from_result E ze domain zs Hline Hwf Hresp 4 0 w) as [e He]; [lia..|].
  change (resolve_from E ze 4 0 (regex_at (pred 0)) domain w)
    with (resolve_zone E ze domain w) in He.
  split_and!.
  - intros zone id. rewrite He. split.
    + destruct (first_match zs domain 4 0) as [r|] eqn:Hm; [|done].
      intros [= ->]. apply first_match_Some in Hm as (k & Hk & Hm & Hlt).
      apply suffix_match_Some in Hm as [Hs Hid].
      exists k. split_and!; [lia|done..|].
      intros j zone' Hj. apply (suffix_match_None _ _ _ Hwf), Hlt. lia.
    + intros (k & Hk & Hs & Hid & Hlt).
      assert (first_match zs domain 4 0 = Some (zone, id)) as ->; [|done].
      apply first_match_Some. exists k. split_and!; [lia..| |].
      * by apply suffix_match_Some.
      * intros j Hj. apply (suffix_match_None _ _ _ Hwf).
        intros zone'. apply Hlt. lia.
  - split.
    + intros (k & zone & z & Hk & Hs & Hz & Hn).
      destruct (first_match zs domain 4 0) eqn:Hm; [done|].
      rewrite first_match_None in Hm. specialize (Hm k ltac:(lia)).
      rewrite (suffix_match_None _ _ _ Hwf) in Hm. destruct (Hm zone Hs); eauto.
    + intros [[zone id] Hm]. apply first_match_Some in Hm as (k & Hk & Hm & _).
      apply suffix_match_Some in Hm as [Hs Hid].
      destruct (proj1 (zone_id_of_wf zs zone Hwf)) as (z & Hz & Hn); [by eexists|].
      exists k, zone, z. split_and!; [lia|done..].
  - rewrite He. destruct (first_match zs domain 4 0) as [[zone id]|]; split.
    + done.
    + eauto.
    + by intros (? & ? & ?).
    + by intros [? ?].
Qed.

(** C1 (zone resolution).  Let the domain be one line of text, and let
    every zone-list request be answered with the list [zs], each element
    of which has a name and an id.  Then zone resolution, the
    suffix-matching loop with [_get_dns_zone_id], returns [(zone, id)] if
    and only if, for some [k] from 0 to 3, [zone] is the domain without
    its [k] leftmost labels, [id] is the id of the first zone of the list
    named [zone], and no suffix tried before it names a zone: the first
    match wins.  It succeeds if and only if one of these four suffixes
    is the name of a zone of the list.  When none is, the loop raises,
    after its fourth attempt, the [PluginError] that says that the
    domain zone was not found: in [add_txt_record] with that text alone,
    in [delete_txt_record] followed by the text of the failure of the
    fourth attempt; and the entry point hands it to its caller inside
    the [PluginError] that names the operation.  In every case the zone
    list is asked for at most four times. *)
Theorem C1_zone_resolution (E : env) (domain : string) (zs : list jobj) (w : world) :
  single_line domain = true →
  zones_wf zs →
  (∀ k, zones_resp E k = Body zs) →
  let found :=
    ∃ k zone z, k ≤ 3 ∧ strip_labels k domain = Some zone ∧ z ∈ zs ∧ named zone z in
  let cause :=
    match strip_labels 3 domain with
    | Some zone =>
        "Error occurred while trying to get dns zone id for domain " +:+ zone
        +:+ "." +:+ nl
    | None => "'NoneType' object has no attribute 'group'"
    end in
  let not_found_add := "Error occurred while trying to get domain zone name." +:+ nl in
  let not_found_delete :=
    "Error occurred while trying to get domain zone name and id." +:+ nl
    +:+ "Error text: " +:+ cause +:+ "." +:+ nl in
  (∀ ze zone id,
     (resolve_zone E ze domain w).2 = Ok (zone, id) ↔
     ∃ k, k ≤ 3 ∧ strip_labels k domain = Some zone ∧ zone_id_of zs zone = Some id
          ∧ ∀ j zone', j < k → strip_labels j domain = Some zone' →
                       ¬ ∃ z, z ∈ zs ∧ named zone' z)
  ∧ (∀ ze, (∃ zone id, (resolve_zone E ze domain w).2 = Ok (zone, id)) ↔ found)
  ∧ (¬ found →
     (resolve_zone E add_zone_error domain w).2 = Raise (PluginError not_found_add)
     ∧ (resolve_zone E delete_zone_error domain w).2
       = Raise (PluginError not_found_delete)
     ∧ (∀ fuel record_name record_content,
          (add_txt_record E fuel domain record_name record_content w).2
          = Raise (PluginError
              ("Error occurred while trying to add TXT record." +:+ nl
               +:+ "Error text: " +:+ not_found_add +:+ "." +:+ nl)))
     ∧ (∀ record_name record_content,
          (delete_txt_record E domain record_name record_content w).2
          = Raise (PluginError
              ("Error occurred while trying to delete TXT record." +:+ nl
               +:+ "Error text: " +:+ not_found_delete +:+ "." +:+ nl))))
  ∧ (∀ ze, zone_calls (resolve_zone E ze domain w).1 ≤ zone_calls w + 4).
Proof.
  intros Hline Hwf Hresp found cause not_found_add not_found_delete.
  split_and!.
  - intros ze. apply (resolve_zone_first_match E ze domain zs w Hline Hwf Hresp).
  - intros ze.
    destruct (resolve_zone_first_match E ze domain zs w Hline Hwf Hresp)
      as (_ & Hex & Hok).
    by rewrite Hok, <-Hex.
  - intros Hnone.
    assert (first_match zs domain 4 0 = None) as Hm.
    { destruct (resolve_zone_first_match E add_zone_error domain zs w Hline Hwf Hresp)
        as (_ & Hex & _).
      apply eq_None_not_Some. by rewrite <-Hex. }
    pose proof (resolve_from_fails E add_zone_error domain zs Hline Hwf Hresp 4 0 w
                  eq_refl ltac:(lia) Hm) as Hadd.
    pose proof (resolve_from_fails E delete_zone_error domain zs Hline Hwf Hresp 4 0 w
                  eq_refl ltac:(lia) Hm) as Hdel.
    change (resolve_from E add_zone_error 4 0 (regex_at (pred 0)) domain w)
      with (resolve_zone E add_zone_error domain w) in Hadd.
    change (resolve_from E delete_zone_error 4 0 (regex_at (pred 0)) domain w)
      with (resolve_zone E delete_zone_error domain w) in Hdel.
    assert ((resolve_zone E delete_zone_error domain w).2
            = Raise (PluginError not_found_delete)) as Hdel'.
    { rewrite Hdel. unfold delete_zone_error, not_found_delete, cause.
      by destruct (strip_labels 3 domain). }
    split_and!.
    + exact Hadd.
    + exact Hdel'.
    + intros fuel record_name record_content.
      unfold add_txt_record, try_except, add_txt_record_body, bind at 1.
      destruct (resolve_zone E add_zone_error domain w) as [w1 r]. simpl in Hadd.
      by rewrite Hadd.
    + intros record_name record_content.
      unfold delete_txt_record, try_except, delete_txt_record_body, bind at 1.
      destruct (resolve_zone E delete_zone_error domain w) as [w1 r]. simpl in Hdel'.
      by rewrite Hdel'.
  - intros ze.
    destruct (resolve_from_world E ze domain 4 0 [GroupAnyStar] w)
      as (_ & _ & j & Hj & _ & Hz).
    unfold resolve_zone. lia.
Qed.

(** C1, at [_acme-challenge.foo.example.com] with the zones [example.org]
    and [example.com]: the third suffix tried is the zone. *)
Lemma C1_zone_resolution_witness :
  let E := provider [] (λ _, inr []) in
  (resolve_zone E add_zone_error "_acme-challenge.foo.example.com" w0).2
  = Ok ("example.com", JNum 2).
Proof.
  set (zs := [zone "example.org" 1; zone "example.com" 2]).
  intros E.
  assert (zones_wf zs) as Hwf.
  { unfold zones_wf. apply (bool_decide_unpack _). by vm_compute. }
  apply (proj1 (C1_zone_resolution E "_acme-challenge.foo.example.com" zs w0
                  eq_refl Hwf (λ _, eq_refl))).
  exists 2. split_and!; [lia|reflexivity|reflexivity|].
  intros j zone' Hj Hs (z & Hz & Hn).
  destruct j as [|[|j]]; [| |lia]; injection Hs as <-;
    repeat (apply elem_of_cons in Hz as [->|Hz]; [by vm_compute in Hn|]);
    by apply elem_of_nil in Hz.
Defined.




(** C3 as stated fails: on a record set that already holds the entry,
    adding it and then removing it leaves the empty set, which is no
    permutation of the original. *)
Lemma C3_counterexample :
  let t := txt_record "_acme-challenge" "abc123" in
  let w := World [t] [] 0 0 in
  ∃ w1 ls1 w2 ls2,
    _add_txt_record "_acme-challenge" "abc123" [0] w = (w1, Ok ls1)
    ∧ _delete_txt_record "_acme-challenge" "abc123" ls1 w1 = (w2, Ok ls2)
    ∧ deref (heap w) [0] = [t]
    ∧ deref (heap w2) ls2 = []
    ∧ ¬ deref (heap w2) ls2 ≡ₚ deref (heap w) [0].
Proof.
  intros t w. eexists _, _, _, _.
  split; [apply add_txt_record_eq|]. split; [apply delete_txt_record_eq|].
  split; [reflexivity|]. split; [by vm_compute|].
  intros Hp%Permutation_length. by vm_compute in Hp.
Qed.

(** C3 (amended).  For every record set that does not already hold the
    entry [{name, type: TXT, data}], [_add_txt_record] followed by
    [_delete_txt_record] with the same name and value gives back the
    original record set, in the same order, hence also up to order. *)
Theorem C3_add_then_remove (name data : string) (ls : list loc) (w : world) :
  txt_record name data ∉ deref (heap w) ls →
  ∃ w1 ls1 w2 ls2,
    _add_txt_record name data ls w = (w1, Ok ls1)
    ∧ _delete_txt_record name data ls1 w1 = (w2, Ok ls2)
    ∧ deref (heap w2) ls2 = deref (heap w) ls
    ∧ deref (heap w2) ls2 ≡ₚ deref (heap w) ls.
Proof.
  intros Hnot.
  destruct (add_then_delete name data ls w) as (w1 & ls1 & w2 & ls2 & Ha & Hd & Hr).
  exists w1, ls1, w2, ls2. split_and!; [done..| |].
  - rewrite Hr. apply filter_all, Forall_forall. by intros r Hin ->.
  - rewrite Hr, filter_all; [done|]. apply Forall_forall. by intros r Hin ->.
Qed.

(** C3 (amended), at a record set of two other records. *)
Lemma C3_add_then_remove_witness :
  ∃ w2 ls2, deref (heap w2) ls2 = [www; mx].
Proof.
  destruct (C3_add_then_remove "_acme-challenge" "abc123" [0; 1] (World [www; mx] [] 0 0))
    as (w1 & ls1 & w2 & ls2 & _ & _ & Hr & _).
  - apply (bool_decide_unpack _). by vm_compute.
  - exists w2, ls2. exact Hr.
Defined.

(** C4, at a record that carries both references: the publish workflow
    submits it with the [link] of its [configRef] removed and the [link]
    of its [targetGroupRef] still there, because the loop of
    [_update_dns_zone_records] looks at [targetGroupRef] only when the
    record has no [configRef]. *)
Theorem C4_both_refs_link_survives :
  let E := provider [both] slow_dig in
  let run := add_txt_record E 15 "example.com" "_acme-challenge.example.com" "abc123" w0 in
  records_resp E (JNum 2) = Body [both]
  ∧ link_of "configRef" both = Some (JStr "/api/v3/config/7")
  ∧ link_of "targetGroupRef" both = Some (JStr "/api/v3/target-group/9")
  ∧ strip_link both = inr both_sent
  ∧ EvPatch (JNum 2) [both_sent; challenge] ∈ trace run.1
  ∧ link_of "configRef" both_sent = None
  ∧ link_of "targetGroupRef" both_sent = Some (JStr "/api/v3/target-group/9").
Proof.
  split_and!; try done; apply (bool_decide_unpack _); by vm_compute.
Qed.

(** C5, at a resolver that shows the value from its 16th answer on: the
    waiter makes 16 queries, the first two with no wait between them,
    sleeps 14 times 60 seconds, and raises the [PluginError] of the spent
    budget although the answer to its last query holds the value: the
    loop fetches that answer and leaves without looking at it.  In
    general no run makes more than 16 queries or sleeps more than 14
    minutes, and a value that first shows in the 16th answer is always
    missed. *)
Theorem C5_value_in_last_answer_is_missed :
  let E := provider [] late_dig in
  let name := "_acme-challenge.example.com" in
  let run := _wait_for_record_propagation E 15 name "abc123" w0 in
  (∀ j, j ≤ 14 → unseen_at E "abc123" j)
  ∧ seen_at E "abc123" 15
  ∧ run.2 = Raise (PluginError
      ("Maximum amount of retries reached while trying to get new TXT record "
       +:+ name +:+ "." +:+ nl))
  ∧ trace run.1 = EvDig name :: polls name 14 ++ [EvDig name]
  ∧ queries (trace run.1) = 16
  ∧ slept (trace run.1) = (14 * 60)%Z
  ∧ ∀ (E : env) (fuel : nat) (record_name record_data : string) (w : world),
      15 ≤ fuel →
      (∃ evs,
         trace (_wait_for_record_propagation E fuel record_name record_data w).1
         = trace w ++ evs
         ∧ queries evs ≤ 16 ∧ (slept evs ≤ 14 * 60)%Z)
      ∧ ((∀ j, j ≤ 14 → unseen_at E record_data (dig_calls w + j)) →
         seen_at E record_data (dig_calls w + 15) →
         (_wait_for_record_propagation E fuel record_name record_data w).2
         = Raise (PluginError
             ("Maximum amount of retries reached while trying to get new TXT record "
              +:+ record_name +:+ "." +:+ nl))).
Proof.
  split_and!.
  - intros j Hj. exists []. split; [|apply not_elem_of_nil].
    simpl. unfold late_dig. by rewrite decide_True by lia.
  - exists [quoted "abc123"]. split; [reflexivity|]. left.
  - by vm_compute.
  - by vm_compute.
  - by vm_compute.
  - by vm_compute.
  - intros E fuel record_name record_data w Hfuel.
    destruct (wait_for_record_propagation_post E record_name record_data w fuel Hfuel)
      as (_ & (k & tail & Hk & Htail & Htr & _) & _ & Hout & _).
    split.
    + eexists. split; [exact Htr|].
      change (EvDig record_name :: polls record_name k ++ tail)
        with ([EvDig record_name] ++ polls record_name k ++ tail).
      rewrite !queries_app, !slept_app, queries_polls, slept_polls.
      destruct Htail as [-> | ->]; simpl; lia.
    + intros Hall (lines & Hlines & _). apply Hout; [done|]. by exists lines.
Qed.

(** C6 (removing what is not there).  For every record set of live
    records none of which equals [{name, type: TXT, data}],
    [_delete_txt_record] returns the same references in the same order,
    the records behind them unchanged, and raises nothing. *)
Theorem C6_remove_absent_is_noop (name data : string) (ls : list loc) (w : world) :
  Forall (λ l, is_Some (heap w !! l)) ls →
  txt_record name data ∉ deref (heap w) ls →
  ∃ w', _delete_txt_record name data ls w = (w', Ok ls)
        ∧ deref (heap w') ls = deref (heap w) ls
        ∧ trace w' = trace w.
Proof.
  intros Hvalid Hnot. eexists. rewrite delete_txt_record_eq. split_and!.
  - by rewrite filter_valid_grow, filter_locs_all.
  - simpl. by apply deref_grow.
  - done.
Qed.

(** C6, at a record set of two other records. *)
Lemma C6_remove_absent_is_noop_witness :
  ∃ w', _delete_txt_record "_acme-challenge" "abc123" [0; 1] (World [www; mx] [] 0 0)
        = (w', Ok [0; 1]).
Proof.
  destruct (C6_remove_absent_is_noop "_acme-challenge" "abc123" [0; 1]
              (World [www; mx] [] 0 0)) as (w' & Hd & _).
  - apply (bool_decide_unpack _). by vm_compute.
  - apply (bool_decide_unpack _). by vm_compute.
  - exists w'. exact Hd.
Defined.

(** C7, at a provider that has the zones [foo.example.com] and
    [example.com] and gives no response to the first zone-list request
    of the run.  The lookup of [foo.example.com] fails: the handler of
    [_get_dns_zone_id] reads the response it never got and raises an
    [UnboundLocalError].  The suffix loop catches it as it catches a
    zone that is not found, and goes on with the next suffix: both entry
    points complete, in the zone [example.com], as if nothing had
    failed.  A failure to talk to the provider was recovered silently,
    and the record was published in, and removed from, another zone than
    the one the domain is in. *)
Theorem C7_failed_request_is_swallowed :
  let domain := "foo.example.com" in
  let name := "_acme-challenge.foo.example.com" in
  let pub := add_txt_record flaky 15 domain name "abc123" w0 in
  let rem := delete_txt_record flaky domain name "abc123" w0 in
  zones_resp flaky 0 = NoResponse
  ∧ (∀ k, zones_resp flaky (S k)
          = Body [zone "foo.example.com" 3; zone "example.com" 2])
  ∧ (∃ msg, (_get_dns_zone_id flaky domain w0).2
            = Raise (PyError "UnboundLocalError" msg))
  ∧ (resolve_zone flaky add_zone_error domain w0).2 = Ok ("example.com", JNum 2)
  ∧ (resolve_zone flaky delete_zone_error domain w0).2 = Ok ("example.com", JNum 2)
  ∧ pub.2 = Ok tt
  ∧ trace pub.1 =
      [EvListZones; EvListZones; EvGetZone (JNum 2);
       EvBackup "/tmp/ngenix-dns-zone/example.com.2024-03-09_07-05-42.before.json"
                (JNum 2) [mx];
       EvPatch (JNum 2) [mx; txt_record "_acme-challenge.foo" "abc123"];
       EvDig name]
  ∧ rem.2 = Ok tt
  ∧ trace rem.1 =
      [EvListZones; EvListZones; EvGetZone (JNum 2); EvPatch (JNum 2) [mx];
       EvBackup "/tmp/ngenix-dns-zone/example.com.2024-03-09_07-05-42.after.json"
                (JNum 2) [mx]].
Proof.
  split_and!; try done; try (by eexists);
    try (apply (bool_decide_unpack _); by vm_compute).
Qed.

(** C8 (snapshots).  In every publish run a snapshot is tagged [before]
    and holds the id of the resolved zone and the record set as it was
    fetched; a replacement request is immediately preceded by the
    writing of that snapshot, and no other write happens; a successful
    run has made the request.  In every remove run the snapshot is
    tagged [after] and is written immediately after the replacement
    request, as the last event; it holds the id of the resolved zone and
    the fetched list of records as the loop of
    [_update_dns_zone_records] left it, each record the same as fetched
    but, at most, for the [link] of its references, and the record set
    that was submitted is that list without the records equal to the
    entry; a successful run has written it.  The file is
    [zoneName.timestamp.tag.json] in the backup directory, and the
    timestamp is the time to the second: two times of the calendar have
    the same timestamp exactly when they agree from the year down to the
    second. *)
Theorem C8_snapshot_order (E : env) (fuel : nat)
    (domain record_name record_content : string) (w : world) :
  15 ≤ fuel →
  let pub := add_txt_record E fuel domain record_name record_content w in
  let rem := delete_txt_record E domain record_name record_content w in
  (∃ evs, trace pub.1 = trace w ++ evs
     ∧ (∀ path id saved, EvBackup path id saved ∈ evs →
          ∃ zone,
            path = snapshot_path E zone "before"
            ∧ (resolve_zone E add_zone_error domain w).2 = Ok (zone, id)
            ∧ records_resp E id = Body saved)
     ∧ (∀ id sent, EvPatch id sent ∈ evs →
          ∃ pre post zone fetched,
            evs = pre ++ EvBackup (snapshot_path E zone "before") id fetched
                      :: EvPatch id sent :: post
            ∧ Forall (λ ev, ¬ is_write ev) pre ∧ Forall (λ ev, ¬ is_write ev) post
            ∧ (resolve_zone E add_zone_error domain w).2 = Ok (zone, id)
            ∧ records_resp E id = Body fetched)
     ∧ (pub.2 = Ok tt → ∃ id sent, EvPatch id sent ∈ evs))
  ∧ (∃ evs, trace rem.1 = trace w ++ evs
     ∧ (∀ path id saved, EvBackup path id saved ∈ evs →
          ∃ pre zone fetched name',
            evs = pre ++ [EvPatch id (filter (λ r, r ≠ txt_record name' record_content)
                                             saved);
                          EvBackup path id saved]
            ∧ path = snapshot_path E zone "after"
            ∧ Forall (λ ev, ¬ is_write ev) pre
            ∧ (resolve_zone E delete_zone_error domain w).2 = Ok (zone, id)
            ∧ records_resp E id = Body fetched
            ∧ re_sub_zone_suffix E zone record_name = inr name'
            ∧ saved = stripped <$> fetched
            ∧ Forall2 same_but_links fetched saved
            ∧ (Forall (λ r, link_of "configRef" r = None
                            ∧ link_of "targetGroupRef" r = None) fetched →
               saved = fetched))
     ∧ (rem.2 = Ok tt → ∃ path id saved, EvBackup path id saved ∈ evs))
  ∧ (∀ zone tag, tag = "before" ∨ tag = "after" → (∀ s, zone ≠ String "/" s) →
       snapshot_path E zone tag
       = "/tmp/ngenix-dns-zone/" +:+ zone +:+ "." +:+ strftime (now E)
         +:+ "." +:+ tag +:+ ".json")
  ∧ (∀ t1 t2, in_calendar t1 → in_calendar t2 →
       strftime t1 = strftime t2 ↔
       year t1 = year t2 ∧ month t1 = month t2 ∧ day t1 = day t2
       ∧ hour t1 = hour t2 ∧ minute t1 = minute t2 ∧ second t1 = second t2).
Proof.
  intros Hfuel pub rem.
  destruct (publish_complete E fuel domain record_name record_content w Hfuel)
    as (evs1 & Htr1 & Hrun1).
  destruct (remove_complete E domain record_name record_content w)
    as (evs2 & Htr2 & Hrun2).
  split_and!.
  - exists evs1. split_and!; [done| | |].
    + intros path id saved Hin.
      by apply (publish_backup E fuel domain record_name record_content w evs1).
    + intros id sent Hin.
      destruct (publish_patch E domain record_name record_content w fuel Hfuel
                  _ _ _ _ Hrun1 Hin)
        as (j & zone & fetched & name' & post & Hsent & -> & Hpost).
      destruct Hsent as (((((w1 & Hres & _) & Hrec) & _) & _) & _).
      exists (replicate j EvListZones ++ [EvGetZone id]), post, zone, fetched.
      split_and!; try done.
      * by rewrite <-app_assoc.
      * apply Forall_app. split; [apply listing_no_write|].
        repeat constructor. by intros [].
      * by rewrite Hres.
    + intros Hok. fold pub in Hrun1. rewrite Hok in Hrun1. by eapply publish_done.
  - exists evs2. split_and!; [done| |].
    + intros path id saved Hin.
      destruct (remove_backup E domain record_name record_content w _ _ _ _ _ Hrun2 Hin)
        as (j & zone & fetched & name' & sent & Hsent & -> & Hpath & -> & _).
      destruct Hsent as ((((w1 & Hres & _) & Hrec) & Hsub) & Hstrip).
      exists (replicate j EvListZones ++ [EvGetZone id]), zone, fetched, name'.
      apply strip_all_stripped in Hstrip. rewrite stripped_filter in Hstrip.
      split_and!; try done.
      * rewrite <-Hstrip. by rewrite <-app_assoc.
      * apply Forall_app. split; [apply listing_no_write|].
        repeat constructor. by intros [].
      * by rewrite Hres.
      * apply Forall2_fmap_r, Forall_Forall2_diag, Forall_forall.
        intros r _. apply stripped_same_but_links.
      * apply stripped_no_link.
    + intros Hok. fold rem in Hrun2. rewrite Hok in Hrun2. by eapply remove_done.
  - intros zone tag [-> | ->] Hzone; by apply snapshot_path_name.
  - apply strftime_second.
Qed.

(** C8, at the snapshot taken before a publish in [example.com]. *)
Lemma C8_snapshot_order_witness :
  let E := provider [www; mx] slow_dig in
  snapshot_path E "example.com" "before"
  = "/tmp/ngenix-dns-zone/example.com.2024-03-09_07-05-42.before.json".
Proof.
  intros E.
  destruct (C8_snapshot_order E 15 "example.com" "_acme-challenge.example.com"
              "abc123" w0) as (_ & _ & Hname & _); [lia|].
  by rewrite Hname; [|left|].
Defined.

(** C9, at a zone with a record that carries a [link]: the snapshot
    tagged [after] of a remove run still holds the TXT record that was
    removed, but it is not the record set as fetched: the record's link
    is gone from it, since [_delete_txt_record] returns the fetched
    dictionaries themselves and [_update_dns_zone_records] strips them
    in place. *)
Theorem C9_after_snapshot_is_stripped :
  let E := provider [www; mx; challenge] slow_dig in
  let run := delete_txt_record E "example.com" "_acme-challenge.example.com" "abc123" w0 in
  records_resp E (JNum 2) = Body [www; mx; challenge]
  ∧ run.2 = Ok tt
  ∧ trace run.1 =
      [EvListZones; EvGetZone (JNum 2); EvPatch (JNum 2) [www_sent; mx];
       EvBackup "/tmp/ngenix-dns-zone/example.com.2024-03-09_07-05-42.after.json"
                (JNum 2) [www_sent; mx; challenge]]
  ∧ [www_sent; mx; challenge] ≠ [www; mx; challenge]
  ∧ link_of "configRef" www = Some (JStr "/api/v3/config/7")
  ∧ link_of "configRef" www_sent = None.
Proof.
  split_and!; try done; apply (bool_decide_unpack _); by vm_compute.
Qed.

(** C10 (exact match).  [_delete_txt_record] keeps every record whose
    name, type and data are those of the entry but which has one more
    field, and a record it removes is exactly the three-field mapping
    [{name, type: TXT, data}]. *)
Theorem C10_extra_field_is_kept (name data : string) (ls : list loc) (w : world) :
  Forall (λ l, is_Some (heap w !! l)) ls →
  ∃ w' ls',
    _delete_txt_record name data ls w = (w', Ok ls')
    ∧ (∀ l r k,
         l ∈ ls → heap w !! l = Some r →
         r !! "name" = Some (JStr name) → r !! "type" = Some (JStr "TXT") →
         r !! "data" = Some (JStr data) →
         k ≠ "name" → k ≠ "type" → k ≠ "data" → is_Some (r !! k) →
         l ∈ ls' ∧ heap w' !! l = Some r)
    ∧ (∀ l, l ∈ ls → l ∉ ls' → heap w !! l = Some (txt_record name data)).
Proof.
  intros Hvalid. eexists _, _. split; [apply delete_txt_record_eq|].
  rewrite filter_valid_grow by done. simpl. split.
  - intros l r k Hl Hr Hn Ht Hd H1 H2 H3 [v Hv]. split.
    + apply list_elem_of_filter. split; [|done]. rewrite Hr. intros [= ->].
      destruct (proj1 (txt_record_spec name data _) eq_refl) as (_ & _ & _ & Hs).
      rewrite Hs in Hv by done. done.
    + by apply lookup_app_l_Some.
  - intros l Hl Hnot.
    destruct (decide (heap w !! l = Some (txt_record name data))) as [|Hne]; [done|].
    destruct Hnot. by apply list_elem_of_filter.
Qed.

(** C10, at the entry with a [ttl] next to the entry itself. *)
Lemma C10_extra_field_is_kept_witness :
  ∃ w' ls',
    _delete_txt_record "_acme-challenge" "abc123" [0; 1]
      (World [tagged; txt_record "_acme-challenge" "abc123"] [] 0 0) = (w', Ok ls')
    ∧ 0 ∈ ls' ∧ heap w' !! 0 = Some tagged.
Proof.
  destruct (C10_extra_field_is_kept "_acme-challenge" "abc123" [0; 1]
              (World [tagged; txt_record "_acme-challenge" "abc123"] [] 0 0))
    as (w' & ls' & Hd & Hkeep & _).
  - apply (bool_decide_unpack _). by vm_compute.
  - exists w', ls'. split; [exact Hd|].
    apply (Hkeep 0 tagged "ttl"); try done. left.
Defined.

(** * Further properties of the code

    What the code shows beyond the claims: the suffix loop against any
    provider, the slice and the failures of the waiter, the outcome of a
    run from the answers of the environment, the mutation helpers and the
    object store, the snapshot files. *)

Import Cases.

(** * The suffix-matching loop, whatever the provider answers *)

Lemma zones_named_head zone zs z rest :
  zones_named zone zs = Some (z :: rest) → z ∈ zs ∧ named zone z.
Proof.
  revert z rest. induction zs as [|d zs IH]; intros z rest; simpl; [done|].
  destruct (d !! "name") as [name|] eqn:Hn; [|done].
  destruct (zones_named zone zs) as [found|]; [|done].
  destruct (decide (name = JStr zone)) as [->|Hne].
  - intros [= -> ->]. split; [left|done].
  - intros [= ->]. destruct (IH z rest eq_refl) as [Hin Hz]. split; [by right|done].
Qed.

Lemma zones_named_nameless zone zs z :
  z ∈ zs → z !! "name" = None → zones_named zone zs = None.
Proof.
  induction 1 as [z zs|z d zs Hin IH]; intros Hz; simpl.
  - by rewrite Hz.
  - destruct (d !! "name"); [|done]. by rewrite IH.
Qed.

Lemma get_dns_zone_id_Ok E zone w id :
  (_get_dns_zone_id E zone w).2 = Ok id →
  ∃ zs z, zones_resp E (zone_calls w) = Body zs ∧ z ∈ zs ∧ named zone z
          ∧ z !! "id" = Some id.
Proof.
  unfold _get_dns_zone_id, bind, http_list_zones. simpl.
  destruct (zones_resp E (zone_calls w)) as [| |zs]; try done.
  destruct (zones_named zone zs) as [[|z rest]|] eqn:Hz; try done.
  destruct (z !! "id") as [id'|] eqn:Hid; [|done].
  intros [= <-]. apply zones_named_head in Hz as [Hin Hn]. eauto 10.
Qed.

Lemma regex_at_step i :
  (if decide (i ≠ 0) then AnyStarLazy :: LitDot :: regex_at (pred i)
   else regex_at (pred i)) = regex_at i.
Proof. destruct i; [done|]. by rewrite decide_True by done. Qed.

Section resolve_any.
Context (E : env) (ze : exn → exn) (domain : string).

#[local] Arguments _get_dns_zone_id : simpl never.
#[local] Arguments resolve_from : simpl nomatch.

Lemma resolve_from_sound n i w zone id :
  single_line domain = true → i + n = 4 →
  (resolve_from E ze n i (regex_at (pred i)) domain w).2 = Ok (zone, id) →
  ∃ k q zs z, i ≤ k ≤ 3 ∧ strip_labels k domain = Some zone
    ∧ zone_calls w ≤ q < zone_calls w + n
    ∧ zones_resp E q = Body zs ∧ z ∈ zs ∧ named zone z ∧ z !! "id" = Some id.
Proof.
  intros Hline. revert i w. induction n as [|n IH]; intros i w Hi; [done|].
  simpl resolve_from. rewrite regex_at_step.
  unfold try_except, bind at 1, search_group1.
  rewrite (re_search_regex_at i domain Hline).
  assert (∀ w1 e0, zone_calls w ≤ zone_calls w1 ≤ S (zone_calls w) →
    ((if decide (i = 3) then raise (ze e0)
      else resolve_from E ze n (S i) (regex_at i) domain) w1).2 = Ok (zone, id) →
    ∃ k q zs z, i ≤ k ≤ 3 ∧ strip_labels k domain = Some zone
      ∧ zone_calls w ≤ q < zone_calls w + S n
      ∧ zones_resp E q = Body zs ∧ z ∈ zs ∧ named zone z ∧ z !! "id" = Some id)
    as Hrest.
  { intros w1 e0 Hw1. destruct (decide (i = 3)) as [->|Hne]; [done|].
    intros Hr. apply (IH (S i) w1) in Hr as (k & q & zs & z & Hk & Hs & Hq & Hrest);
      [|lia].
    exists k, q, zs, z. split_and!; try lia; try done; tauto. }
  destruct (strip_labels i domain) as [g|] eqn:Hg; simpl.
  - unfold bind.
    pose proof (get_dns_zone_id_world E g w) as Hw.
    pose proof (get_dns_zone_id_Ok E g w) as Hok.
    destruct (_get_dns_zone_id E g w) as [w1 [id'| e |]]; simpl in Hw, Hok; subst w1.
    + simpl. intros [= <- <-].
      destruct (Hok _ eq_refl) as (zs & z & Hresp & Hin & Hn & Hid).
      exists i, (zone_calls w), zs, z. split_and!; try lia; done.
    + apply Hrest. simpl. lia.
    + done.
  - apply Hrest. lia.
Qed.

Lemma resolve_from_raise n i r w e :
  i + n = 4 → 0 < n →
  (resolve_from E ze n i r domain w).2 = Raise e → ∃ e', e = ze e'.
Proof.
  revert i r w. induction n as [|n IH]; intros i r w Hi Hn; [lia|].
  simpl resolve_from. set (r' := if decide (i ≠ 0) then _ else _).
  unfold try_except, bind at 1.
  assert (∀ w1 e0,
    ((if decide (i = 3) then raise (ze e0)
      else resolve_from E ze n (S i) r' domain) w1).2 = Raise e → ∃ e', e = ze e')
    as Hrest.
  { intros w1 e0. destruct (decide (i = 3)) as [->|Hne].
    - simpl. intros [= <-]. eauto.
    - apply IH; lia. }
  destruct (search_group1 r' domain w) as [w1 [g|e0|]]; simpl.
  - unfold bind. destruct (_get_dns_zone_id E g w1) as [w2 [id|e1|]]; simpl; try done.
    apply Hrest.
  - apply Hrest.
  - done.
Qed.
End resolve_any.

(** * A name with too few dots costs no request *)

Lemma after_first_dot_dots d :
  match after_first_dot d with
  | Some d' => dots d = S (dots d')
  | None => dots d = 0
  end.
Proof.
  induction d as [|c d IH]; simpl; [done|].
  case_bool_decide; [done|]. by destruct (after_first_dot d).
Qed.

Lemma strip_labels_dots k d : is_Some (strip_labels k d) ↔ k ≤ dots d.
Proof.
  revert d. induction k as [|k IH]; intros d; simpl.
  - split; [lia|eauto].
  - pose proof (after_first_dot_dots d) as Hd.
    destruct (after_first_dot d) as [d'|]; simpl.
    + rewrite IH. lia.
    + split; [by intros [? ?]|lia].
Qed.

Section economy.
Context (E : env) (ze : exn → exn) (domain : string).

#[local] Arguments _get_dns_zone_id : simpl never.
#[local] Arguments resolve_from : simpl nomatch.

Lemma resolve_from_calls n i w :
  single_line domain = true → i + n = 4 →
  zone_calls (resolve_from E ze n i (regex_at (pred i)) domain w).1
  ≤ zone_calls w + (S (dots domain) - i).
Proof.
  intros Hline. revert i w. induction n as [|n IH]; intros i w Hi; [simpl; lia|].
  simpl resolve_from. rewrite regex_at_step.
  unfold try_except, bind at 1, search_group1.
  rewrite (re_search_regex_at i domain Hline).
  pose proof (strip_labels_dots i domain) as Hdots.
  assert (∀ w1 e0 b, zone_calls w1 ≤ zone_calls w + b → b + (S (dots domain) - S i) ≤ S (dots domain) - i →
    zone_calls ((if decide (i = 3) then raise (ze e0)
      else resolve_from E ze n (S i) (regex_at i) domain) w1).1
    ≤ zone_calls w + (S (dots domain) - i)) as Hrest.
  { intros w1 e0 b Hw1 Hb. destruct (decide (i = 3)) as [->|Hne]; [simpl; lia|].
    etrans; [apply (IH (S i) w1); lia|]. lia. }
  destruct (strip_labels i domain) as [g|] eqn:Hg; simpl.
  - assert (i ≤ dots domain) as Hle by (apply Hdots; eauto).
    unfold bind.
    pose proof (get_dns_zone_id_world E g w) as Hw.
    destruct (_get_dns_zone_id E g w) as [w1 [id'| e |]]; simpl in Hw; subst w1; simpl.
    + lia.
    + apply (Hrest _ _ 1); simpl; lia.
    + lia.
  - apply (Hrest _ _ 0); lia.
Qed.
End economy.

(** X1 (a resolved zone is a listed zone).  Whatever the provider
    answers to each zone-list request, also when some of them fail: if
    the resolution of a one-line domain returns [(zone, id)], then
    [zone] is the domain without its [k] leftmost labels for some [k]
    from 0 to 3, and one of the at most four zone-list requests of this
    run was answered with a list that holds a zone of that name whose id
    is [id]. *)
Theorem X1_resolved_zone_is_listed (E : env) (ze : exn → exn) (domain : string)
    (w : world) (zone : string) (id : json) :
  single_line domain = true →
  (resolve_zone E ze domain w).2 = Ok (zone, id) →
  ∃ k q zs z,
    k ≤ 3 ∧ strip_labels k domain = Some zone
    ∧ zone_calls w ≤ q < zone_calls w + 4
    ∧ zones_resp E q = Body zs ∧ z ∈ zs ∧ named zone z ∧ z !! "id" = Some id.
Proof.
  intros Hline Hr.
  destruct (resolve_from_sound E ze domain 4 0 w zone id Hline eq_refl Hr)
    as (k & q & zs & z & Hk & Hrest).
  exists k, q, zs, z. split; [lia|done].
Qed.

(** X1, at a provider whose first zone-list request gets no response:
    the zone found was in the answer to the second. *)
Lemma X1_resolved_zone_is_listed_witness :
  ∃ k q zs z,
    k ≤ 3 ∧ strip_labels k "foo.example.com" = Some "example.com"
    ∧ 0 ≤ q < 0 + 4
    ∧ zones_resp flaky q = Body zs ∧ z ∈ zs ∧ named "example.com" z
    ∧ z !! "id" = Some (JNum 2).
Proof.
  apply (X1_resolved_zone_is_listed flaky add_zone_error "foo.example.com" w0).
  - reflexivity.
  - vm_compute. reflexivity.
Defined.

(** X2 (a suffix that does not exist costs no request).  The resolution
    of a one-line domain asks for the zone list once for each suffix it
    tries that the domain has: at most one more time than the domain has
    dots, and at most four times; these requests are all it does. *)
Theorem X2_requests_bounded_by_labels (E : env) (ze : exn → exn) (domain : string)
    (w : world) :
  single_line domain = true →
  ∃ j, j ≤ 4 ∧ j ≤ S (dots domain)
       ∧ trace (resolve_zone E ze domain w).1 = trace w ++ replicate j EvListZones
       ∧ zone_calls (resolve_zone E ze domain w).1 = zone_calls w + j
       ∧ heap (resolve_zone E ze domain w).1 = heap w.
Proof.
  intros Hline.
  pose proof (resolve_from_calls E ze domain 4 0 w Hline eq_refl) as Hc.
  destruct (resolve_from_world E ze domain 4 0 [GroupAnyStar] w)
    as (Hh & _ & j & Hj & Ht & Hz).
  change (regex_at (pred 0)) with [GroupAnyStar] in Hc. rewrite Hz in Hc.
  exists j. unfold resolve_zone. split_and!; try done. lia.
Qed.

(** X2, at a domain of two labels none of whose suffixes is a zone: two
    requests, not four. *)
Lemma X2_requests_bounded_by_labels_witness :
  ∃ j, j ≤ 2
       ∧ trace (resolve_zone (provider [] (λ _, inr [])) add_zone_error "nowhere.net" w0).1
         = replicate j EvListZones.
Proof.
  destruct (X2_requests_bounded_by_labels (provider [] (λ _, inr [])) add_zone_error
              "nowhere.net" w0 eq_refl) as (j & _ & Hj & Ht & _).
  exists j. split; [exact Hj|exact Ht].
Defined.

(** X3 (an element without a name spoils the lookup).  The list
    comprehension of [_get_dns_zone_id] reads the name of every element
    of the zone list: when one element has no [name], the lookup of any
    domain raises the [PluginError] of a zone not found, also when a
    zone of that name is in the list. *)
Theorem X3_nameless_zone_spoils_lookup (E : env) (domain : string) (w : world)
    (zs : list jobj) (z : jobj) :
  zones_resp E (zone_calls w) = Body zs →
  z ∈ zs → z !! "name" = None →
  (_get_dns_zone_id E domain w).2 = Raise (zone_id_error domain).
Proof.
  intros Hresp Hin Hz.
  unfold _get_dns_zone_id, bind, http_list_zones. simpl. rewrite Hresp.
  by rewrite (zones_named_nameless domain zs z Hin Hz).
Qed.

(** X3, at a list that holds the zone [example.com] and an element with
    an id only. *)
Lemma X3_nameless_zone_spoils_lookup_witness :
  zone "example.com" 2 ∈ [zone "example.com" 2; {[ "id" := JNum 5 ]}]
  ∧ (_get_dns_zone_id nameless "example.com" w0).2
    = Raise (zone_id_error "example.com").
Proof.
  split; [left|].
  apply (X3_nameless_zone_spoils_lookup nameless "example.com" w0
           [zone "example.com" 2; {[ "id" := JNum 5 ]}] {[ "id" := JNum 5 ]}).
  - reflexivity.
  - right. left.
  - apply (bool_decide_unpack _). by vm_compute.
Defined.

(** X4 (publish does not say why the zone was not found).  In every
    publish run either the zone resolution succeeds, or the run has made
    zone-list requests only and raises one fixed [PluginError], whose
    text is the same whatever made the four attempts fail: the handler
    of the suffix loop of [add_txt_record] drops the exception. *)
Theorem X4_publish_zone_failure_text (E : env) (fuel : nat)
    (domain record_name record_content : string) (w : world) :
  (∃ zone id, (resolve_zone E add_zone_error domain w).2 = Ok (zone, id))
  ∨ ((add_txt_record E fuel domain record_name record_content w).2
     = Raise (PluginError
         ("Error occurred while trying to add TXT record." +:+ nl
          +:+ "Error text: Error occurred while trying to get domain zone name."
          +:+ nl +:+ "." +:+ nl))
     ∧ ∃ j, j ≤ 4
         ∧ trace (add_txt_record E fuel domain record_name record_content w).1
           = trace w ++ replicate j EvListZones).
Proof.
  destruct (resolve_zone_resolved E add_zone_error domain w)
    as (j & (w1 & Hrun & Hj & _ & _ & Ht1) & _).
  pose proof (resolve_from_no_fuel E add_zone_error 4 0 [GroupAnyStar] domain w) as Hnf.
  pose proof (resolve_from_raise E add_zone_error domain 4 0 [GroupAnyStar] w) as Hraise.
  fold (resolve_zone E add_zone_error domain w) in Hnf, Hraise.
  cut (∀ run, add_txt_record E fuel domain record_name record_content w = run →
    (∃ zone id, (resolve_zone E add_zone_error domain w).2 = Ok (zone, id))
    ∨ (run.2 = Raise (PluginError
         ("Error occurred while trying to add TXT record." +:+ nl
          +:+ "Error text: Error occurred while trying to get domain zone name."
          +:+ nl +:+ "." +:+ nl))
       ∧ ∃ j, j ≤ 4 ∧ trace run.1 = trace w ++ replicate j EvListZones)).
  { intros Hcut. apply Hcut. done. }
  intros run.
  unfold add_txt_record, try_except, add_txt_record_body, bind at 1.
  destruct (resolve_zone E add_zone_error domain w) as [w1' [[zone id]|e|]] eqn:Hr;
    simpl in *.
  - intros _. left. eauto.
  - intros <-. right. injection Hrun as <-.
    destruct (Hraise e) as [e' ->]; [lia..|done|]. simpl. split; [done|]. eauto.
  - done.
Qed.

(** * The slice that takes the quotes off a line of dig *)

Lemma drop_last_snoc s b : drop_last (s +:+ String b "") = s.
Proof.
  induction s as [|c s IH]; [done|].
  change (String c s +:+ String b "") with (String c (s +:+ String b "")).
  simpl drop_last. rewrite IH. by destruct s.
Qed.

Lemma drop_last_inv s :
  s = "" ∧ drop_last s = "" ∨ ∃ b, s = drop_last s +:+ String b "".
Proof.
  induction s as [|c s IH]; [by left|]. right.
  destruct IH as [[-> _]|[b Hb]].
  - by exists c.
  - exists b. destruct s as [|c' s']; [done|].
    change (String c (String c' s')
            = String c (drop_last (String c' s') +:+ String b "")).
    by f_equal.
Qed.

Lemma slice_1_m1_spec line data :
  slice_1_m1 line = data ↔
  (data = "" ∧ String.length line ≤ 1)
  ∨ ∃ a b, line = String a (data +:+ String b "").
Proof.
  unfold slice_1_m1. split.
  - intros <-. destruct line as [|a s]; [left; simpl; split; [done|lia]|].
    destruct (drop_last_inv s) as [[-> ->]|[b Hb]].
    + left. simpl. split; [done|lia].
    + right. exists a, b. by f_equal.
  - intros [[-> Hlen]|(a & b & ->)].
    + destruct line as [|a [|b s]]; simpl in *; try done. lia.
    + apply drop_last_snoc.
Qed.

(** * A query of the resolver that fails *)

Section wait_fails.
Context (E : env) (record_name record_data : string) (w0 : world).

Lemma wait_loop_dig_fails n : ∀ fuel i txt_records w k e,
  i + n = 15 → 0 < n → n ≤ fuel →
  wait_inv E record_name record_data w0 i txt_records w →
  i < k ≤ 15 →
  (∀ j, j < k → unseen_at E record_data (dig_calls w0 + j)) →
  dig_resp E (dig_calls w0 + k) = inl e →
  ∃ w', wait_loop E fuel record_name record_data (15 - Z.of_nat i) txt_records w
        = (w', Raise e)
        ∧ trace w' = trace w0 ++ EvDig record_name :: polls record_name (pred k)
                                ++ [EvDig record_name].
Proof.
  induction n as [|n IH]; intros fuel i txt w k e Hin Hn Hfuel
    (Htr & Hheap & Hq & (lines & Hlines & Htxt) & _) Hk Hunseen Hfail; [lia|].
  destruct fuel as [|fuel]; [lia|].
  simpl wait_loop. destruct (decide (record_data ∈ txt)) as [Hseen|Hnot].
  { destruct (Hunseen i) as (l & Hl & Hnot); [lia|]. congruence. }
  unfold bind at 1, dig_txt_records, bind at 1, check_output_dig. simpl.
  rewrite Hq. replace (dig_calls w0 + i + 1) with (dig_calls w0 + S i) by lia.
  destruct (decide (k = S i)) as [->|Hne].
  - rewrite Hfail. simpl. eexists. split; [done|]. simpl.
    rewrite Htr. by rewrite <-app_assoc.
  - destruct (Hunseen (S i)) as (lines' & Hnext & Hnot'); [lia|].
    rewrite Hnext. simpl.
    destruct (decide (15 - Z.of_nat i - 1 = 0)%Z) as [Hz|Hz]; [lia|].
    unfold bind, sleep, log. simpl.
    replace (15 - Z.of_nat i - 1)%Z with (15 - Z.of_nat (S i))%Z by lia.
    apply (IH fuel (S i)); [lia..| |lia|done|done].
    split_and!; simpl.
    + rewrite Htr, polls_S. by rewrite <-!app_assoc.
    + done.
    + lia.
    + by exists lines'.
    + intros j Hj. apply Hunseen. lia.
Qed.

Lemma wait_dig_fails fuel k e :
  15 ≤ fuel → k ≤ 15 →
  (∀ j, j < k → unseen_at E record_data (dig_calls w0 + j)) →
  dig_resp E (dig_calls w0 + k) = inl e →
  ∃ w', _wait_for_record_propagation E fuel record_name record_data w0 = (w', Raise e)
        ∧ trace w' = trace w0
            ++ match k with
               | 0 => []
               | S k' => EvDig record_name :: polls record_name k'
               end ++ [EvDig record_name].
Proof.
  intros Hfuel Hk Hunseen Hfail.
  unfold _wait_for_record_propagation, bind at 1, dig_txt_records, bind at 1,
    check_output_dig. simpl.
  destruct k as [|k].
  - rewrite Nat.add_0_r in Hfail. rewrite Hfail. simpl. eauto.
  - destruct (Hunseen 0) as (lines & Hfirst & Hnot); [lia|].
    rewrite Nat.add_0_r in Hfirst. rewrite Hfirst. simpl.
    destruct (wait_loop_dig_fails 15 fuel 0 (slice_1_m1 <$> lines)
      (World (heap w0) (trace w0 ++ [EvDig record_name]) (zone_calls w0) (S (dig_calls w0)))
      (S k) e) as (w' & Hrun & Htr); try done; try lia.
    + split_and!; simpl.
      * unfold polls. simpl. done.
      * done.
      * lia.
      * exists lines. by rewrite Nat.add_0_r.
      * intros; lia.
    + exists w'. split; [exact Hrun|]. rewrite Htr. done.
Qed.
End wait_fails.

(** X5 (what the slice takes off).  The waiter compares the expected
    value with each line of dig without its first and its last
    character, whatever these are, quotes or not: a line gives the value
    [data] exactly when it is [data] between two characters, or when
    [data] is empty and the line has at most one character. *)
Theorem X5_slice_takes_first_and_last (line data : string) (lines : list string) :
  (slice_1_m1 line = data ↔
   (data = "" ∧ String.length line ≤ 1)
   ∨ ∃ a b, line = String a (data +:+ String b ""))
  ∧ (data ∈ slice_1_m1 <$> lines ↔
     ∃ l, l ∈ lines
          ∧ ((data = "" ∧ String.length l ≤ 1)
             ∨ ∃ a b, l = String a (data +:+ String b ""))).
Proof.
  split; [apply slice_1_m1_spec|].
  rewrite list_elem_of_fmap. split.
  - intros (l & Hl & Hin). exists l. split; [done|]. by apply slice_1_m1_spec.
  - intros (l & Hin & Hl). exists l. split; [|done]. symmetry. by apply slice_1_m1_spec.
Qed.

(** X6 (a query that fails ends the wait).  When the resolver has not
    shown the value in its first [k] answers, [k] at most 15, and the
    next query raises, because dig fails or its output is no UTF-8, the
    waiter raises that very exception at once, not the error of the
    spent budget: it has made [k + 1] queries, and slept after each of
    them but the first and the last. *)
Theorem X6_failed_query_ends_wait (E : env) (fuel : nat)
    (record_name record_data : string) (w : world) (k : nat) (e : exn) :
  15 ≤ fuel → k ≤ 15 →
  (∀ j, j < k → unseen_at E record_data (dig_calls w + j)) →
  dig_resp E (dig_calls w + k) = inl e →
  let run := _wait_for_record_propagation E fuel record_name record_data w in
  run.2 = Raise e
  ∧ ∃ evs, trace run.1 = trace w ++ evs
           ∧ queries evs = S k
           ∧ slept evs = (60 * Z.of_nat (pred k))%Z.
Proof.
  intros Hfuel Hk Hunseen Hfail run.
  destruct (wait_dig_fails E record_name record_data w fuel k e Hfuel Hk Hunseen Hfail)
    as (w' & Hrun & Htr).
  subst run. rewrite Hrun. simpl. split; [done|].
  eexists. split; [exact Htr|].
  destruct k as [|k]; [done|]. simpl pred.
  change (EvDig record_name :: polls record_name k)
    with ([EvDig record_name] ++ polls record_name k).
  rewrite !queries_app, !slept_app, queries_polls, slept_polls. simpl. split; lia.
Qed.

(** X6, at a resolver whose second query fails. *)
Lemma X6_failed_query_ends_wait_witness :
  (_wait_for_record_propagation (provider [] broken_dig) 15
     "_acme-challenge.example.com" "abc123" w0).2
  = Raise (PyError "CalledProcessError" "Command returned non-zero exit status 9.").
Proof.
  refine (proj1 (X6_failed_query_ends_wait (provider [] broken_dig) 15
                   "_acme-challenge.example.com" "abc123" w0 1 _ _ _ _ _)).
  - lia.
  - lia.
  - intros j Hj. assert (j = 0) as -> by lia. exists []. split; [reflexivity|].
    apply not_elem_of_nil.
  - reflexivity.
Defined.

(** X7 (when a publish succeeds).  With fuel for the 15 turns of the
    wait, [add_txt_record] returns if and only if every step of it
    succeeds: the zone is resolved, its record set is fetched, the
    snapshot tagged [before] can be written, the record name is made
    relative, no [pop] of a link raises, the replacement request is
    answered, and the resolver shows the value in one of its first 15
    answers. *)
Theorem X7_publish_succeeds_iff (E : env) (fuel : nat)
    (domain record_name record_content : string) (w : world) :
  15 ≤ fuel →
  (add_txt_record E fuel domain record_name record_content w).2 = Ok tt ↔
  ∃ zone id fetched name' sent updated k,
    (resolve_zone E add_zone_error domain w).2 = Ok (zone, id)
    ∧ records_resp E id = Body fetched
    ∧ write_err E (snapshot_path E zone "before") = None
    ∧ re_sub_zone_suffix E zone record_name = inr name'
    ∧ strip_all (fetched ++ [txt_record name' record_content]) = inr sent
    ∧ patch_resp E id sent = Body updated
    ∧ k ≤ 14 ∧ seen_at E record_content (dig_calls w + k)
    ∧ ∀ j, j < k → unseen_at E record_content (dig_calls w + j).
Proof.
  intros Hfuel.
  destruct (publish_table E domain record_name record_content w fuel Hfuel)
    as (j & evs & Hj & Htr & Htab).
  set (pub := add_txt_record E fuel domain record_name record_content w) in *.
  clearbody pub. split.
  - intros Hok. rewrite Hok in Htab.
    destruct ((resolve_zone E add_zone_error domain w).2) as [[zone id]|e|];
      [|by destruct Htab|done].
    destruct (records_resp E id) as [| |fetched] eqn:Hrec;
      [by destruct Htab as (_ & ? & _ & ?)..|].
    destruct (write_err E (snapshot_path E zone "before")) eqn:Hw; [by destruct Htab|].
    simpl in Htab.
    destruct (re_sub_zone_suffix E zone record_name) as [e|name'] eqn:Hsub;
      [by destruct Htab|].
    destruct (strip_all (fetched ++ [txt_record name' record_content]))
      as [e|sent] eqn:Hstrip; [by destruct Htab|].
    destruct (patch_resp E id sent) as [| |updated] eqn:Hp;
      [by destruct Htab as (_ & ? & _ & ?)..|].
    destruct Htab as (wevs & r & Hwait & _ & Hr).
    assert (r = Ok tt) as -> by (by destruct r as [[]| |]).
    destruct (waited_same_start E record_name record_content w fuel wevs _ Hfuel Hwait)
      as (Hseen & _).
    destruct (Hseen eq_refl) as (k & Hk & Hs & Hu & _).
    exists zone, id, fetched, name', sent, updated, k. done.
  - intros (zone & id & fetched & name' & sent & updated & k
            & Hres & Hrec & Hw & Hsub & Hstrip & Hp & Hk & Hs & Hu).
    rewrite Hres, Hrec, Hw in Htab. simpl in Htab. rewrite Hsub, Hstrip, Hp in Htab.
    destruct Htab as (wevs & r & Hwait & _ & ->).
    destruct (waited_same_start E record_name record_content w fuel wevs _ Hfuel Hwait)
      as (_ & Hseen).
    by rewrite (Hseen k Hk Hs Hu).
Qed.

(** X7, at the publish of [abc123] in [example.com], seen by the
    resolver in its third answer. *)
Lemma X7_publish_succeeds_iff_witness :
  (add_txt_record (provider [www; mx] slow_dig) 15 "example.com"
     "_acme-challenge.example.com" "abc123" w0).2 = Ok tt.
Proof.
  apply X7_publish_succeeds_iff; [lia|].
  exists "example.com", (JNum 2), [www; mx], "_acme-challenge",
    [www_sent; mx; challenge], [www_sent; mx; challenge], 2.
  split_and!; try (vm_compute; reflexivity).
  - lia.
  - exists [quoted "abc123"]. split; [reflexivity|]. left.
  - intros j Hj. exists []. split; [|apply not_elem_of_nil].
    destruct j as [|[|j]]; [reflexivity..|lia].
Defined.

(** X8 (when a remove succeeds).  [delete_txt_record] returns if and
    only if every step of it succeeds: the zone is resolved, its record
    set is fetched, the record name is made relative, no [pop] of a
    link raises on a record that is kept, the replacement request is
    answered, and the snapshot tagged [after] can be written.  Whether
    the entry was there to remove plays no part. *)
Theorem X8_remove_succeeds_iff (E : env)
    (domain record_name record_content : string) (w : world) :
  (delete_txt_record E domain record_name record_content w).2 = Ok tt ↔
  ∃ zone id fetched name' sent updated,
    (resolve_zone E delete_zone_error domain w).2 = Ok (zone, id)
    ∧ records_resp E id = Body fetched
    ∧ re_sub_zone_suffix E zone record_name = inr name'
    ∧ strip_all (filter (λ r, r ≠ txt_record name' record_content) fetched) = inr sent
    ∧ patch_resp E id sent = Body updated
    ∧ write_err E (snapshot_path E zone "after") = None.
Proof.
  destruct (remove_table E domain record_name record_content w)
    as (j & evs & Hj & Htr & Htab).
  set (rem := delete_txt_record E domain record_name record_content w) in *.
  clearbody rem. split.
  - intros Hok. rewrite Hok in Htab.
    destruct ((resolve_zone E delete_zone_error domain w).2) as [[zone id]|e|];
      [|by destruct Htab|done].
    destruct (records_resp E id) as [| |fetched] eqn:Hrec;
      [by destruct Htab as (_ & ? & _ & ?)..|].
    destruct (re_sub_zone_suffix E zone record_name) as [e|name'] eqn:Hsub;
      [by destruct Htab|].
    destruct (strip_all (filter (λ r, r ≠ txt_record name' record_content) fetched))
      as [e|sent] eqn:Hstrip; [by destruct Htab|].
    destruct (patch_resp E id sent) as [| |updated] eqn:Hp;
      [by destruct Htab as (_ & ? & _ & ?)..|].
    destruct (write_err E (snapshot_path E zone "after")) eqn:Hw; [by destruct Htab|].
    exists zone, id, fetched, name', sent, updated. done.
  - intros (zone & id & fetched & name' & sent & updated
            & Hres & Hrec & Hsub & Hstrip & Hp & Hw).
    rewrite Hres, Hrec, Hsub, Hstrip, Hp, Hw in Htab. by destruct Htab.
Qed.

(** X9 (the backup directory cannot be written).  When no file can be
    written, a publish stops before it has changed anything: after the
    zone-list requests it has at most fetched the record set, and it
    raises.  A remove raises too, but only after the replacement: when
    its replacement request was answered, the record set is replaced,
    the request is the last thing the run did, and the run still ends
    with the [PluginError] that carries the text of the write failure. *)
Theorem X9_unwritable_backup (E : env) (fuel : nat)
    (domain record_name record_content : string) (w : world) (e0 : exn) :
  15 ≤ fuel →
  (∀ path, write_err E path = Some e0) →
  let pub := add_txt_record E fuel domain record_name record_content w in
  let rem := delete_txt_record E domain record_name record_content w in
  (∃ j evs, trace pub.1 = trace w ++ replicate j EvListZones ++ evs
     ∧ (evs = [] ∨ ∃ id, evs = [EvGetZone id])
     ∧ ∃ e, pub.2 = Raise (add_error e))
  ∧ (∃ j evs, trace rem.1 = trace w ++ replicate j EvListZones ++ evs
     ∧ (∃ e, rem.2 = Raise (delete_error e))
     ∧ ∀ id sent updated,
         EvPatch id sent ∈ evs → patch_resp E id sent = Body updated →
         evs = [EvGetZone id; EvPatch id sent]
         ∧ rem.2 = Raise (delete_error e0)).
Proof.
  intros Hfuel Hro pub rem. split.
  - destruct (publish_table E domain record_name record_content w fuel Hfuel)
      as (j & evs & Hj & Htr & Htab).
    fold pub in Htr, Htab. clearbody pub.
    exists j, evs. split; [done|].
    destruct ((resolve_zone E add_zone_error domain w).2) as [[zone id]|e|];
      [|destruct Htab as [-> ?]; eauto|done].
    destruct (records_resp E id) as [| |fetched];
      [destruct Htab as (-> & e & _ & ?); eauto..|].
    rewrite Hro in Htab. destruct Htab as [-> ?]. eauto.
  - destruct (remove_table E domain record_name record_content w)
      as (j & evs & Hj & Htr & Htab).
    fold rem in Htr, Htab. clearbody rem.
    exists j, evs. split; [done|].
    assert (∀ id id' (sent : list record), EvPatch id sent ∈ [EvGetZone id'] → False)
      as Hg.
    { intros id id' sent Hin. apply list_elem_of_singleton in Hin. done. }
    assert (∀ id id' (sent sent' : list record),
      EvPatch id sent ∈ [EvGetZone id'; EvPatch id' sent'] → id = id' ∧ sent = sent')
      as Hp.
    { intros id id' sent sent' Hin.
      apply elem_of_cons in Hin as [?|Hin]; [done|].
      apply list_elem_of_singleton in Hin. by injection Hin as -> ->. }
    destruct ((resolve_zone E delete_zone_error domain w).2) as [[zone id]|e|];
      [|destruct Htab as [-> ?]; split; [eauto|]; by intros ??? Hin%elem_of_nil|done].
    destruct (records_resp E id) as [| |fetched];
      [destruct Htab as (-> & e & _ & ?); split; [eauto|];
       intros ??? Hin; by destruct (Hg _ _ _ Hin)..|].
    destruct (re_sub_zone_suffix E zone record_name) as [e|name'];
      [destruct Htab as [-> ?]; split; [eauto|];
       intros ??? Hin; by destruct (Hg _ _ _ Hin)|].
    destruct (strip_all (filter (λ r, r ≠ txt_record name' record_content) fetched))
      as [e|sent];
      [destruct Htab as [-> ?]; split; [eauto|];
       intros ??? Hin; by destruct (Hg _ _ _ Hin)|].
    destruct (patch_resp E id sent) as [| |updated] eqn:Hpatch.
    1,2: destruct Htab as (-> & e & _ & ?); split; [eauto|];
         intros id' sent' updated' Hin Hb; apply Hp in Hin as [-> ->]; congruence.
    rewrite Hro in Htab. destruct Htab as [-> ?]. split; [eauto|].
    intros id' sent' updated' Hin Hb. by apply Hp in Hin as [-> ->].
Qed.

(** X9, at a remove in a zone that holds the entry: it raises although
    the replacement went through. *)
Lemma X9_unwritable_backup_witness :
  ∃ e, (delete_txt_record (read_only [mx; challenge]) "example.com"
          "_acme-challenge.example.com" "abc123" w0).2 = Raise (delete_error e).
Proof.
  destruct (X9_unwritable_backup (read_only [mx; challenge]) 15 "example.com"
              "_acme-challenge.example.com" "abc123" w0
              (PyError "PermissionError" "[Errno 13] Permission denied"))
    as (_ & j & evs & _ & He & _).
  - lia.
  - intros path. reflexivity.
  - exact He.
Defined.

(** X10 (a reference that is no object).  When the fetched record set
    holds a record whose [configRef] is not an object, null for one,
    neither workflow ever submits a record set: both raise, the publish
    after it has written its snapshot at most, the remove without any
    write. *)
Theorem X10_reference_not_an_object (E : env) (fuel : nat)
    (domain record_name record_content : string) (w : world)
    (fetched : list record) (r : record) (v : json) :
  15 ≤ fuel →
  (∀ id, records_resp E id = Body fetched) →
  r ∈ fetched → r !! "configRef" = Some v → (∀ m, v ≠ JObj m) →
  let pub := add_txt_record E fuel domain record_name record_content w in
  let rem := delete_txt_record E domain record_name record_content w in
  (∃ evs, trace pub.1 = trace w ++ evs
     ∧ (∀ id sent, EvPatch id sent ∉ evs)
     ∧ ∃ e, pub.2 = Raise (add_error e))
  ∧ (∃ evs, trace rem.1 = trace w ++ evs
     ∧ Forall (λ ev, ¬ is_write ev) evs
     ∧ ∃ e, rem.2 = Raise (delete_error e)).
Proof.
  intros Hfuel Hrec Hin Hv Hobj pub rem.
  assert (∃ e, strip_link r = inl e) as [e0 Hbad].
  { unfold strip_link. rewrite Hv. destruct v; simpl; eauto. by destruct (Hobj m). }
  assert (∀ rs sent, r ∈ rs → strip_all rs = inr sent → False) as Hno.
  { intros rs sent Hr Hs. destruct (strip_all_elem rs sent r Hs Hr) as [r' Hr'].
    congruence. }
  assert (∀ id (sent : list record) j,
            EvPatch id sent ∉ replicate j EvListZones) as Hl.
  { intros id sent j Hin'. by apply (no_write_elem _ _ (listing_no_write j)) in Hin'. }
  split.
  - destruct (publish_table E domain record_name record_content w fuel Hfuel)
      as (j & evs & Hj & Htr & Htab).
    fold pub in Htr, Htab. clearbody pub.
    exists (replicate j EvListZones ++ evs). split; [done|].
    assert (∀ id0 id (sent : list record),
      EvPatch id sent ∉ replicate j EvListZones ++ [EvGetZone id0]) as Hg.
    { intros id0 id sent [Hin'|Hin']%elem_of_app; [by eapply Hl|].
      repeat (apply elem_of_cons in Hin' as [?|Hin']; [done|]).
      by apply elem_of_nil in Hin'. }
    assert (∀ id0 path id (sent : list record),
      EvPatch id sent ∉ replicate j EvListZones
                        ++ [EvGetZone id0; EvBackup path id0 fetched]) as Hb.
    { intros id0 path id sent [Hin'|Hin']%elem_of_app; [by eapply Hl|].
      repeat (apply elem_of_cons in Hin' as [?|Hin']; [done|]).
      by apply elem_of_nil in Hin'. }
    destruct ((resolve_zone E add_zone_error domain w).2) as [[zone id]|e|];
      [|destruct Htab as [-> ?]; rewrite app_nil_r;
        split; [intros; apply Hl|eauto]|done].
    rewrite Hrec in Htab.
    destruct (write_err E (snapshot_path E zone "before"));
      [destruct Htab as [-> ?]; split; [intros; apply Hg|eauto]|].
    simpl in Htab.
    destruct (re_sub_zone_suffix E zone record_name) as [e|name'];
      [destruct Htab as [-> ?]; split; [intros; apply Hb|eauto]|].
    destruct (strip_all (fetched ++ [txt_record name' record_content]))
      as [e|sent] eqn:Hstrip;
      [destruct Htab as [-> ?]; split; [intros; apply Hb|eauto]|].
    destruct (Hno _ _ (proj2 (elem_of_app _ _ _) (or_introl Hin)) Hstrip).
  - destruct (remove_table E domain record_name record_content w)
      as (j & evs & Hj & Htr & Htab).
    fold rem in Htr, Htab. clearbody rem.
    exists (replicate j EvListZones ++ evs). split; [done|].
    assert (∀ id0, Forall (λ ev, ¬ is_write ev)
                     (replicate j EvListZones ++ [EvGetZone id0])) as Hshape.
    { intros id0. apply Forall_app. split; [apply listing_no_write|].
      repeat constructor. by intros []. }
    destruct ((resolve_zone E delete_zone_error domain w).2) as [[zone id]|e|];
      [|destruct Htab as [-> ?]; rewrite app_nil_r;
        split; [apply listing_no_write|eauto]|done].
    rewrite Hrec in Htab.
    destruct (re_sub_zone_suffix E zone record_name) as [e|name'];
      [destruct Htab as [-> ?]; split; [apply Hshape|eauto]|].
    destruct (strip_all (filter (λ r, r ≠ txt_record name' record_content) fetched))
      as [e|sent] eqn:Hstrip;
      [destruct Htab as [-> ?]; split; [apply Hshape|eauto]|].
    assert (r ∈ filter (λ r, r ≠ txt_record name' record_content) fetched) as Hkept.
    { apply list_elem_of_filter. split; [|done].
      intros ->. by rewrite strip_link_txt_record in Hbad. }
    destruct (Hno _ _ Hkept Hstrip).
Qed.

(** X10, at a zone with a record whose [configRef] is null. *)
Lemma X10_reference_not_an_object_witness :
  ∃ e, (add_txt_record (provider [mx; null_ref] slow_dig) 15 "example.com"
          "_acme-challenge.example.com" "abc123" w0).2 = Raise (add_error e).
Proof.
  destruct (X10_reference_not_an_object (provider [mx; null_ref] slow_dig) 15
              "example.com" "_acme-challenge.example.com" "abc123" w0
              [mx; null_ref] null_ref JNull)
    as ((evs & _ & _ & He) & _).
  - lia.
  - intros id. reflexivity.
  - right. left.
  - apply (bool_decide_unpack _). by vm_compute.
  - intros m. discriminate.
  - exact He.
Defined.

(** X11 (a remove makes seven requests at most).  Every run of
    [delete_txt_record] is, in this order, at most four zone-list
    requests, then at most one request for the record set, one
    replacement request and one snapshot file, each for the same zone
    id.  It never asks the resolver and it never sleeps. *)
Theorem X11_remove_is_short (E : env)
    (domain record_name record_content : string) (w : world) :
  ∃ j id sent path content evs,
    j ≤ 4
    ∧ trace (delete_txt_record E domain record_name record_content w).1
      = trace w ++ replicate j EvListZones ++ evs
    ∧ evs `prefix_of` [EvGetZone id; EvPatch id sent; EvBackup path id content]
    ∧ queries evs = 0 ∧ slept evs = 0%Z.
Proof.
  destruct (remove_table E domain record_name record_content w)
    as (j & evs & Hj & Htr & Htab).
  set (rem := delete_txt_record E domain record_name record_content w) in *.
  clearbody rem.
  assert (∀ id sent path content,
    evs `prefix_of` [EvGetZone id; EvPatch id sent; EvBackup path id content] →
    ∃ j id sent path content evs,
      j ≤ 4 ∧ trace rem.1 = trace w ++ replicate j EvListZones ++ evs
      ∧ evs `prefix_of` [EvGetZone id; EvPatch id sent; EvBackup path id content]
      ∧ queries evs = 0 ∧ slept evs = 0%Z) as Hend.
  { intros id sent path content Hpre. exists j, id, sent, path, content, evs.
    split_and!; try done.
    - destruct Hpre as [k Hk].
      destruct evs as [|? [|? [|? [|]]]]; simplify_eq/=; done.
    - destruct Hpre as [k Hk].
      destruct evs as [|? [|? [|? [|]]]]; simplify_eq/=; done. }
  destruct ((resolve_zone E delete_zone_error domain w).2) as [[zone id]|e|];
    [|destruct Htab as [-> _]; apply (Hend JNull [] "" []), prefix_nil|done].
  destruct (records_resp E id) as [| |fetched];
    [destruct Htab as (-> & _); apply (Hend id [] "" []); by eexists..|].
  destruct (re_sub_zone_suffix E zone record_name) as [e|name'];
    [destruct Htab as [-> _]; apply (Hend id [] "" []); by eexists|].
  destruct (strip_all (filter (λ r, r ≠ txt_record name' record_content) fetched))
    as [e|sent];
    [destruct Htab as [-> _]; apply (Hend id [] "" []); by eexists|].
  destruct (patch_resp E id sent) as [| |updated];
    [destruct Htab as (-> & _); apply (Hend id sent "" []); by eexists..|].
  destruct (write_err E (snapshot_path E zone "after"));
    destruct Htab as [-> _].
  - apply (Hend id sent "" []). by eexists.
  - apply (Hend id sent (snapshot_path E zone "after") (stripped <$> fetched)).
    by exists [].
Qed.

(** X12 (a request that gets no response).  When the request for the
    record set of a zone gets no response at all,
    [_get_dns_zone_records] raises an [UnboundLocalError]: its handler
    reads the response it never got.  The [PluginError] of both entry
    points then carries the text of that exception, with no status code
    and no text of a response, and the request is the last thing the
    run did. *)
Theorem X12_no_response_is_unbound_local (E : env) (fuel : nat)
    (domain record_name record_content : string) (w : world)
    (zone : string) (id : json) :
  15 ≤ fuel →
  records_resp E id = NoResponse →
  let pub := add_txt_record E fuel domain record_name record_content w in
  let rem := delete_txt_record E domain record_name record_content w in
  ∃ msg,
    (∀ w', (_get_dns_zone_records E id w').2 = Raise (PyError "UnboundLocalError" msg))
    ∧ ((resolve_zone E add_zone_error domain w).2 = Ok (zone, id) →
       ∃ j, pub.2 = Raise (PluginError
                      ("Error occurred while trying to add TXT record." +:+ nl
                       +:+ "Error text: " +:+ msg +:+ "." +:+ nl))
            ∧ trace pub.1 = trace w ++ replicate j EvListZones ++ [EvGetZone id])
    ∧ ((resolve_zone E delete_zone_error domain w).2 = Ok (zone, id) →
       ∃ j, rem.2 = Raise (PluginError
                      ("Error occurred while trying to delete TXT record." +:+ nl
                       +:+ "Error text: " +:+ msg +:+ "." +:+ nl))
            ∧ trace rem.1 = trace w ++ replicate j EvListZones ++ [EvGetZone id]).
Proof.
  intros Hfuel Hrec pub rem.
  exists (unbound_local_message E "dns_zone_res"). split_and!.
  - intros w'. by rewrite get_dns_zone_records_eq, Hrec.
  - intros Hres.
    destruct (publish_table E domain record_name record_content w fuel Hfuel)
      as (j & evs & Hj & Htr & Htab).
    fold pub in Htr, Htab. clearbody pub.
    rewrite Hres, Hrec in Htab. destruct Htab as (-> & e & Hf & ->).
    destruct Hf as [[_ ->]|(c & t & Hb & _)]; [|congruence].
    by exists j.
  - intros Hres.
    destruct (remove_table E domain record_name record_content w)
      as (j & evs & Hj & Htr & Htab).
    fold rem in Htr, Htab. clearbody rem.
    rewrite Hres, Hrec in Htab. destruct Htab as (-> & e & Hf & ->).
    destruct Hf as [[_ ->]|(c & t & Hb & _)]; [|congruence].
    by exists j.
Qed.

(** X12, at a remove in [example.com] when the provider does not answer
    the record-set request. *)
Lemma X12_no_response_is_unbound_local_witness :
  ∃ msg,
    (_get_dns_zone_records silent (JNum 2) w0).2 = Raise (PyError "UnboundLocalError" msg)
    ∧ (delete_txt_record silent "example.com" "_acme-challenge.example.com" "abc123" w0).2
      = Raise (PluginError
          ("Error occurred while trying to delete TXT record." +:+ nl
           +:+ "Error text: " +:+ msg +:+ "." +:+ nl)).
Proof.
  destruct (X12_no_response_is_unbound_local silent 15 "example.com"
              "_acme-challenge.example.com" "abc123" w0 "example.com" (JNum 2))
    as (msg & Hcls & _ & Hrem).
  - lia.
  - reflexivity.
  - destruct Hrem as (j & Hr & _); [vm_compute; reflexivity|].
    exists msg. split; [apply Hcls|exact Hr].
Defined.

(** * The failure the suffix loop reports *)

Section last_attempt.
Context (E : env) (ze : exn → exn) (domain : string).

#[local] Arguments _get_dns_zone_id : simpl never.
#[local] Arguments resolve_from : simpl nomatch.

Lemma resolve_from_raise_last n i w e :
  single_line domain = true → i + n = 4 → 0 < n →
  strip_labels 3 domain = None →
  (resolve_from E ze n i (regex_at (pred i)) domain w).2 = Raise e →
  e = ze (PyError "AttributeError" "'NoneType' object has no attribute 'group'").
Proof.
  intros Hline. revert i w. induction n as [|n IH]; intros i w Hi Hn Hshort; [lia|].
  simpl resolve_from. rewrite regex_at_step.
  unfold try_except, bind at 1, search_group1.
  rewrite (re_search_regex_at i domain Hline).
  destruct (decide (i = 3)) as [->|Hne].
  - rewrite Hshort. simpl. by intros [= <-].
  - assert (∀ w1, (resolve_from E ze n (S i) (regex_at i) domain w1).2 = Raise e →
      e = ze (PyError "AttributeError" "'NoneType' object has no attribute 'group'"))
      as Hrest.
    { intros w1. apply (IH (S i) w1); [lia..|done]. }
    destruct (strip_labels i domain) as [g|]; simpl.
    + unfold bind. destruct (_get_dns_zone_id E g w) as [w1 [id| e1 |]]; simpl;
        try done.
      destruct (decide (i = 3)); [done|]. apply Hrest.
    + destruct (decide (i = 3)); [done|]. apply Hrest.
Qed.
End last_attempt.

(** X13 (what a remove says of a zone it does not find).  For a
    one-line domain with fewer than three dots, either the resolution
    of [delete_txt_record] finds a zone, or the run raises the
    [PluginError] whose cause is the [AttributeError] of the fourth
    attempt, where the pattern no longer matches the domain: the text
    tells nothing of what the provider answered to the attempts
    before. *)
Theorem X13_remove_reports_last_attempt (E : env)
    (domain record_name record_content : string) (w : world) :
  single_line domain = true → dots domain < 3 →
  (∃ zone id, (resolve_zone E delete_zone_error domain w).2 = Ok (zone, id))
  ∨ (delete_txt_record E domain record_name record_content w).2
    = Raise (PluginError
        ("Error occurred while trying to delete TXT record." +:+ nl
         +:+ "Error text: Error occurred while trying to get domain zone name and id."
         +:+ nl +:+ "Error text: 'NoneType' object has no attribute 'group'."
         +:+ nl +:+ "." +:+ nl)).
Proof.
  intros Hline Hdots.
  assert (strip_labels 3 domain = None) as Hshort.
  { destruct (strip_labels 3 domain) eqn:Hs; [|done].
    assert (3 ≤ dots domain) by (apply strip_labels_dots; rewrite Hs; eauto). lia. }
  pose proof (resolve_from_raise_last E delete_zone_error domain 4 0 w) as Hlast.
  change (resolve_from E delete_zone_error 4 0 (regex_at (pred 0)) domain w)
    with (resolve_zone E delete_zone_error domain w) in Hlast.
  destruct (remove_table E domain record_name record_content w)
    as (j & evs & Hj & Htr & Htab).
  destruct ((resolve_zone E delete_zone_error domain w).2) as [[zone id]|e|];
    [left; eauto| |done].
  right. destruct Htab as [_ ->].
  rewrite (Hlast e Hline eq_refl) by (done || lia). done.
Qed.

(** X13, at a domain of two labels that is in no zone. *)
Lemma X13_remove_reports_last_attempt_witness :
  (delete_txt_record (provider [] (λ _, inr [])) "nowhere.net"
     "_acme-challenge.nowhere.net" "abc123" w0).2
  = Raise (delete_error (delete_zone_error
      (PyError "AttributeError" "'NoneType' object has no attribute 'group'"))).
Proof.
  destruct (X13_remove_reports_last_attempt (provider [] (λ _, inr [])) "nowhere.net"
              "_acme-challenge.nowhere.net" "abc123" w0) as [(zone & id & H)|H].
  - reflexivity.
  - vm_compute. lia.
  - vm_compute in H. discriminate H.
  - exact H.
Defined.

(** * The mutation helpers and the object store *)

Lemma deref_filter (t : record) h ls :
  Forall (λ l, is_Some (h !! l)) ls →
  deref h (filter (λ l, h !! l ≠ Some t) ls) = filter (λ r, r ≠ t) (deref h ls).
Proof.
  induction 1 as [|l ls [r Hr] _ IH]; [done|].
  rewrite filter_cons, deref_cons, Hr, filter_cons.
  destruct (decide (r ≠ t)) as [Hne|Heq].
  - rewrite decide_True by congruence. by rewrite deref_cons, Hr, IH.
  - rewrite decide_False by (intros Hx; apply Heq; congruence). done.
Qed.

(** X14 (what the loop does to a record).  When the [pop] of the loop
    of [_update_dns_zone_records] does not raise on a record, the record
    keeps its keys, every field but the two references is as it was, the
    [configRef] has no link, the [targetGroupRef] has none either when
    there is no [configRef] and is untouched when there is one, and a
    second pass changes nothing. *)
Theorem X14_strip_link_frame (r r' : record) :
  strip_link r = inr r' →
  (∀ k, is_Some (r' !! k) ↔ is_Some (r !! k))
  ∧ (∀ k, k ≠ "configRef" → k ≠ "targetGroupRef" → r' !! k = r !! k)
  ∧ link_of "configRef" r' = None
  ∧ (r !! "configRef" = None → link_of "targetGroupRef" r' = None)
  ∧ (is_Some (r !! "configRef") → r' !! "targetGroupRef" = r !! "targetGroupRef")
  ∧ (∀ ref m, r !! ref = Some (JObj m) →
       ∃ m', r' !! ref = Some (JObj m') ∧ ∀ k, k ≠ "link" → m' !! k = m !! k)
  ∧ strip_link r' = inr r'.
Proof.
  intros Hr. destruct (strip_link_frame r r' Hr) as (H1 & H2 & H3 & H4 & H5).
  split_and!; try done.
  - intros k. by apply strip_link_keys.
  - by apply (strip_link_idem r).
Qed.

(** X14, at the record of the sample zone that has a [configRef]. *)
Lemma X14_strip_link_frame_witness :
  link_of "configRef" www_sent = None ∧ strip_link www_sent = inr www_sent.
Proof.
  destruct (X14_strip_link_frame www www_sent) as (_ & _ & H & _ & _ & _ & Hid).
  - reflexivity.
  - split; [exact H|exact Hid].
Defined.

(** X15 (when the loop raises).  The [pop] raises on a record exactly
    when the reference the loop picks, [configRef] if the record has it
    and else [targetGroupRef], is there and is no object; what is
    raised is an [AttributeError], or a [TypeError] for a list. *)
Theorem X15_strip_link_raises_iff (r : record) :
  ((∃ e, strip_link r = inl e) ↔
   ∃ v, (∀ m, v ≠ JObj m)
        ∧ (r !! "configRef" = Some v
           ∨ (r !! "configRef" = None ∧ r !! "targetGroupRef" = Some v)))
  ∧ ∀ e, strip_link r = inl e →
         ∃ cls msg, e = PyError cls msg ∧ (cls = "AttributeError" ∨ cls = "TypeError").
Proof.
  unfold strip_link. split.
  - split.
    + intros [e He]. destruct (r !! "configRef") as [v|].
      * exists v. split; [|by left]. intros m ->. done.
      * destruct (r !! "targetGroupRef") as [v|]; [|done].
        exists v. split; [|by right]. intros m ->. done.
    + intros (v & Hv & [Hc|[Hc Ht]]); rewrite Hc, ?Ht;
        destruct v; simpl; eauto; by destruct (Hv m).
  - intros e. destruct (r !! "configRef") as [v|].
    + destruct v; simpl; intros [= <-]; eauto 6.
    + destruct (r !! "targetGroupRef") as [v|]; [|done].
      destruct v; simpl; intros [= <-]; eauto 6.
Qed.

(** X16 ([_add_txt_record] works on copies).  On a list of live
    references that holds no dictionary twice, the list it returns has
    one new dictionary for each given record and one for the new entry,
    no two the same: they read as the given records followed by the new
    entry, none of them is one of the given dictionaries or was in the
    store before, and every dictionary that was there is as it was.
    Nothing is requested or written. *)
Theorem X16_add_returns_fresh_copies (name data : string) (ls : list loc) (w : world) :
  NoDup ls →
  Forall (λ l, is_Some (heap w !! l)) ls →
  ∃ w' ls',
    _add_txt_record name data ls w = (w', Ok ls')
    ∧ deref (heap w') ls' = deref (heap w) ls ++ [txt_record name data]
    ∧ length ls' = S (length ls)
    ∧ NoDup ls'
    ∧ (∀ l, l ∈ ls' → (l ∉ ls) ∧ heap w !! l = None ∧ is_Some (heap w' !! l))
    ∧ (∀ l, is_Some (heap w !! l) → heap w' !! l = heap w !! l)
    ∧ trace w' = trace w.
Proof.
  intros _ Hlive.
  assert (length (deref (heap w) ls) = length ls) as Hlen.
  { clear -Hlive. induction Hlive as [|l ls [r Hr] _ IH]; [done|].
    rewrite deref_cons, Hr. simpl. by rewrite IH. }
  eexists _, _. split; [apply add_txt_record_eq|]. simpl.
  set (block := deref (heap w) ls ++ [txt_record name data]).
  split_and!.
  - apply deref_block_end.
  - rewrite length_seq. unfold block. rewrite length_app, Hlen. simpl. lia.
  - apply NoDup_seq.
  - intros l [Hl1 Hl2]%elem_of_seq. split_and!.
    + intros Hin. rewrite Forall_forall in Hlive.
      apply Hlive, lookup_lt_is_Some in Hin. lia.
    + apply lookup_ge_None. lia.
    + apply lookup_lt_is_Some. rewrite length_app. lia.
  - intros l [r Hr]. by rewrite (lookup_app_l_Some _ _ _ _ Hr).
  - done.
Qed.

(** X16, at a record set of two records. *)
Lemma X16_add_returns_fresh_copies_witness :
  ∃ w', _add_txt_record "_acme-challenge" "abc123" [0; 1] (World [www; mx] [] 0 0)
        = (w', Ok [2; 3; 4]).
Proof.
  destruct (X16_add_returns_fresh_copies "_acme-challenge" "abc123" [0; 1]
              (World [www; mx] [] 0 0)) as (w' & ls' & Hrun & _).
  - apply (bool_decide_unpack _). by vm_compute.
  - repeat constructor; by eexists.
  - exists w'. rewrite Hrun. vm_compute in Hrun. by injection Hrun as _ <-.
Defined.

(** X17 ([_delete_txt_record] keeps the given dictionaries).  On live
    references it returns references it was given, in their order: the
    records behind them are the given records without those equal to
    the entry, no dictionary of the store is changed, and deleting
    again returns the same list. *)
Theorem X17_delete_returns_given_references (name data : string) (ls : list loc)
    (w : world) :
  Forall (λ l, is_Some (heap w !! l)) ls →
  ∃ w' ls',
    _delete_txt_record name data ls w = (w', Ok ls')
    ∧ ls' `sublist_of` ls
    ∧ deref (heap w') ls' = filter (λ r, r ≠ txt_record name data) (deref (heap w) ls)
    ∧ (∀ l, is_Some (heap w !! l) → heap w' !! l = heap w !! l)
    ∧ trace w' = trace w
    ∧ ∃ w'', _delete_txt_record name data ls' w' = (w'', Ok ls').
Proof.
  intros Hlive. set (t := txt_record name data).
  eexists _, _. split; [apply delete_txt_record_eq|]. simpl. fold t.
  rewrite (filter_valid_grow t _ _ _ Hlive).
  set (ls' := filter (λ l, heap w !! l ≠ Some t) ls).
  assert (Forall (λ l, is_Some (heap w !! l)) ls') as Hlive'.
  { rewrite Forall_forall in Hlive. apply Forall_forall.
    intros l [_ Hl]%list_elem_of_filter. by apply Hlive. }
  split_and!.
  - apply sublist_filter.
  - rewrite (deref_grow _ _ _ Hlive'). by apply deref_filter.
  - intros l [r Hr]. by rewrite (lookup_app_l_Some _ _ _ _ Hr).
  - done.
  - eexists. rewrite delete_txt_record_eq. simpl. fold t. f_equal. f_equal.
    assert (Forall (λ l, is_Some ((heap w ++ deref (heap w) ls) !! l)) ls') as Hlive''.
    { eapply Forall_impl; [exact Hlive'|]. intros l [r Hr]. exists r.
      by apply lookup_app_l_Some. }
    rewrite (filter_valid_grow t _ _ _ Hlive''), (filter_valid_grow t _ _ _ Hlive').
    apply filter_all. apply Forall_forall. by intros l [Hl _]%list_elem_of_filter.
Qed.

(** X17, at a record set that holds the entry between two others. *)
Lemma X17_delete_returns_given_references_witness :
  ∃ w', _delete_txt_record "_acme-challenge" "abc123" [0; 1; 2]
          (World [www; challenge; mx] [] 0 0) = (w', Ok [0; 2]).
Proof.
  destruct (X17_delete_returns_given_references "_acme-challenge" "abc123" [0; 1; 2]
              (World [www; challenge; mx] [] 0 0)) as (w' & ls' & Hrun & _).
  - repeat constructor; by eexists.
  - exists w'. rewrite Hrun. vm_compute in Hrun. by injection Hrun as _ <-.
Defined.

(** * The replacement request of a remove run *)

Lemma remove_patch E domain record_name record_content w evs id sent :
  trace (delete_txt_record E domain record_name record_content w).1 = trace w ++ evs →
  EvPatch id sent ∈ evs →
  ∃ zone fetched name',
    (resolve_zone E delete_zone_error domain w).2 = Ok (zone, id)
    ∧ records_resp E id = Body fetched
    ∧ re_sub_zone_suffix E zone record_name = inr name'
    ∧ strip_all (filter (λ r, r ≠ txt_record name' record_content) fetched) = inr sent.
Proof.
  destruct (remove_table E domain record_name record_content w)
    as (j & evs' & Hj & Htr & Htab).
  intros Htr' Hin. rewrite Htr in Htr'. apply app_inv_head in Htr' as <-.
  apply elem_of_app in Hin as [Hin|Hin].
  { by apply (no_write_elem _ _ (listing_no_write j)) in Hin. }
  assert (∀ id', EvPatch id sent ∈ [EvGetZone id'] → False) as Hg.
  { intros id' Hx. apply list_elem_of_singleton in Hx. done. }
  assert (∀ id' (sent' : list record) tl,
    Forall (λ ev, ∀ i s, ev ≠ EvPatch i s) tl →
    EvPatch id sent ∈ EvGetZone id' :: EvPatch id' sent' :: tl →
    id = id' ∧ sent = sent') as Hp.
  { intros id' sent' tl Htl Hx.
    apply elem_of_cons in Hx as [?|Hx]; [done|].
    apply elem_of_cons in Hx as [Hx|Hx]; [by injection Hx as -> ->|].
    rewrite Forall_forall in Htl. by destruct (Htl _ Hx id sent). }
  destruct ((resolve_zone E delete_zone_error domain w).2) as [[zone id0]|e|];
    [|destruct Htab as [-> _]; by apply elem_of_nil in Hin|done].
  destruct (records_resp E id0) as [| |fetched] eqn:Hrec;
    [destruct Htab as (-> & _); by destruct (Hg _ Hin)..|].
  destruct (re_sub_zone_suffix E zone record_name) as [e|name'] eqn:Hsub;
    [destruct Htab as [-> _]; by destruct (Hg _ Hin)|].
  destruct (strip_all (filter (λ r, r ≠ txt_record name' record_content) fetched))
    as [e|sent0] eqn:Hstrip;
    [destruct Htab as [-> _]; by destruct (Hg _ Hin)|].
  assert (id = id0 ∧ sent = sent0) as [-> ->].
  { destruct (patch_resp E id0 sent0) as [| |updated];
      [destruct Htab as (-> & _); apply (Hp _ _ [] ltac:(constructor) Hin)..|].
    destruct (write_err E (snapshot_path E zone "after")); destruct Htab as [-> _].
    - apply (Hp _ _ [] ltac:(constructor) Hin).
    - eapply Hp; [|exact Hin]. constructor; [by intros ??|constructor]. }
  exists zone, fetched, name'. done.
Qed.

Lemma stripped_idem r : stripped (stripped r) = stripped r.
Proof.
  unfold stripped at 2 3. destruct (strip_link r) as [e|r'] eqn:Hr.
  - unfold stripped. by rewrite Hr.
  - unfold stripped. by rewrite (strip_link_idem r r' Hr).
Qed.

(** X18 (what the snapshot of a remove holds).  The snapshot tagged
    [after] is written by successful runs only, and it holds neither
    the record set as fetched nor the one submitted: it is the fetched
    record set, the entry included, after the loop of
    [_update_dns_zone_records] has gone over the records that were kept.
    The record set submitted in the same run is the snapshot without
    the records equal to the entry, and the snapshot equals what was
    fetched exactly when the loop changes none of the records. *)
Theorem X18_after_snapshot_contents (E : env)
    (domain record_name record_content : string) (w : world) :
  ∃ evs,
    trace (delete_txt_record E domain record_name record_content w).1 = trace w ++ evs
    ∧ ∀ path id saved,
        EvBackup path id saved ∈ evs →
        ∃ zone fetched name' sent,
          (delete_txt_record E domain record_name record_content w).2 = Ok tt
          ∧ records_resp E id = Body fetched
          ∧ re_sub_zone_suffix E zone record_name = inr name'
          ∧ path = snapshot_path E zone "after"
          ∧ saved = stripped <$> fetched
          ∧ EvPatch id sent ∈ evs
          ∧ sent = filter (λ r, r ≠ txt_record name' record_content) saved
          ∧ (saved = fetched ↔ Forall (λ r, stripped r = r) fetched).
Proof.
  destruct (remove_complete E domain record_name record_content w)
    as (evs & Htr & Hrun).
  exists evs. split; [done|]. intros path id saved Hin.
  destruct (remove_backup E domain record_name record_content w evs _ path id saved
              Hrun Hin)
    as (j & zone & fetched & name' & sent & [[[Hres Hrec] Hsub] Hstrip]
        & Hevs & Hpath & Hsaved & Hr).
  exists zone, fetched, name', sent. split_and!; try done.
  - rewrite Hevs. apply elem_of_app. right. right. left.
  - apply strip_all_stripped in Hstrip. rewrite Hstrip, Hsaved. apply stripped_filter.
  - rewrite Hsaved. apply stripped_fixed.
Qed.

(** X19 (publish, then clean up).  Let both hooks see the same zone
    list, and let the provider hold, at the cleanup, the record set that
    [_perform] submitted.  Then [_cleanup] submits, for the same zone,
    the record set that [_perform] had fetched, each record as the
    loop of [_update_dns_zone_records] leaves it, without the records
    equal to the entry: when the entry was not there before the publish
    the cleanup puts back what was there, up to the stripped links,
    and exactly when no record had a link. *)
Theorem X19_perform_then_cleanup (E1 E2 : env) (fuel : nat)
    (domain validation_name validation : string) (zs : list jobj)
    (w1 w2 : world) (evs1 evs2 : list event) (id id2 : json)
    (sent1 sent2 : list record) :
  15 ≤ fuel → single_line domain = true → zones_wf zs →
  (∀ k, zones_resp E1 k = Body zs) → (∀ k, zones_resp E2 k = Body zs) →
  (∀ z n, re_sub_zone_suffix E2 z n = re_sub_zone_suffix E1 z n) →
  trace (_perform E1 fuel domain validation_name validation w1).1 = trace w1 ++ evs1 →
  EvPatch id sent1 ∈ evs1 →
  records_resp E2 id = Body sent1 →
  trace (_cleanup E2 domain validation_name validation w2).1 = trace w2 ++ evs2 →
  EvPatch id2 sent2 ∈ evs2 →
  id2 = id
  ∧ ∃ fetched name',
      records_resp E1 id = Body fetched
      ∧ sent1 = (stripped <$> fetched) ++ [txt_record name' validation]
      ∧ sent2 = filter (λ r, r ≠ txt_record name' validation) (stripped <$> fetched)
      ∧ (txt_record name' validation ∉ fetched → sent2 = stripped <$> fetched)
      ∧ (txt_record name' validation ∉ fetched →
         Forall (λ r, link_of "configRef" r = None ∧ link_of "targetGroupRef" r = None)
                fetched →
         sent2 = fetched).
Proof.
  unfold _perform, _cleanup.
  intros Hfuel Hline Hwf Hz1 Hz2 Hsub Htr1 Hin1 Hstored Htr2 Hin2.
  destruct (publish_complete E1 fuel domain validation_name validation w1 Hfuel)
    as (evs & Htr & Hrun).
  rewrite Htr1 in Htr. apply app_inv_head in Htr as <-.
  destruct (publish_patch E1 domain validation_name validation w1 fuel Hfuel evs1 _
              id sent1 Hrun Hin1)
    as (j & zone & fetched & name' & post & [[[[Hres Hrec] Hw] Hname] Hstrip] & _).
  apply resolved_result in Hres as (Hres & _).
  destruct (remove_patch E2 domain validation_name validation w2 evs2 id2 sent2
              Htr2 Hin2)
    as (zone2 & fetched2 & name2 & Hres2 & Hrec2 & Hname2 & Hstrip2).
  (* both resolutions find the same zone *)
  destruct (resolve_from_result E1 add_zone_error domain zs Hline Hwf Hz1 4 0 w1)
    as [e1 Hr1]; [lia..|].
  destruct (resolve_from_result E2 delete_zone_error domain zs Hline Hwf Hz2 4 0 w2)
    as [e2 Hr2]; [lia..|].
  change (resolve_from E1 add_zone_error 4 0 (regex_at (pred 0)) domain w1)
    with (resolve_zone E1 add_zone_error domain w1) in Hr1.
  change (resolve_from E2 delete_zone_error 4 0 (regex_at (pred 0)) domain w2)
    with (resolve_zone E2 delete_zone_error domain w2) in Hr2.
  rewrite Hres in Hr1. rewrite Hres2 in Hr2.
  destruct (first_match zs domain 4 0) as [[z i]|]; [|done].
  injection Hr1 as -> ->. injection Hr2 as -> ->.
  split; [done|].
  rewrite Hstored in Hrec2. injection Hrec2 as <-.
  rewrite Hsub, Hname in Hname2. injection Hname2 as <-.
  apply strip_all_stripped in Hstrip, Hstrip2.
  assert (sent1 = (stripped <$> fetched) ++ [txt_record name' validation]) as Hsent1.
  { rewrite Hstrip, fmap_app. apply (f_equal2 app); [done|].
    change (stripped <$> [txt_record name' validation])
      with [stripped (txt_record name' validation)].
    by rewrite stripped_txt_record. }
  assert (stripped <$> sent1 = sent1) as Hfix.
  { rewrite Hsent1, fmap_app. apply (f_equal2 app).
    - rewrite <-list_fmap_compose. apply list_fmap_ext. intros ? r _. apply stripped_idem.
    - change (stripped <$> [txt_record name' validation])
        with [stripped (txt_record name' validation)].
      by rewrite stripped_txt_record. }
  assert (sent2 = filter (λ r, r ≠ txt_record name' validation) (stripped <$> fetched))
    as Hsent2.
  { rewrite Hstrip2, stripped_filter, Hfix, Hsent1, filter_app.
    rewrite (filter_cons _ (txt_record name' validation)).
    rewrite decide_False by (by intros Hx; apply Hx).
    by rewrite filter_nil, app_nil_r. }
  assert (txt_record name' validation ∉ fetched → sent2 = stripped <$> fetched)
    as Habsent.
  { intros Hn. rewrite Hsent2. apply filter_all. apply Forall_forall.
    intros r [r0 [-> Hr0]]%list_elem_of_fmap Heq.
    apply (proj1 (stripped_eq_txt _ _ _)) in Heq. by subst r0. }
  exists fetched, name'. split_and!; try done.
  intros Hn Hlinks. rewrite (Habsent Hn). by apply stripped_no_link.
Qed.

(** X19, at the publish and the cleanup of [abc123] in [example.com]. *)
Lemma X19_perform_then_cleanup_witness :
  ∃ fetched name',
    records_resp (provider [www; mx] slow_dig) (JNum 2) = Body fetched
    ∧ [www_sent; mx; challenge] = (stripped <$> fetched) ++ [txt_record name' "abc123"]
    ∧ [www_sent; mx] = stripped <$> fetched.
Proof.
  destruct (X19_perform_then_cleanup
    (provider [www; mx] slow_dig) (provider [www_sent; mx; challenge] slow_dig) 15
    "example.com" "_acme-challenge.example.com" "abc123"
    [zone "example.org" 1; zone "example.com" 2] w0 w0
    (trace (_perform (provider [www; mx] slow_dig) 15 "example.com"
              "_acme-challenge.example.com" "abc123" w0).1)
    (trace (_cleanup (provider [www_sent; mx; challenge] slow_dig) "example.com"
              "_acme-challenge.example.com" "abc123" w0).1)
    (JNum 2) (JNum 2) [www_sent; mx; challenge] [www_sent; mx])
    as (_ & fetched & name' & Hrec & Hsent1 & Hsent2 & Habsent & _).
  - lia.
  - reflexivity.
  - repeat constructor; by eexists.
  - intros k. reflexivity.
  - intros k. reflexivity.
  - intros z n. reflexivity.
  - reflexivity.
  - apply (bool_decide_unpack _). by vm_compute.
  - reflexivity.
  - reflexivity.
  - apply (bool_decide_unpack _). by vm_compute.
  - exists fetched, name'. split; [exact Hrec|]. split; [exact Hsent1|].
    apply Habsent. injection Hrec as <-.
    apply (bool_decide_unpack _). by vm_compute.
Defined.

(** * Text: length and cancellation *)

Lemma string_app_length (a b : string) :
  String.length (a +:+ b) = String.length a + String.length b.
Proof.
  induction a as [|c a IH]; [done|].
  change (S (String.length (a +:+ b)) = S (String.length a + String.length b)).
  by f_equal.
Qed.

Lemma string_app_assoc (a b c : string) : (a +:+ b) +:+ c = a +:+ b +:+ c.
Proof.
  induction a as [|x a IH]; [done|].
  change (String x ((a +:+ b) +:+ c) = String x (a +:+ b +:+ c)). by f_equal.
Qed.

Lemma string_app_inv_tail (a b x y : string) :
  String.length x = String.length y → a +:+ x = b +:+ y → a = b ∧ x = y.
Proof.
  intros Hlen. revert b. induction a as [|c a IH]; intros [|d b] Heq.
  - split; [done|exact Heq].
  - change (x = String d (b +:+ y)) in Heq. subst x.
    change (S (String.length (b +:+ y)) = String.length y) in Hlen.
    rewrite string_app_length in Hlen. lia.
  - change (String c (a +:+ x) = y) in Heq. subst y.
    change (String.length x = S (String.length (a +:+ x))) in Hlen.
    rewrite string_app_length in Hlen. lia.
  - change (String c (a +:+ x) = String d (b +:+ y)) in Heq.
    apply String_inj in Heq as [-> Heq]. destruct (IH b Heq) as [-> ->]. done.
Qed.

Lemma string_app_inv_head (a b x y : string) :
  String.length a = String.length b → a +:+ x = b +:+ y → a = b ∧ x = y.
Proof.
  revert b. induction a as [|c a IH]; intros [|d b] Hlen Heq; try done.
  change (String c (a +:+ x) = String d (b +:+ y)) in Heq.
  apply String_inj in Heq as [-> Heq]. simpl in Hlen.
  destruct (IH b) as [-> ->]; [lia|done|done].
Qed.

Lemma drop_last_length s : String.length (drop_last s) = pred (String.length s).
Proof.
  induction s as [|c s IH]; [done|].
  destruct s as [|c' s']; [done|].
  change (drop_last (String c (String c' s')))
    with (String c (drop_last (String c' s'))).
  simpl String.length in *. rewrite IH. done.
Qed.

Lemma strftime_length t : String.length (strftime t) = 19.
Proof.
  unfold strftime, dec4. rewrite !string_app_length. simpl String.length. done.
Qed.

(** The tail of a snapshot name, from the dot before the timestamp on. *)
Lemma snapshot_tail_length t tag :
  String.length ("." +:+ strftime t +:+ "." +:+ tag +:+ ".json")
  = 26 + String.length tag.
Proof.
  rewrite !string_app_length, strftime_length. simpl. lia.
Qed.

Lemma snapshot_tail_tags t1 t2 (z1 z2 : string) :
  z1 +:+ "." +:+ strftime t1 +:+ "." +:+ "before" +:+ ".json"
  = z2 +:+ "." +:+ strftime t2 +:+ "." +:+ "after" +:+ ".json" → False.
Proof.
  intros Heq.
  (* the last 31 characters of both sides *)
  change (z1 +:+ "." +:+ strftime t1 +:+ "." +:+ "before" +:+ ".json")
    with (z1 +:+ "." +:+ strftime t1 +:+ ".before.json") in Heq.
  change (z2 +:+ "." +:+ strftime t2 +:+ "." +:+ "after" +:+ ".json")
    with (z2 +:+ ("." +:+ strftime t2 +:+ ".after.json")) in Heq.
  rewrite <-(string_app_assoc z1 ".") in Heq.
  apply string_app_inv_tail in Heq as [_ Heq].
  2:{ rewrite !string_app_length, !strftime_length. done. }
  (* the 19 characters of the first timestamp against a dot and 18 *)
  destruct (drop_last_inv (strftime t2)) as [[H0 _]|[c Hc]].
  { apply (f_equal String.length) in H0. by rewrite strftime_length in H0. }
  rewrite Hc in Heq.
  rewrite (string_app_assoc (drop_last (strftime t2))) in Heq.
  rewrite <-(string_app_assoc "." (drop_last (strftime t2))) in Heq.
  apply string_app_inv_head in Heq as [_ Heq].
  2:{ rewrite string_app_length, drop_last_length, !strftime_length. done. }
  simpl in Heq. apply String_inj in Heq as [_ Heq]. discriminate Heq.
Qed.

(** X20 (when two snapshots are the same file).  For the two tags the
    entry points use and zones whose name does not begin with a slash,
    two snapshots have the same path if and only if they are of the same
    zone, with the same tag, taken at times with the same timestamp:
    within one second a second snapshot of a zone replaces the first. *)
Theorem X20_snapshot_paths_coincide (E1 E2 : env) (zone1 zone2 tag1 tag2 : string) :
  tag1 = "before" ∨ tag1 = "after" → tag2 = "before" ∨ tag2 = "after" →
  (∀ s, zone1 ≠ String "/" s) → (∀ s, zone2 ≠ String "/" s) →
  snapshot_path E1 zone1 tag1 = snapshot_path E2 zone2 tag2 ↔
  zone1 = zone2 ∧ tag1 = tag2 ∧ strftime (now E1) = strftime (now E2).
Proof.
  intros Ht1 Ht2 Hz1 Hz2.
  assert (tag1 ≠ "") as Hn1 by (by destruct Ht1 as [-> | ->]).
  assert (tag2 ≠ "") as Hn2 by (by destruct Ht2 as [-> | ->]).
  rewrite (snapshot_path_name E1 zone1 tag1 Hn1 Hz1).
  rewrite (snapshot_path_name E2 zone2 tag2 Hn2 Hz2).
  split; [|by intros (-> & -> & ->)].
  intros Heq. apply (inj (String.app "/tmp/ngenix-dns-zone/")) in Heq.
  assert (tag1 = tag2) as <-.
  { destruct Ht1 as [-> | ->], Ht2 as [-> | ->]; try done.
    - by destruct (snapshot_tail_tags _ _ _ _ Heq).
    - symmetry in Heq. by destruct (snapshot_tail_tags _ _ _ _ Heq). }
  apply string_app_inv_tail in Heq as [-> Heq].
  2:{ by rewrite !snapshot_tail_length. }
  split; [done|]. split; [done|].
  apply (inj (String.app ".")) in Heq.
  apply string_app_inv_tail in Heq as [Heq _]; done.
Qed.

(** X20, at two publishes in [example.com] at the time of the sample. *)
Lemma X20_snapshot_paths_coincide_witness :
  snapshot_path (provider [] slow_dig) "example.com" "before"
  = snapshot_path (provider [mx] slow_dig) "example.com" "before".
Proof.
  apply (X20_snapshot_paths_coincide (provider [] slow_dig) (provider [mx] slow_dig)
           "example.com" "example.com" "before" "before"); try done; by left.
Defined.

(** * Where the resolver is asked in a publish run *)

Lemma split_after_prefix {A} (L W pre post : list A) (x : A) :
  x ∉ L → L ++ W = pre ++ x :: post →
  ∃ pre', pre = L ++ pre' ∧ W = pre' ++ x :: post.
Proof.
  revert pre. induction L as [|a L IH]; intros pre Hx Heq.
  - by exists pre.
  - destruct pre as [|b pre]; simpl in Heq.
    + injection Heq as -> _. destruct Hx. left.
    + injection Heq as -> Heq. destruct (IH pre) as (pre' & -> & ->); [|done|].
      * intros Hin. apply Hx. by right.
      * by exists pre'.
Qed.

Lemma polls_elem name k ev :
  ev ∈ polls name k → ev = EvDig name ∨ ev = EvSleep 60.
Proof.
  induction k as [|k IH]; [by intros ?%elem_of_nil|].
  rewrite polls_S. intros [Hin|Hin]%elem_of_app; [by apply IH|].
  apply elem_of_cons in Hin as [->|Hin]; [by left|].
  apply list_elem_of_singleton in Hin as ->. by right.
Qed.

Lemma waited_shape E record_name record_content w fuel evs r :
  15 ≤ fuel →
  waited E record_name record_content w fuel evs r →
  ∃ k tail, k ≤ 14 ∧ (tail = [] ∨ tail = [EvDig record_name])
            ∧ evs = EvDig record_name :: polls record_name k ++ tail.
Proof.
  intros Hfuel (w5 & w6 & Hd & Hrun & Htr).
  destruct (wait_for_record_propagation_post E record_name record_content w5 fuel Hfuel)
    as (_ & (k & tail & Hk & Htail & Htr6 & _) & _).
  rewrite Hrun in Htr6. simpl in Htr6. rewrite Htr in Htr6.
  apply app_inv_head in Htr6. eauto.
Qed.

(** X21 (the resolver is asked last, and for the name as given).  In
    every publish run, a query of the resolver is for the record name as
    it was given to the entry point, not for the name relative to the
    zone that was submitted, and it comes after a replacement request
    that the provider answered with a record set. *)
Theorem X21_publish_asks_resolver_last (E : env) (fuel : nat)
    (domain record_name record_content : string) (w : world) :
  15 ≤ fuel →
  ∃ evs,
    trace (add_txt_record E fuel domain record_name record_content w).1 = trace w ++ evs
    ∧ ∀ pre name post,
        evs = pre ++ EvDig name :: post →
        name = record_name
        ∧ ∃ id sent updated,
            EvPatch id sent ∈ pre ∧ patch_resp E id sent = Body updated.
Proof.
  intros Hfuel.
  destruct (publish_table E domain record_name record_content w fuel Hfuel)
    as (j & evs & Hj & Htr & Htab).
  exists (replicate j EvListZones ++ evs). split; [done|].
  clear Htr. intros pre name post Hsplit.
  assert (EvDig name ∉ replicate j EvListZones) as Hl.
  { intros [Hin _]%elem_of_replicate. done. }
  assert (∀ l : list event,
    evs = l → Forall (λ ev, ∀ n, ev ≠ EvDig n) l → False) as Hnone.
  { intros l -> Hall. rewrite Forall_forall in Hall.
    assert (EvDig name ∈ replicate j EvListZones ++ l) as Hin.
    { rewrite Hsplit. apply elem_of_app. right. left. }
    apply elem_of_app in Hin as [Hin|Hin]; [done|]. by destruct (Hall _ Hin name). }
  destruct ((resolve_zone E add_zone_error domain w).2) as [[zone id]|e|];
    [|destruct Htab as [Hev _]; destruct (Hnone _ Hev); constructor|done].
  destruct (records_resp E id) as [| |fetched].
  1,2: destruct Htab as (Hev & _); destruct (Hnone _ Hev); by repeat constructor.
  destruct (write_err E (snapshot_path E zone "before")).
  { destruct Htab as (Hev & _); destruct (Hnone _ Hev); by repeat constructor. }
  simpl in Htab.
  destruct (re_sub_zone_suffix E zone record_name) as [e|name'].
  { destruct Htab as (Hev & _); destruct (Hnone _ Hev); by repeat constructor. }
  destruct (strip_all (fetched ++ [txt_record name' record_content])) as [e|sent].
  { destruct Htab as (Hev & _); destruct (Hnone _ Hev); by repeat constructor. }
  destruct (patch_resp E id sent) as [| |updated] eqn:Hp.
  1,2: destruct Htab as (Hev & _); destruct (Hnone _ Hev); by repeat constructor.
  destruct Htab as (wevs & r & Hwait & -> & _).
  destruct (waited_shape E record_name record_content w fuel wevs r Hfuel Hwait)
    as (k & tail & Hk & Htail & ->).
  match type of Hsplit with
  | ?l = _ =>
      assert (l = (replicate j EvListZones
                   ++ [EvGetZone id; EvBackup (snapshot_path E zone "before") id fetched;
                       EvPatch id sent])
                  ++ EvDig record_name :: polls record_name k ++ tail) as Heq
        by (by rewrite <-app_assoc)
  end.
  rewrite Heq in Hsplit. clear Heq.
  apply split_after_prefix in Hsplit as (pre' & -> & Hw).
  2:{ intros [Hin|Hin]%elem_of_app; [done|].
      repeat (apply elem_of_cons in Hin as [?|Hin]; [done|]).
      by apply elem_of_nil in Hin. }
  split.
  - assert (EvDig name ∈ EvDig record_name :: polls record_name k ++ tail) as Hin.
    { rewrite Hw. apply elem_of_app. right. left. }
    apply elem_of_cons in Hin as [Hin|Hin]; [by injection Hin|].
    apply elem_of_app in Hin as [Hin|Hin].
    + apply polls_elem in Hin as [Hin|Hin]; [by injection Hin|done].
    + destruct Htail as [-> | ->]; [by apply elem_of_nil in Hin|].
      apply list_elem_of_singleton in Hin. by injection Hin.
  - exists id, sent, updated. split; [|done].
    apply elem_of_app. left. apply elem_of_app. right. right. right. left.
Qed.

(** X21, at the publish of [abc123] in [example.com]: its first query
    of the resolver. *)
Lemma X21_publish_asks_resolver_last_witness :
  ∃ id sent updated,
    EvPatch id sent
      ∈ [EvListZones; EvGetZone (JNum 2);
         EvBackup "/tmp/ngenix-dns-zone/example.com.2024-03-09_07-05-42.before.json"
                  (JNum 2) [www; mx];
         EvPatch (JNum 2) [www_sent; mx; challenge]]
    ∧ patch_resp (provider [www; mx] slow_dig) id sent = Body updated.
Proof.
  destruct (X21_publish_asks_resolver_last (provider [www; mx] slow_dig) 15
              "example.com" "_acme-challenge.example.com" "abc123" w0)
    as (evs & Htr & Hall); [lia|].
  apply (Hall _ "_acme-challenge.example.com"
           (polls "_acme-challenge.example.com" 2)).
  simpl in Htr. rewrite <-Htr. vm_compute. reflexivity.
Defined.
